(** * Trader.py: order-book mid price, the two strategies and the cycle
      orchestrator, embedded with Python's dynamic values and exceptions.

    - JSON records are [pyval]; a Python [dict] with string keys is a
      [gmap string pyval] (key order is not observable by this program).
    - Python [int] is [Z]; Python [float] is the kernel's binary64 [float].
    - A raised exception is [Raise e]; the sequencing [x ← e; k] stops at
      the first one, as Python does.
    - [json.loads] and [json.dumps] are library code: they are the two
      parameters of [Section Codec], together with the type of blobs.
    - The C library's [pow], which CPython calls for [**] on floats, is
      the parameter of [Section Libm]: the C standard does not ask it to
      be correctly rounded, and the results of the strategies' square
      and square root depend on the library at hand. *)

From Stdlib Require Import ZArith Floats String List Lia.
From stdpp Require Import base option list gmap strings.

Set Warnings "-register-all,-inexact-float,-clear-no-such-hyp".
Local Open Scope Z_scope.

(** ** Exceptions and results *)

Inductive exn : Type :=
| TypeError | AttributeError | KeyError | ValueError
| OverflowError | ZeroDivisionError | JSONDecodeError.

Inductive result (A : Type) : Type :=
| Ok (a : A)
| Raise (e : exn).
Arguments Ok {A} a.
Arguments Raise {A} e.

#[global] Instance result_ret : MRet result := λ A a, Ok a.
#[global] Instance result_bind : MBind result := λ A B k r,
  match r with Ok a => k a | Raise e => Raise e end.
#[global] Instance result_fmap : FMap result := λ A B f r,
  match r with Ok a => Ok (f a) | Raise e => Raise e end.

(** ** Python values *)

Inductive pyval : Type :=
| VNone
| VBool (b : bool)
| VInt (z : Z)
| VFloat (f : float)
| VStr (s : string)
| VList (l : list pyval)
| VDict (m : gmap string pyval).

(** The numbers: what arithmetic accepts. [bool] is a subclass of [int]. *)
Inductive num : Type :=
| NInt (z : Z)
| NFloat (f : float).

Definition of_num (n : num) : pyval :=
  match n with NInt z => VInt z | NFloat f => VFloat f end.

(** An operand of [+ - * / **] and of an ordering comparison: anything
    that is not a number makes the operation raise [TypeError]. (The one
    operator of the program with a meaning on other JSON values is [c * p]
    in the predictor, where a string or list times an int is a repetition;
    the product is then handed to [sum], whose [+] with a number raises,
    so the call raises in both readings.) *)
Definition as_num (v : pyval) : result num :=
  match v with
  | VBool b => Ok (NInt (if b then 1 else 0))
  | VInt z => Ok (NInt z)
  | VFloat f => Ok (NFloat f)
  | _ => Raise TypeError
  end.

(** ** Floats *)

(** A finite float, or [OverflowError]: Python raises it when an [int]
    does not fit a float. *)
Definition finite_or_overflow (f : float) : result float :=
  match Prim2SF f with
  | S754_zero _ | S754_finite _ _ _ => Ok f
  | _ => Raise OverflowError
  end.

(** [float(z)]: the nearest float, ties to even. *)
Definition int_to_float (z : Z) : result float :=
  finite_or_overflow (SF2Prim (binary_normalize prec emax z 0 false)).

(** [a / b] on ints: the correctly rounded quotient. An exact quotient is
    converted directly; otherwise the quotient is taken to 64 bits or
    more with a sticky last bit and rounded once. *)
Definition int_truediv (a b : Z) : result float :=
  if b =? 0 then Raise ZeroDivisionError
  else if a mod b =? 0 then int_to_float (a / b)
  else
    let n := Z.abs a in
    let d := Z.abs b in
    let k := Z.max 0 (Z.log2 d - Z.log2 n + 64) in
    let q := (n * 2 ^ k) / d in
    let sticky := if (n * 2 ^ k) mod d =? 0 then 0 else 1 in
    let m := 2 * q + sticky in
    let m := if xorb (a <? 0) (b <? 0) then - m else m in
    finite_or_overflow (SF2Prim (binary_normalize prec emax m (- k - 1) false)).

(** [int(f)]: truncation toward zero. *)
Definition float_to_int (f : float) : result Z :=
  match Prim2SF f with
  | S754_nan => Raise ValueError
  | S754_infinity _ => Raise OverflowError
  | S754_zero _ => Ok 0
  | S754_finite s m e =>
      let a := if 0 <=? e then Z.pos m * 2 ^ e else Z.pos m / 2 ^ (- e) in
      Ok (if s then - a else a)
  end.

(** Python compares an int with a float by value, without rounding. *)
Definition compare_int_float (z : Z) (f : float) : option comparison :=
  match Prim2SF f with
  | S754_nan => None
  | S754_infinity s => Some (if s then Gt else Lt)
  | S754_zero _ => Some (z ?= 0)
  | S754_finite s m e =>
      let v := if s then Z.neg m else Z.pos m in
      Some (if 0 <=? e then z ?= v * 2 ^ e else z * 2 ^ (- e) ?= v)
  end.

Definition compare_float (f g : float) : option comparison :=
  match PrimFloat.compare f g with
  | FEq => Some Eq
  | FLt => Some Lt
  | FGt => Some Gt
  | FNotComparable => None
  end.

Definition num_compare (a b : num) : option comparison :=
  match a, b with
  | NInt x, NInt y => Some (x ?= y)
  | NInt x, NFloat g => compare_int_float x g
  | NFloat f, NInt y => CompOpp <$> compare_int_float y f
  | NFloat f, NFloat g => compare_float f g
  end.

Definition num_lt (a b : num) : bool :=
  match num_compare a b with Some Lt => true | _ => false end.
Definition num_gt (a b : num) : bool :=
  match num_compare a b with Some Gt => true | _ => false end.
Definition num_ne (a b : num) : bool :=
  match num_compare a b with Some Eq => false | _ => true end.

(** ** Arithmetic on numbers *)

Definition num_float (a : num) : result float :=
  match a with NInt z => int_to_float z | NFloat f => Ok f end.

Definition arith (fz : Z → Z → Z) (ff : float → float → float)
    (a b : num) : result num :=
  match a, b with
  | NInt x, NInt y => Ok (NInt (fz x y))
  | _, _ => f ← num_float a; g ← num_float b; Ok (NFloat (ff f g))
  end.

Definition num_add : num → num → result num := arith Z.add PrimFloat.add.
Definition num_sub : num → num → result num := arith Z.sub PrimFloat.sub.
Definition num_mul : num → num → result num := arith Z.mul PrimFloat.mul.

(** [a / b]: true division. *)
Definition num_truediv (a b : num) : result num :=
  match a, b with
  | NInt x, NInt y => NFloat <$> int_truediv x y
  | _, _ =>
      f ← num_float a; g ← num_float b;
      if PrimFloat.eqb g 0%float then Raise ZeroDivisionError
      else Ok (NFloat (PrimFloat.div f g))
  end.

(** *** Powers *)

Section Libm.
(** [pow(x, y)] of the C library at hand, as a function of its two
    arguments. CPython (float_pow in Objects/floatobject.c) settles the
    special cases itself, in this order: a nan base gives nan, an
    infinite base with a positive exponent that is not an odd integer
    gives +inf, a zero base with such an exponent gives 0.0, a negative
    base with an exponent that is not an integer gives a complex number,
    a negative base with an even integer exponent is replaced by its
    absolute value, and a base of 1.0 gives 1.0. Only then is [pow]
    called, on a finite positive base other than 1.0; an infinite result
    is reported as [OverflowError]. Besides the result CPython reads
    [errno], which [pow] sets on overflow and on underflow to zero (the
    latter is ignored); it is taken not to set it with any other
    result. *)
Variable pow : float → float → float.

Definition libm_pow (iv iw : float) : result float :=
  let ix := pow iv iw in
  if PrimFloat.is_infinity ix then Raise OverflowError else Ok ix.

(** [x ** 2]: exact on ints; on floats [pow(abs(x), 2.0)] after the
    special cases. *)
Definition num_square (a : num) : result num :=
  match a with
  | NInt x => Ok (NInt (x * x))
  | NFloat f =>
      if PrimFloat.is_nan f then Ok (NFloat f)
      else if PrimFloat.is_infinity f then Ok (NFloat infinity)
      else if PrimFloat.eqb f 0%float then Ok (NFloat 0%float)
      else
        let iv := PrimFloat.abs f in
        if PrimFloat.eqb iv 1%float then Ok (NFloat 1%float)
        else NFloat <$> libm_pow iv 2%float
  end.

(** [x ** 0.5]: an int base is converted to a float first; then
    [pow(x, 0.5)] after the special cases. A negative finite base gives
    a complex number, which no later line of the strategy accepts: the
    comparison [z_score < -1.5] of line 101 raises [TypeError] on it
    (and [int(abs(z_score) * 2)] of line 97 raises before it when the
    quotient by the complex number is not finite). The embedding has no
    complex numbers and raises [TypeError] at once; the variance handed
    to [** 0.5] is negative for no [pow] whose results are not
    ([variance_not_negative]). *)
Definition num_sqrt (a : num) : result num :=
  f ← num_float a;
  if PrimFloat.is_nan f then Ok (NFloat f)
  else if PrimFloat.is_infinity f then Ok (NFloat infinity)
  else if PrimFloat.eqb f 0%float then Ok (NFloat 0%float)
  else if PrimFloat.ltb f 0%float then Raise TypeError
  else if PrimFloat.eqb f 1%float then Ok (NFloat 1%float)
  else NFloat <$> libm_pow f 0.5%float.
End Libm.

Definition num_abs (a : num) : num :=
  match a with NInt x => NInt (Z.abs x) | NFloat f => NFloat (PrimFloat.abs f) end.

Definition num_neg (a : num) : num :=
  match a with NInt x => NInt (- x) | NFloat f => NFloat (PrimFloat.opp f) end.

(** [int(x)] *)
Definition num_int (a : num) : result Z :=
  match a with NInt x => Ok x | NFloat f => float_to_int f end.

(** ** Containers and builtins *)

(** [key in container] *)
Definition py_contains (key : string) (container : pyval) : result bool :=
  match container with
  | VDict m => Ok (bool_decide (is_Some (m !! key)))
  | VStr s => Ok (match String.index 0 key s with Some _ => true | None => false end)
  | VList l =>
      Ok (existsb (λ v, match v with VStr s => String.eqb key s | _ => false end) l)
  | _ => Raise TypeError
  end.

(** [container[key]] with a string key *)
Definition py_getitem (container : pyval) (key : string) : result pyval :=
  match container with
  | VDict m => match m !! key with Some v => Ok v | None => Raise KeyError end
  | _ => Raise TypeError
  end.

(** [container[key] = v] with a string key *)
Definition py_setitem (container : pyval) (key : string) (v : pyval) : result pyval :=
  match container with
  | VDict m => Ok (VDict (<[key := v]> m))
  | _ => Raise TypeError
  end.

(** [if key not in history: history[key] = v] *)
Definition init_if_absent (history : pyval) (key : string) (v : pyval) : result pyval :=
  present ← py_contains key history;
  if (present : bool) then Ok history else py_setitem history key v.

(** [history[key].append(x)]: the list inside the dict is updated in
    place; only a list has [append]. *)
Definition py_append_at (history : pyval) (key : string) (x : pyval) : result pyval :=
  v ← py_getitem history key;
  match v with
  | VList l => py_setitem history key (VList (l ++ [x]))
  | _ => Raise AttributeError
  end.

(** [len(v)] *)
Definition py_len (v : pyval) : result nat :=
  match v with
  | VList l => Ok (length l)
  | VStr s => Ok (String.length s)
  | VDict m => Ok (size m)
  | _ => Raise TypeError
  end.

(** [l[-n:]]: the last [n] elements, the whole list when it is shorter,
    and also when [n] is 0 (the slice [l[-0:]] is [l[0:]]). *)
Definition slice_last {A} (n : nat) (l : list A) : list A :=
  if (n =? 0)%nat then l else drop (length l - n) l.

Definition py_slice_last (v : pyval) (n : nat) : result (list pyval) :=
  match v with
  | VList l => Ok (slice_last n l)
  | _ => Raise TypeError
  end.

(** [sum(f(x) for x in l)]: starts from the int 0; each term is computed
    when the running total is about to take it. The total is the plain
    left-to-right [+] of CPython up to 3.11; from 3.12 on a float total
    carries a compensation term, which changes no sum that is exact. *)
Definition py_sum_gen {A} (f : A → result num) (l : list A) : result num :=
  foldl (λ acc x, total ← acc; term ← f x; num_add total term) (Ok (NInt 0)) l.

(** [sum(l)] *)
Definition py_sum (l : list pyval) : result num := py_sum_gen as_num l.

(** Iterating a JSON value, as [zip] does: the elements of a list, the
    characters of a string, the keys of a dict. *)
Definition py_iter (v : pyval) : result (list pyval) :=
  match v with
  | VList l => Ok l
  | VStr s => Ok ((λ c, VStr (String c EmptyString)) <$> list_ascii_of_string s)
  | VDict m => Ok ((λ kv, VStr kv.1) <$> map_to_list m)
  | _ => Raise TypeError
  end.

(** ** The order book and orders (datamodel) *)

Record OrderDepth : Type := {
  buy_orders : gmap Z Z;
  sell_orders : gmap Z Z
}.

Record Order : Type := {
  symbol : string;
  price : Z;
  quantity : num
}.

(** Truth value of a dict: non-empty. *)
Definition nonempty (d : gmap Z Z) : bool := bool_decide (d ≠ ∅).

(** [min(d.keys())] and [max(d.keys())]; [ValueError] on an empty dict. *)
Definition min_key (d : gmap Z Z) : result Z :=
  match (map_to_list d).*1 with
  | [] => Raise ValueError
  | k :: ks => Ok (foldl Z.min k ks)
  end.

Definition max_key (d : gmap Z Z) : result Z :=
  match (map_to_list d).*1 with
  | [] => Raise ValueError
  | k :: ks => Ok (foldl Z.max k ks)
  end.

(** ** The strategies and the orchestrator *)

Section Codec.
(** The opaque state string, [json.loads] (which may raise) and
    [json.dumps] (which does not, on the records built here). The
    program only decodes a blob, encodes one, or hands one back.
    The keyword parameters [window_size] and [lag] range over the
    non-negative ints, and every call passes all its parameters: the
    defaults of the source are 20 and 10 for the mean reversion and
    4, 10, 1.0 and 50 for the predictor. [pow] is the C library's, as
    in [Section Libm]. *)
Context {blob : Type}.
Variable loads : blob → result pyval.
Variable dumps : pyval → blob.
Variable pow : float → float → float.

Record TradingState : Type := {
  traderData : blob;
  order_depths : gmap string OrderDepth
}.

(** *** Mean reversion: [compute_rainforest_orders] *)

(** Lines 69-74: the [try] covers the decoding, the membership test and
    the assignment; any exception gives the fresh record. *)
Definition load_rainforest_history (trader_data : blob) : pyval :=
  match (history ← loads trader_data;
         init_if_absent history "rainforest_prices" (VList [])) with
  | Ok history => history
  | Raise _ => VDict {["rainforest_prices" := VList []]}
  end.

(** [sum(recent_prices) / window_size] *)
Definition rolling_mean_of (recent_prices : list pyval) (window_size : nat) : result num :=
  total ← py_sum recent_prices;
  num_truediv total (NInt (Z.of_nat window_size)).

(** [(sum((p - rolling_mean) ** 2 for p in recent_prices) / window_size) ** 0.5] *)
Definition rolling_std_of (recent_prices : list pyval) (rolling_mean : num)
    (window_size : nat) : result num :=
  total ← py_sum_gen (λ p, p ← as_num p; d ← num_sub p rolling_mean; num_square pow d)
                     recent_prices;
  variance ← num_truediv total (NInt (Z.of_nat window_size));
  num_sqrt pow variance.

(** [(mid_price - rolling_mean) / rolling_std if rolling_std != 0 else 0] *)
Definition z_score_of (mid_price rolling_mean rolling_std : num) : result num :=
  if num_ne rolling_std (NInt 0)
  then d ← num_sub mid_price rolling_mean; num_truediv d rolling_std
  else Ok (NInt 0).

(** [max(1, int(abs(z_score) * 2))] *)
Definition scale_factor_of (z_score : num) : result Z :=
  doubled ← num_mul (num_abs z_score) (NInt 2);
  n ← num_int doubled;
  Ok (Z.max 1 n).

(** Lines 82-109: the statistics of the window and the order. *)
Definition rainforest_signal (target_product : string) (order_depth : OrderDepth)
    (mid_price : num) (recent_prices : list pyval) (window_size : nat)
    (base_quantity : Z) : result (list Order) :=
  rolling_mean ← rolling_mean_of recent_prices window_size;
  rolling_std ← rolling_std_of recent_prices rolling_mean window_size;
  z_score ← z_score_of mid_price rolling_mean rolling_std;
  scale_factor ← scale_factor_of z_score;
  let order_quantity := base_quantity * scale_factor in
  if num_lt z_score (NFloat (-1.5)%float) && nonempty (sell_orders order_depth) then
    best_ask ← min_key (sell_orders order_depth);
    Ok [ {| symbol := target_product; price := best_ask;
            quantity := NInt order_quantity |} ]
  else if num_gt z_score (NFloat 1.5%float) && nonempty (buy_orders order_depth) then
    best_bid ← max_key (buy_orders order_depth);
    Ok [ {| symbol := target_product; price := best_bid;
            quantity := NInt (- order_quantity) |} ]
  else Ok [].

Definition compute_rainforest_orders (target_product : string)
    (order_depth : OrderDepth) (mid_price : num) (trader_data : blob)
    (window_size : nat) (base_quantity : Z) : result (list Order * blob) :=
  let history := load_rainforest_history trader_data in
  history ← py_append_at history "rainforest_prices" (of_num mid_price);
  prices ← py_getitem history "rainforest_prices";
  n ← py_len prices;
  orders ← (if bool_decide (window_size ≤ n)%nat then
              recent_prices ← py_slice_last prices window_size;
              rainforest_signal target_product order_depth mid_price
                                recent_prices window_size base_quantity
            else Ok []);
  Ok (orders, dumps history).

(** *** Autoregressive predictor: [compute_model_based_orders] *)

Definition default_model_params : pyval :=
  VDict (<["intercept" := VFloat 0.39903304835706876%float]>
         (<["coefficients" := VList [VFloat 0.81988331%float; VFloat 0.1248814%float;
                                     VFloat 0.07095404%float; VFloat (-0.01592438)%float]]>
          ∅)).

(** Lines 138-154: only the decoding is inside the [try]; the three
    membership tests and assignments come after it. *)
Definition load_model_history (trader_data : blob) : result pyval :=
  let history := match loads trader_data with
                 | Ok history => history
                 | Raise _ => VDict ∅
                 end in
  history ← init_if_absent history "model_history" (VList []);
  history ← init_if_absent history "position" (VInt 0);
  init_if_absent history "model_params" default_model_params.

(** Lines 164-172: [intercept + sum(c * p for c, p in zip(coefficients,
    recent_prices)) - mid_price]. *)
Definition model_deviation (history : pyval) (recent_prices : list pyval)
    (mid_price : num) : result num :=
  model_params ← py_getitem history "model_params";
  intercept ← py_getitem model_params "intercept";
  coefficients ← py_getitem model_params "coefficients";
  coefficients ← py_iter coefficients;
  total ← py_sum_gen (λ cp : pyval * pyval,
                        c ← as_num cp.1; p ← as_num cp.2; num_mul c p)
                     (zip coefficients recent_prices);
  intercept ← as_num intercept;
  predicted_price ← num_add intercept total;
  num_sub predicted_price mid_price.

(** [history["position"] = history["position"] op trade_size] *)
Definition update_position (history : pyval) (op : num → num → result num)
    (trade_size : num) : result pyval :=
  position ← py_getitem history "position";
  position ← as_num position;
  position ← op position trade_size;
  py_setitem history "position" (of_num position).

(** Lines 176-204: taken when [abs(deviation) > threshold]. *)
Definition model_trade (target_product : string) (order_depth : OrderDepth)
    (history : pyval) (deviation : num) (base_quantity : Z) (threshold : num)
    (max_position : Z) : result (list Order * pyval) :=
  scaled ← num_mul (NInt base_quantity) (num_abs deviation);
  order_quantity ← num_int scaled;
  let order_quantity := Z.min order_quantity max_position in
  current_position ← py_getitem history "position";
  if num_gt deviation threshold && nonempty (sell_orders order_depth) then
    let desired_position := max_position in
    current_position ← as_num current_position;
    trade_size ← num_sub (NInt desired_position) current_position;
    if num_gt trade_size (NInt 0) then
      best_ask ← min_key (sell_orders order_depth);
      history ← update_position history num_add trade_size;
      Ok ([ {| symbol := target_product; price := best_ask;
               quantity := trade_size |} ], history)
    else Ok ([], history)
  else if num_lt deviation (num_neg threshold) && nonempty (buy_orders order_depth) then
    let desired_position := - max_position in
    current_position ← as_num current_position;
    trade_size ← num_sub current_position (NInt desired_position);
    if num_gt trade_size (NInt 0) then
      best_bid ← max_key (buy_orders order_depth);
      history ← update_position history num_sub trade_size;
      Ok ([ {| symbol := target_product; price := best_bid;
               quantity := num_neg trade_size |} ], history)
    else Ok ([], history)
  else Ok ([], history).

Definition compute_model_based_orders (target_product : string)
    (order_depth : OrderDepth) (mid_price : num) (trader_data : blob)
    (lag : nat) (base_quantity : Z) (threshold : num) (max_position : Z)
    : result (list Order * blob) :=
  history ← load_model_history trader_data;
  history ← py_append_at history "model_history" (of_num mid_price);
  prices ← py_getitem history "model_history";
  n ← py_len prices;
  '(orders, history) ←
    (if bool_decide (lag ≤ n)%nat then
       recent_prices ← py_slice_last prices lag;
       deviation ← model_deviation history recent_prices mid_price;
       if num_gt (num_abs deviation) threshold then
         model_trade target_product order_depth history deviation
                     base_quantity threshold max_position
       else Ok ([], history)
     else Ok ([], history));
  Ok (orders, dumps history).

(** *** The orchestrator: [Trader.run] *)

(** [target_product], the one instrument [run] trades. *)
Definition target : string := "RAINFOREST_RESIN".

(** Lines 26-34: the mid price, [None] when both sides are empty. *)
Definition mid_price_of (order_depth : OrderDepth) : result (option num) :=
  if nonempty (buy_orders order_depth) && nonempty (sell_orders order_depth) then
    best_bid ← max_key (buy_orders order_depth);
    best_ask ← min_key (sell_orders order_depth);
    mid ← num_truediv (NInt (best_bid + best_ask)) (NInt 2);
    Ok (Some mid)
  else if nonempty (sell_orders order_depth) then
    best_ask ← min_key (sell_orders order_depth);
    Ok (Some (NInt best_ask))
  else if nonempty (buy_orders order_depth) then
    best_bid ← max_key (buy_orders order_depth);
    Ok (Some (NInt best_bid))
  else Ok None.

(** Lines 15-17: every product other than the target gets the empty
    list. *)
Definition ignore_others (depths : gmap string OrderDepth) : gmap string (list Order) :=
  map_fold (λ product _ result,
              if decide (product ≠ target) then <[product := []]> result else result)
           ∅ depths.

Definition run (state : TradingState)
    : result (gmap string (list Order) * Z * blob) :=
  let result := ignore_others (order_depths state) in
  match order_depths state !! target with
  | None => Ok (result, 1, traderData state)
  | Some order_depth =>
      mid_price ← mid_price_of order_depth;
      match mid_price with
      | None => Ok (<[target := []]> result, 1, traderData state)
      | Some mid_price =>
          '(orders, new_trader_data) ←
            compute_rainforest_orders target order_depth mid_price
                                      (traderData state) 20 10;
          Ok (<[target := orders]> result, 1, new_trader_data)
      end
  end.
End Codec.

Arguments TradingState blob : clear implicits.

(** ** Repeated cycles and reachable states *)

Section Cycles.
Context {blob : Type}.
Variable loads : blob → result pyval.
Variable dumps : pyval → blob.
Variable pow : float → float → float.

(** The harness calls a strategy once per cycle and hands the returned
    blob to the next call; here the mid price is the same every cycle
    and the order book of each cycle is taken from [books]. The orders
    of all the cycles are collected. *)
Fixpoint repeat_rainforest (target_product : string) (books : list OrderDepth)
    (mid_price : num) (trader_data : blob) (window_size : nat) (base_quantity : Z)
    : result (list Order * blob) :=
  match books with
  | [] => Ok ([], trader_data)
  | order_depth :: books =>
      '(orders, trader_data) ←
        compute_rainforest_orders loads dumps pow target_product order_depth mid_price
                                  trader_data window_size base_quantity;
      '(later, trader_data) ←
        repeat_rainforest target_product books mid_price trader_data
                          window_size base_quantity;
      Ok (orders ++ later, trader_data)
  end.

Fixpoint repeat_model_based (target_product : string) (books : list OrderDepth)
    (mid_price : num) (trader_data : blob) (lag : nat) (base_quantity : Z)
    (threshold : num) (max_position : Z) : result (list Order * blob) :=
  match books with
  | [] => Ok ([], trader_data)
  | order_depth :: books =>
      '(orders, trader_data) ←
        compute_model_based_orders loads dumps target_product order_depth mid_price
                                   trader_data lag base_quantity threshold max_position;
      '(later, trader_data) ←
        repeat_model_based target_product books mid_price trader_data
                           lag base_quantity threshold max_position;
      Ok (orders ++ later, trader_data)
  end.

(** A blob on which the predictor starts with position 0: one that does
    not decode (the empty string of the first cycle), or a record
    without the key ["position"]. *)
Definition starts_fresh (trader_data : blob) : Prop :=
  match loads trader_data with
  | Raise _ => True
  | Ok (VDict m) => m !! "position" = None
  | Ok _ => False
  end.

(** The blobs the predictor can be handed when every cycle receives
    what the previous one returned; the book, the price and the
    parameters other than [max_position] are free in every cycle. *)
Inductive reachable (max_position : Z) : blob → Prop :=
| reach_fresh trader_data :
    starts_fresh trader_data → reachable max_position trader_data
| reach_cycle trader_data target_product order_depth mid_price lag
              base_quantity threshold orders trader_data' :
    reachable max_position trader_data →
    compute_model_based_orders loads dumps target_product order_depth mid_price
      trader_data lag base_quantity threshold max_position
      = Ok (orders, trader_data') →
    reachable max_position trader_data'.

(** The position the predictor reads from a blob ([current_position]):
    the persisted one, or the 0 it is initialised to. *)
Definition position_of (trader_data : blob) : result pyval :=
  history ← load_model_history loads trader_data;
  py_getitem history "position".

Definition position_within (max_position : Z) (trader_data : blob) : Prop :=
  ∃ z, position_of trader_data = Ok (VInt z) ∧ - max_position ≤ z ≤ max_position.
End Cycles.

(** ** Vocabulary of the statements and sample data *)

(** [k] is the greatest (least) price quoted in [d]. *)
Definition greatest_key (d : gmap Z Z) (k : Z) : Prop :=
  is_Some (d !! k) ∧ ∀ k', is_Some (d !! k') → k' ≤ k.
Definition least_key (d : gmap Z Z) (k : Z) : Prop :=
  is_Some (d !! k) ∧ ∀ k', is_Some (d !! k') → k ≤ k'.

(** The float [f] is exactly [m * 2 ^ e]. *)
Definition float_is (f : float) (m e : Z) : Prop :=
  match Prim2SF f with
  | S754_zero _ => m = 0
  | S754_finite s mf ef =>
      let c := Z.min ef e in
      (if s then Z.neg mf else Z.pos mf) * 2 ^ (ef - c) = m * 2 ^ (e - c)
  | _ => False
  end.

(** [p] shifted left by [k] binary places. *)
Definition shifted (p : positive) (k : Z) : positive :=
  match k with Zpos k => Pos.iter xO p k | _ => p end.

(** Lines 83-88 on a window: the z-score. *)
Definition window_z_score (pow : float → float → float) (mid_price : num)
    (recent_prices : list pyval) (window_size : nat) : result num :=
  rolling_mean ← rolling_mean_of recent_prices window_size;
  rolling_std ← rolling_std_of pow recent_prices rolling_mean window_size;
  z_score_of mid_price rolling_mean rolling_std.

(** On a window of [window_size] copies of [p] the strategy finds a
    z-score, can take [int(abs(z_score) * 2)] of it, and the z-score is
    neither below -1.5 nor above 1.5. *)
Definition flat_window_quiet (pow : float → float → float) (p : num)
    (window_size : nat) : Prop :=
  ∃ z_score scale_factor,
    window_z_score pow p (repeat (of_num p) window_size) window_size = Ok z_score ∧
    scale_factor_of z_score = Ok scale_factor ∧
    num_lt z_score (NFloat (-1.5)) = false ∧
    num_gt z_score (NFloat 1.5) = false.

(** The mean of a window of copies of [p] is computed as [p] itself:
    [mid_price - rolling_mean] is 0.0. This holds for every int that
    fits a float and for the floats whose sum over the window is exact
    (10000.0, 9999.5, ...), but not for 0.1. *)
Definition averages_exactly (p : num) (window_size : nat) : Prop :=
  ∃ f, rolling_mean_of (repeat (of_num p) window_size) window_size = Ok (NFloat f) ∧
       num_sub p (NFloat f) = Ok (NFloat 0).

(** The values of the C library's [pow] at the calls the examples make,
    all of them exact powers: [pow(3.0, 2.0)] is 9.0, [pow(4.0, 2.0)] is
    16.0 and [pow(4.0, 0.5)] is 2.0; for the window of copies of 0.1,
    [pow(2^-56, 2.0)] is 2^-112 and [pow(2^-112, 0.5)] is 2^-56. nan
    stands for the calls the examples do not make. *)
Definition sample_pow (x y : float) : float :=
  if PrimFloat.eqb y 2%float then
    if PrimFloat.eqb x 3%float then 9%float
    else if PrimFloat.eqb x 4%float then 16%float
    else if PrimFloat.eqb x 1.3877787807814457e-17%float then 1.925929944387236e-34%float
    else nan
  else if PrimFloat.eqb y 0.5%float then
    if PrimFloat.eqb x 4%float then 2%float
    else if PrimFloat.eqb x 1.925929944387236e-34%float then 1.3877787807814457e-17%float
    else nan
  else nan.

(** A blob taken up to what [json.loads] makes of it: the record it
    decodes to, or the exception. Encoding then decoding gives the record
    back, which is what [json] does on the records of this program. *)
Definition parsed_loads (trader_data : result pyval) : result pyval := trader_data.
Definition parsed_dumps (history : pyval) : result pyval := Ok history.

(** A book quoting one unit at each of the given bid and ask prices. *)
Definition book (bids asks : list Z) : OrderDepth :=
  {| buy_orders := list_to_map ((λ k, (k, 1)) <$> bids);
     sell_orders := list_to_map ((λ k, (k, -1)) <$> asks) |}.

(** Twenty prices with mean 100 and population standard deviation 1, the
    last one 97. *)
Definition three_sigma_window : list pyval :=
  VInt <$> (repeat 101 7 ++ repeat 99 4 ++ repeat 100 8 ++ [97]).

Definition rainforest_record (prices : list pyval) : pyval :=
  VDict {["rainforest_prices" := VList prices]}.

(** The blob before the cycle that appends the 97. *)
Definition three_sigma_blob : result pyval :=
  Ok (rainforest_record (take 19 three_sigma_window)).

(** A snapshot quoting another instrument on both sides and the target
    on neither. *)
Definition quiet_state : TradingState (result pyval) :=
  {| traderData := three_sigma_blob;
     order_depths := {[ "KELP" := book [2028] [2032]; target := book [] [] ]} |}.

(** A record carrying a key that belongs to neither strategy. *)
Definition extended_record : gmap string pyval :=
  {[ "rainforest_prices" := VList [VInt 10000]; "harness_note" := VStr "kept" ]}.

Definition model_record (prices : list pyval) (position : pyval) : pyval :=
  VDict (<["model_history" := VList prices]>
         (<["position" := position]>
          {["model_params" := default_model_params]})).

(** A record whose own model parameters predict exactly 1.0 above a mid
    price of 0. *)
Definition unit_deviation_record : gmap string pyval :=
  {[ "model_history" := VList [VInt 0; VInt 0; VInt 0];
     "position" := VInt 0;
     "model_params" := VDict {[ "intercept" := VFloat 1; "coefficients" := VList [] ]} ]}.

(** Three cycles at 10 under the default parameters; a mid price of 8
    then lies more than 1.0 under the prediction. *)
Definition rising_record : gmap string pyval :=
  {[ "model_history" := VList [VInt 10; VInt 10; VInt 10];
     "position" := VInt 0;
     "model_params" := default_model_params ]}.

(** Three cycles at 1.7e308 under the default parameters; a mid price of
    1.5 then lies about 1.7e308 under the prediction. *)
Definition huge_record : gmap string pyval :=
  {[ "model_history" := VList (repeat (VFloat 1.7e308) 3);
     "position" := VInt 0;
     "model_params" := default_model_params ]}.

(** The predictor's record once its window holds four times 10000.0. *)
Definition flat_record (position : Z) (cycles : nat) : pyval :=
  model_record (repeat (VFloat 10000) cycles) (VInt position).

(** Three books around 10000: two-sided, asks only, bids only. *)
Definition sample_books : list OrderDepth :=
  [book [9999] [10001]; book [] [10000]; book [10000] []].

(** The predictor's record after four cycles at the int 1000, where the
    default parameters predict about 1000.19. *)
Definition calm_record : gmap string pyval :=
  {[ "model_history" := VList (repeat (VInt 1000) 4);
     "position" := VInt 0;
     "model_params" := default_model_params ]}.

(** A record in which both strategies have persisted a few prices. *)
Definition young_record : gmap string pyval :=
  {[ "rainforest_prices" := VList [VInt 9999; VFloat 10000.5; VInt 10001];
     "model_history" := VList [VInt 9999; VFloat 10000.5] ]}.

(** A record whose two histories are not lists. *)
Definition broken_record : gmap string pyval :=
  {[ "rainforest_prices" := VInt 5; "model_history" := VStr "x" ]}.

(** A record the predictor has persisted, except that its model
    parameters lost the intercept. *)
Definition headless_record : gmap string pyval :=
  {[ "model_history" := VList [VInt 10; VInt 10; VInt 10];
     "position" := VInt 0;
     "model_params" := VDict {[ "coefficients" := VList [] ]} ]}.

(** Twenty prices with mean 100 and population standard deviation 1, the
    last one 103; and the blob before the cycle that appends the 103. *)
Definition overbought_window : list pyval :=
  VInt <$> (repeat 99 7 ++ repeat 101 4 ++ repeat 100 8 ++ [103]).

Definition overbought_blob : result pyval :=
  Ok (rainforest_record (take 19 overbought_window)).

(** Twenty prices with mean 100 and population standard deviation 2, the
    last one 97: a z-score of exactly -1.5. *)
Definition boundary_window : list pyval :=
  VInt <$> ([104; 104; 96; 96] ++ repeat 101 5 ++ repeat 99 2 ++ repeat 100 8 ++ [97]).

Definition boundary_blob : result pyval :=
  Ok (rainforest_record (take 19 boundary_window)).

(** ** Cycles of the orchestrator *)

Section RunCycles.
Context {blob : Type}.
Variable loads : blob → result pyval.
Variable dumps : pyval → blob.
Variable pow : float → float → float.

(** The harness calls [run] once per snapshot and hands the returned
    blob to the next call; the result maps of the cycles are collected. *)
Fixpoint run_cycles (snapshots : list (gmap string OrderDepth)) (trader_data : blob)
    : result (list (gmap string (list Order)) * blob) :=
  match snapshots with
  | [] => Ok ([], trader_data)
  | depths :: snapshots =>
      '(result, _, trader_data) ←
        run loads dumps pow {| traderData := trader_data; order_depths := depths |};
      '(results, trader_data) ← run_cycles snapshots trader_data;
      Ok (result :: results, trader_data)
  end.

(** The blob loads to a record whose history has at most [n] prices. *)
Definition warming (trader_data : blob) (n : nat) : Prop :=
  ∃ m l, load_rainforest_history loads trader_data = VDict m ∧
         m !! "rainforest_prices" = Some (VList l) ∧ (length l ≤ n)%nat.
End RunCycles.

(** Two books quote the same price levels, whatever the quantities; two
    snapshots quote the same instruments at the same price levels. *)
Definition same_levels (book1 book2 : OrderDepth) : Prop :=
  dom (buy_orders book1) = dom (buy_orders book2) ∧
  dom (sell_orders book1) = dom (sell_orders book2).

Definition same_snapshot (depths1 depths2 : gmap string OrderDepth) : Prop :=
  ∀ product, option_Forall2 same_levels (depths1 !! product) (depths2 !! product).

(** A result map without any order. *)
Definition no_orders (result : gmap string (list Order)) : Prop :=
  ∀ product orders, result !! product = Some orders → orders = [].

(** The three-sigma book with other quantities. *)
Definition heavier_book : OrderDepth :=
  {| buy_orders := {[ 96 := 40 ]}; sell_orders := {[ 98 := -7; 99 := -300 ]} |}.

(** Nineteen snapshots: the first without the target, the others quoting
    it around 10000. *)
Definition warm_up_snapshots : list (gmap string OrderDepth) :=
  {[ "KELP" := book [2028] [2032] ]}
  :: repeat {[ "KELP" := book [2028] [2032]; target := book [9998] [10002] ]} 18.

(** ** manual_trade_analysis.py: the conversion cycles *)

Definition commodities : list string :=
  ["Snowballs"; "Pizza's"; "Silicon Nuggets"; "SeaShells"].

(** The conversion table, row by row ([index] gives the row, [columns]
    the entry); every column of the DataFrame holds a float, so the
    entries written [1] are 1.0. *)
Definition conversion_rates : list (list float) :=
  [ [1; 1.45; 0.52; 0.72];
    [0.7; 1; 0.31; 0.48];
    [1.95; 3.1; 1; 1.49];
    [1.34; 1.98; 0.64; 1] ]%float.

(** The position of a label in the index (or the columns); [KeyError]
    when it is not one. *)
Fixpoint label_position (label : string) (labels : list string) : result nat :=
  match labels with
  | [] => Raise KeyError
  | l :: labels =>
      if String.eqb label l then Ok 0%nat
      else S <$> label_position label labels
  end.

(** [conversion_rates.loc[from_commodity, to_commodity]] *)
Definition loc (from_commodity to_commodity : string) : result float :=
  i ← label_position from_commodity commodities;
  j ← label_position to_commodity commodities;
  match conversion_rates !! i ≫= (.!! j) with
  | Some rate => Ok rate
  | None => Raise KeyError
  end.

(** The loop of [calculate_cycle_profit] from step [i] on, with the
    profit so far: one multiplication per pair of neighbours. *)
Fixpoint cycle_profit_from (profit : num) (cycle : list string) : result num :=
  match cycle with
  | from_commodity :: rest =>
      match rest with
      | to_commodity :: _ =>
          rate ← loc from_commodity to_commodity;
          profit ← num_mul profit (NFloat rate);
          cycle_profit_from profit rest
      | [] => Ok profit
      end
  | [] => Ok profit
  end.

Definition calculate_cycle_profit (cycle : list string) : result num :=
  cycle_profit_from (NInt 1) cycle.

(** Every way to take one element out of a list, in order of position,
    with what is left. *)
Fixpoint selections {A} (pool : list A) : list (A * list A) :=
  match pool with
  | [] => []
  | x :: pool => (x, pool) :: ((λ '(y, rest), (y, x :: rest)) <$> selections pool)
  end.

(** [itertools.permutations(pool, r)]: the arrangements of [r] elements
    taken at distinct positions, in lexicographic order of positions. *)
Fixpoint permutations {A} (r : nat) (pool : list A) : list (list A) :=
  match r with
  | O => [[]]
  | S r => '(x, rest) ← selections pool; (x ::.) <$> permutations r rest
  end.

(** Lines 31-34: the cycles the two loops build, in order. *)
Definition full_cycles : list (list string) :=
  length ← seq 1 5;
  cycle ← permutations length (removelast commodities);
  [["SeaShells"] ++ cycle ++ ["SeaShells"]].

(** Lines 35-37 over the cycles built: what [profitable_cycles] holds
    when the loops end. *)
Definition profitable_cycles : result (list (list string * num)) :=
  foldl (λ found full_cycle,
           found ← found;
           profit ← calculate_cycle_profit full_cycle;
           if num_gt profit (NInt 1) then Ok (found ++ [(full_cycle, profit)])
           else Ok found)
        (Ok []) full_cycles.

(** * Properties *)

(** ** Ints that are floats *)

Lemma digits2_pos_iter (p k : positive) :
  digits2_pos (Pos.iter xO p k) = (digits2_pos p + k)%positive.
Proof.
  induction k as [|k IH] using Pos.peano_ind.
  - simpl. lia.
  - rewrite Pos.iter_succ. simpl. rewrite IH. lia.
Qed.

Lemma Zpos_iter (p k : positive) :
  Z.pos (Pos.iter xO p k) = Z.pos p * 2 ^ Z.pos k.
Proof.
  induction k as [|k IH] using Pos.peano_ind.
  - simpl. lia.
  - rewrite Pos.iter_succ, Pos2Z.inj_succ, Z.pow_succ_r by lia.
    rewrite Pos2Z.inj_xO, IH. lia.
Qed.

(** A mantissa of at most 53 bits is not rounded: it is shifted left to
    53 bits, within the exponent range. *)
Lemma binary_round_exact (sx : bool) (p : positive) (e : Z) :
  let d := Z.pos (digits2_pos p) in
  d ≤ 53 → -1074 ≤ e + d - 53 ≤ 971 →
  binary_round prec emax sx p e = S754_finite sx (shifted p (53 - d)) (e + d - 53) ∧
  valid_binary (S754_finite sx (shifted p (53 - d)) (e + d - 53)) = true.
Proof.
  intros d Hd He.
  assert (Hdigits : Z.pos (digits2_pos (shifted p (53 - d))) = 53).
  { unfold shifted. destruct (53 - d) as [|k|k] eqn:Hk; [lia| |lia].
    rewrite digits2_pos_iter. lia. }
  split.
  - unfold binary_round, shl_align, fexp, SpecFloat.emin.
    change prec with 53. change emax with 1024. fold d.
    rewrite Z.max_l by lia.
    replace (d + e - 53 - e) with (- (53 - d)) by lia.
    assert (Haux : binary_round_aux 53 1024 sx (Z.pos (shifted p (53 - d))) (e + d - 53)
                     loc_Exact
                   = S754_finite sx (shifted p (53 - d)) (e + d - 53)).
    { unfold binary_round_aux, shr_fexp, fexp, SpecFloat.emin, Zdigits2.
      rewrite Hdigits. rewrite Z.max_l by lia.
      replace (53 + (e + d - 53) - 53 - (e + d - 53)) with 0 by lia.
      cbn [shr shr_record_of_loc loc_of_shr_record shr_m round_nearest_even Zdigits2].
      rewrite Hdigits. rewrite Z.max_l by lia.
      replace (53 + (e + d - 53) - 53 - (e + d - 53)) with 0 by lia.
      cbn [shr shr_record_of_loc shr_m].
      replace (e + d - 53 <=? 1024 - 53) with true by (symmetry; apply Z.leb_le; lia).
      done. }
    unfold shifted in Haux |- *.
    destruct (53 - d) as [|k|k] eqn:Hk; [| |lia].
    + change (- 0) with 0. cbv beta iota.
      replace (e + d - 53) with e in * by lia. exact Haux.
    + change (- Z.pos k) with (Z.neg k). cbv beta iota.
      replace (d + e - 53) with (e + d - 53) by lia. exact Haux.
  - unfold valid_binary, SpecFloat.valid_binary, bounded, canonical_mantissa, fexp,
      SpecFloat.emin.
    change prec with 53. change emax with 1024.
    rewrite Hdigits. rewrite Z.max_l by lia.
    apply andb_true_intro. split; [apply Z.eqb_eq; lia | apply Z.leb_le; lia].
Qed.

Lemma digits2_pos_bounds (p : positive) :
  2 ^ (Z.pos (digits2_pos p) - 1) ≤ Z.pos p < 2 ^ Z.pos (digits2_pos p).
Proof.
  induction p as [p IH|p IH|]; cbn [digits2_pos].
  - rewrite Pos2Z.inj_succ. replace (Z.succ (Z.pos (digits2_pos p)) - 1)
      with (Z.succ (Z.pos (digits2_pos p) - 1)) by lia.
    rewrite !Z.pow_succ_r by lia. lia.
  - rewrite Pos2Z.inj_succ. replace (Z.succ (Z.pos (digits2_pos p)) - 1)
      with (Z.succ (Z.pos (digits2_pos p) - 1)) by lia.
    rewrite !Z.pow_succ_r by lia. lia.
  - simpl. lia.
Qed.

Lemma digits2_pos_le (p : positive) (n : Z) :
  0 ≤ n → Z.pos p < 2 ^ n → Z.pos (digits2_pos p) ≤ n.
Proof.
  intros Hn Hp. destruct (digits2_pos_bounds p) as [Hlow _].
  destruct (Z.le_gt_cases (Z.pos (digits2_pos p)) n) as [|Hgt]; [done|].
  assert (2 ^ n ≤ 2 ^ (Z.pos (digits2_pos p) - 1)) by (apply Z.pow_le_mono_r; lia).
  lia.
Qed.

Lemma log2_digits (p : positive) : Z.log2 (Z.pos p) = Z.pos (digits2_pos p) - 1.
Proof.
  apply Z.log2_unique; [lia|].
  replace (Z.succ (Z.pos (digits2_pos p) - 1)) with (Z.pos (digits2_pos p)) by lia.
  apply digits2_pos_bounds.
Qed.

Lemma Zpos_shifted (p : positive) (k : Z) :
  0 ≤ k → Z.pos (shifted p k) = Z.pos p * 2 ^ k.
Proof.
  intros Hk. destruct k as [|k|k]; [simpl; lia| |lia].
  apply Zpos_iter.
Qed.

Lemma shr_13 (q : positive) :
  SpecFloat.iter_pos shr_1 13
    {| shr_m := Z.pos (Pos.iter xO q 13); shr_r := false; shr_s := false |}
  = {| shr_m := Z.pos q; shr_r := false; shr_s := false |}.
Proof. reflexivity. Qed.

(** The same float from a mantissa carried to 66 bits, as the division
    of two ints does: the 13 bits shifted out are zero. *)
Lemma binary_round_66 (sx : bool) (p k : positive) :
  let d := Z.pos (digits2_pos p) in
  d ≤ 53 → Z.pos k = 66 - d →
  binary_round prec emax sx (Pos.iter xO p k) (- Z.pos k - 1)
  = S754_finite sx (shifted p (53 - d)) (d - 54).
Proof.
  intros d Hd Hk.
  assert (Hsplit : Pos.iter xO p k = Pos.iter xO (shifted p (53 - d)) 13).
  { unfold shifted. destruct (53 - d) as [|j|j] eqn:Hj; [|  |lia].
    - by replace k with 13%positive by lia.
    - rewrite <- Pos.iter_add. f_equal. lia. }
  assert (Hdigits : Z.pos (digits2_pos (shifted p (53 - d))) = 53).
  { unfold shifted. destruct (53 - d) as [|j|j] eqn:Hj; [lia| |lia].
    rewrite digits2_pos_iter. lia. }
  unfold binary_round, shl_align, fexp, SpecFloat.emin.
  change prec with 53. change emax with 1024.
  rewrite digits2_pos_iter, Pos2Z.inj_add. fold d.
  rewrite Z.max_l by lia.
  replace (d + Z.pos k + (- Z.pos k - 1) - 53 - (- Z.pos k - 1)) with 13 by lia.
  cbv beta iota.
  unfold binary_round_aux, shr_fexp, fexp, SpecFloat.emin, Zdigits2.
  rewrite digits2_pos_iter, Pos2Z.inj_add. fold d.
  rewrite Z.max_l by lia.
  replace (d + Z.pos k + (- Z.pos k - 1) - 53 - (- Z.pos k - 1)) with 13 by lia.
  unfold shr_record_of_loc, shr. rewrite Hsplit, shr_13.
  cbn [loc_of_shr_record shr_m round_nearest_even].
  rewrite Hdigits. rewrite Z.max_l by lia.
  replace (53 + (- Z.pos k - 1 + 13) - 53 - (- Z.pos k - 1 + 13)) with 0 by lia.
  cbn [shr_m].
  replace (- Z.pos k - 1 + 13 <=? 1024 - 53) with true by (symmetry; apply Z.leb_le; lia).
  f_equal. lia.
Qed.

Lemma binary_normalize_sign (m e : Z) (p : positive) :
  Z.abs m = Z.pos p →
  binary_normalize prec emax m e false = binary_round prec emax (m <? 0) p e.
Proof. destruct m as [|q|q]; simpl; intros [= ->]; done. Qed.

(** A float in normal form with the bits of [p] is the value of [p]. *)
Lemma float_is_normal (f : float) (sx : bool) (p : positive) (k e : Z) (m : Z) :
  0 ≤ k →
  Prim2SF f = S754_finite sx (shifted p k) (e - k) →
  m = (if sx then Z.neg p else Z.pos p) →
  float_is f m e.
Proof.
  intros Hk Hf ->. unfold float_is. rewrite Hf. cbv zeta.
  rewrite Z.min_l by lia.
  replace (e - k - (e - k)) with 0 by lia. replace (e - (e - k)) with k by lia.
  pose proof (Zpos_shifted p k Hk) as Hs.
  destruct sx.
  - rewrite <- Pos2Z.opp_pos, Hs. rewrite <- Pos2Z.opp_pos. simpl (2 ^ 0). lia.
  - rewrite Hs. simpl (2 ^ 0). lia.
Qed.

Lemma finite_or_overflow_finite (sf : spec_float) (sx : bool) (m : positive) (e : Z) :
  sf = S754_finite sx m e → valid_binary sf = true →
  finite_or_overflow (SF2Prim sf) = Ok (SF2Prim sf) ∧ Prim2SF (SF2Prim sf) = sf.
Proof.
  intros -> Hvalid. unfold finite_or_overflow.
  by rewrite (Prim2SF_SF2Prim _ Hvalid).
Qed.

(** An int below 2^53 in magnitude converts exactly. *)
Lemma int_to_float_exact (z : Z) :
  Z.abs z < 2 ^ 53 → ∃ f, int_to_float z = Ok f ∧ float_is f z 0.
Proof.
  intros Hz. destruct (Z.eq_dec z 0) as [->|Hnz].
  { exists 0%float. split; vm_compute; reflexivity. }
  destruct (Z.abs z) as [|p|p] eqn:Hp; [lia| |lia].
  pose proof (digits2_pos_le p 53 ltac:(lia) Hz) as Hd.
  destruct (binary_round_exact (z <? 0) p 0 Hd) as [Hround Hvalid].
  { pose proof (Pos2Z.is_pos (digits2_pos p)). lia. }
  unfold int_to_float. rewrite (binary_normalize_sign z 0 p Hp), Hround.
  destruct (finite_or_overflow_finite _ _ _ _ eq_refl Hvalid) as [-> Hf].
  eexists. split; [reflexivity|].
  apply (float_is_normal _ (z <? 0) p (53 - Z.pos (digits2_pos p)) 0); [lia| |].
  - rewrite Hf. f_equal. lia.
  - destruct z; simpl; lia.
Qed.

(** Half an int below 2^53 in magnitude is a float, and the division
    finds it. *)
Lemma int_truediv_half (s : Z) :
  Z.abs s < 2 ^ 53 → ∃ f, int_truediv s 2 = Ok f ∧ float_is f s (-1).
Proof.
  intros Hs. unfold int_truediv. change (2 =? 0) with false. cbv iota.
  destruct (Z.eqb_spec (s mod 2) 0) as [Heven|Hodd].
  - destruct (int_to_float_exact (s / 2)) as (f & Hf & His).
    { apply Z.abs_lt. pose proof (Z.abs_lt s (2 ^ 53)) as [H _]. specialize (H Hs).
      split.
      - apply Z.lt_le_trans with (- 2 ^ 53 / 2).
        + vm_compute. reflexivity.
        + apply Z.div_le_mono; lia.
      - apply Z.div_lt_upper_bound; lia. }
    exists f. split; [exact Hf|].
    assert (Hdouble : s = 2 * (s / 2)) by (pose proof (Z.div_mod s 2); lia).
    unfold float_is in *. destruct (Prim2SF f) as [| | |sx mf ef]; try done; [lia|].
    cbv zeta in *. rewrite Hdouble at 1.
    destruct (Z.min_spec ef 0) as [[Hlt H0]|[Hge H0]]; rewrite H0 in His.
    + rewrite Z.min_l by lia. rewrite Z.sub_diag in *.
      replace (-1 - ef) with (- ef - 1) by lia.
      replace (0 - ef) with (Z.succ (- ef - 1)) in His by lia.
      rewrite Z.pow_succ_r in His by lia. lia.
    + rewrite Z.min_r by lia.
      replace (ef - -1) with (Z.succ ef) by lia. rewrite Z.pow_succ_r by lia.
      rewrite Z.sub_diag, Z.sub_0_r in *. simpl (2 ^ 0) in *. lia.
  - assert (Hnz : s ≠ 0) by (intros ->; done).
    destruct (Z.abs s) as [|p|p] eqn:Hp; [lia| |lia].
    pose proof (digits2_pos_le p 53 ltac:(lia) Hs) as Hd.
    pose proof (Pos2Z.is_pos (digits2_pos p)) as Hdpos.
    cbv zeta. change (Z.abs 2) with 2. change (Z.log2 2) with 1.
    rewrite log2_digits.
    set (d := Z.pos (digits2_pos p)) in *.
    rewrite Z.max_r by lia.
    replace (1 - (d - 1) + 64) with (66 - d) by lia.
    destruct (66 - d) as [|k|k] eqn:Hk; [lia| |lia].
    assert (Hmul : Z.pos p * 2 ^ Z.pos k = 2 * (Z.pos p * 2 ^ (Z.pos k - 1))).
    { replace (Z.pos k) with (Z.succ (Z.pos k - 1)) at 1 by lia.
      rewrite Z.pow_succ_r by lia. lia. }
    rewrite Hmul, (Z.mul_comm 2 (Z.pos p * 2 ^ (Z.pos k - 1))), Z.div_mul, Z.mod_mul by lia.
    change (0 =? 0) with true. cbv iota.
    rewrite Z.add_0_r, <- Hmul, <- Zpos_iter.
    change (2 <? 0) with false. rewrite xorb_false_r.
    assert (Hnorm : binary_normalize prec emax
                      (if s <? 0 then - Z.pos (Pos.iter xO p k) else Z.pos (Pos.iter xO p k))
                      (- Z.pos k - 1) false
                    = binary_round prec emax (s <? 0) (Pos.iter xO p k) (- Z.pos k - 1)).
    { by destruct (s <? 0). }
    rewrite Hnorm, (binary_round_66 (s <? 0) p k Hd) by (fold d; lia). fold d.
    assert (Hvalid : valid_binary (S754_finite (s <? 0) (shifted p (53 - d)) (d - 54)) = true).
    { destruct (binary_round_exact (s <? 0) p (-1) Hd) as [_ Hv]; [fold d; lia|].
      fold d in Hv. by replace (-1 + d - 53) with (d - 54) in Hv by lia. }
    destruct (finite_or_overflow_finite _ _ _ _ eq_refl Hvalid) as [-> Hf].
    eexists. split; [reflexivity|].
    apply (float_is_normal _ (s <? 0) p (53 - d) (-1)); [lia| |].
    + rewrite Hf. f_equal. lia.
    + destruct s; simpl; lia.
Qed.

(** ** Best bid and best ask *)

Lemma foldl_min_least (ks : list Z) (k : Z) :
  foldl Z.min k ks ∈ k :: ks ∧ ∀ k', k' ∈ k :: ks → foldl Z.min k ks ≤ k'.
Proof.
  revert k. induction ks as [|x ks IH]; intros k; simpl.
  - split; [left|]. intros k' ->%list_elem_of_singleton. lia.
  - destruct (IH (Z.min k x)) as [Hin Hle]. split.
    + apply elem_of_cons in Hin as [->|Hin].
      * destruct (Z.min_spec k x) as [[_ ->]|[_ ->]]; [left | right; left].
      * right; right; exact Hin.
    + intros k' Hk'. apply elem_of_cons in Hk' as [->|Hk'].
      * specialize (Hle (Z.min k x)). pose proof (Hle ltac:(left)). lia.
      * apply elem_of_cons in Hk' as [->|Hk'].
        -- pose proof (Hle (Z.min k x) ltac:(left)). lia.
        -- apply Hle. right; exact Hk'.
Qed.

Lemma foldl_max_greatest (ks : list Z) (k : Z) :
  foldl Z.max k ks ∈ k :: ks ∧ ∀ k', k' ∈ k :: ks → k' ≤ foldl Z.max k ks.
Proof.
  revert k. induction ks as [|x ks IH]; intros k; simpl.
  - split; [left|]. intros k' ->%list_elem_of_singleton. lia.
  - destruct (IH (Z.max k x)) as [Hin Hle]. split.
    + apply elem_of_cons in Hin as [->|Hin].
      * destruct (Z.max_spec k x) as [[_ ->]|[_ ->]]; [right; left | left].
      * right; right; exact Hin.
    + intros k' Hk'. apply elem_of_cons in Hk' as [->|Hk'].
      * pose proof (Hle (Z.max k x) ltac:(left)). lia.
      * apply elem_of_cons in Hk' as [->|Hk'].
        -- pose proof (Hle (Z.max k x) ltac:(left)). lia.
        -- apply Hle. right; exact Hk'.
Qed.

Lemma key_in_keys (d : gmap Z Z) (k : Z) :
  k ∈ (map_to_list d).*1 ↔ is_Some (d !! k).
Proof.
  rewrite list_elem_of_fmap. split.
  - intros [[k' v] [-> Hin]]. apply elem_of_map_to_list in Hin. by exists v.
  - intros [v Hv]. exists (k, v). split; [done|]. by apply elem_of_map_to_list.
Qed.

Lemma nonempty_true (d : gmap Z Z) : d ≠ ∅ → nonempty d = true.
Proof. intros H. unfold nonempty. by rewrite bool_decide_eq_true. Qed.

Lemma nonempty_false (d : gmap Z Z) : d = ∅ → nonempty d = false.
Proof. intros H. unfold nonempty. rewrite bool_decide_eq_false. by intros []. Qed.

Lemma nonempty_inv (d : gmap Z Z) : nonempty d = true → d ≠ ∅.
Proof. unfold nonempty. by rewrite bool_decide_eq_true. Qed.

Lemma min_key_least (d : gmap Z Z) :
  d ≠ ∅ → ∃ k, min_key d = Ok k ∧ least_key d k.
Proof.
  intros Hne. unfold min_key.
  destruct ((map_to_list d).*1) as [|k ks] eqn:Hks.
  - apply fmap_nil_inv, map_to_list_empty_iff in Hks. done.
  - exists (foldl Z.min k ks). split; [done|].
    destruct (foldl_min_least ks k) as [Hin Hle]. split.
    + apply key_in_keys. by rewrite Hks.
    + intros k' Hk'. apply Hle. rewrite <- Hks. by apply key_in_keys.
Qed.

Lemma max_key_greatest (d : gmap Z Z) :
  d ≠ ∅ → ∃ k, max_key d = Ok k ∧ greatest_key d k.
Proof.
  intros Hne. unfold max_key.
  destruct ((map_to_list d).*1) as [|k ks] eqn:Hks.
  - apply fmap_nil_inv, map_to_list_empty_iff in Hks. done.
  - exists (foldl Z.max k ks). split; [done|].
    destruct (foldl_max_greatest ks k) as [Hin Hle]. split.
    + apply key_in_keys. by rewrite Hks.
    + intros k' Hk'. apply Hle. rewrite <- Hks. by apply key_in_keys.
Qed.

Lemma least_key_unique (d : gmap Z Z) (k1 k2 : Z) :
  least_key d k1 → least_key d k2 → k1 = k2.
Proof. intros [H1 L1] [H2 L2]. pose proof (L1 _ H2). pose proof (L2 _ H1). lia. Qed.

Lemma greatest_key_unique (d : gmap Z Z) (k1 k2 : Z) :
  greatest_key d k1 → greatest_key d k2 → k1 = k2.
Proof. intros [H1 L1] [H2 L2]. pose proof (L1 _ H2). pose proof (L2 _ H1). lia. Qed.

(** ** The orchestrator's result map *)

Lemma ignore_others_lookup (depths : gmap string OrderDepth) (product : string) :
  ignore_others depths !! product =
    if decide (product ≠ target) then (λ _, []) <$> depths !! product else None.
Proof.
  unfold ignore_others.
  apply (map_fold_weak_ind (λ result depths,
    result !! product =
      if decide (product ≠ target) then (λ _, []) <$> depths !! product else None)).
  - by destruct (decide _).
  - intros k od m r Hk IH.
    destruct (decide (k ≠ target)) as [Hkt|Hkt].
    + destruct (decide (product = k)) as [->|Hpk].
      * rewrite !lookup_insert_eq. by rewrite decide_True.
      * rewrite !lookup_insert_ne by done. exact IH.
    + apply dec_stable in Hkt. subst k.
      destruct (decide (product ≠ target)) as [Hp|Hp]; [|exact IH].
      rewrite lookup_insert_ne by done. exact IH.
Qed.

Lemma ignore_others_dom (depths : gmap string OrderDepth) :
  dom (ignore_others depths) = dom depths ∖ {[target]}.
Proof.
  apply set_eq. intros product.
  rewrite elem_of_dom, ignore_others_lookup, elem_of_difference, elem_of_dom.
  rewrite elem_of_singleton.
  destruct (decide (product ≠ target)) as [Hp|Hp].
  - rewrite fmap_is_Some. naive_solver.
  - apply dec_stable in Hp. split; [intros [? ?]; done|]. intros [_ Hne]. done.
Qed.

Section Orchestrator.
Context {blob : Type} (loads : blob → result pyval) (dumps : pyval → blob)
        (pow : float → float → float).

Lemma mid_price_of_empty (order_depth : OrderDepth) :
  buy_orders order_depth = ∅ → sell_orders order_depth = ∅ →
  mid_price_of order_depth = Ok None.
Proof.
  intros Hb Hs. unfold mid_price_of.
  by rewrite (nonempty_false _ Hb), (nonempty_false _ Hs).
Qed.

(** C6. The mid price follows the four cases in order. With bids and
    asks it is Python's [(best_bid + best_ask) / 2] of the greatest bid
    and the least ask, a float: exactly half their sum when the sum is
    below 2^53 in magnitude (so it lies half-way between the two
    prices), and the sum's quotient by 2 as the division of ints rounds
    it beyond. With asks only it is the least ask, with bids only the
    greatest bid, both ints. With neither it is unknown, and [run] then
    returns the target with an empty order list. *)
Theorem mid_price_policy (order_depth : OrderDepth) :
  let bids := buy_orders order_depth in
  let asks := sell_orders order_depth in
  (bids ≠ ∅ → asks ≠ ∅ →
     ∃ best_bid best_ask,
       greatest_key bids best_bid ∧ least_key asks best_ask ∧
       mid_price_of order_depth
         = Some <$> num_truediv (NInt (best_bid + best_ask)) (NInt 2) ∧
       (Z.abs (best_bid + best_ask) < 2 ^ 53 →
        ∃ mid, mid_price_of order_depth = Ok (Some (NFloat mid)) ∧
               float_is mid (best_bid + best_ask) (-1))) ∧
  (bids = ∅ → asks ≠ ∅ →
     ∃ best_ask,
       least_key asks best_ask ∧ mid_price_of order_depth = Ok (Some (NInt best_ask))) ∧
  (bids ≠ ∅ → asks = ∅ →
     ∃ best_bid,
       greatest_key bids best_bid ∧
       mid_price_of order_depth = Ok (Some (NInt best_bid))) ∧
  (bids = ∅ → asks = ∅ →
     mid_price_of order_depth = Ok None ∧
     ∀ state : TradingState blob,
       order_depths state !! target = Some order_depth →
       ∃ result,
         run loads dumps pow state = Ok (result, 1, traderData state) ∧
         result !! target = Some [] ∧
         ∀ product orders, result !! product = Some orders → orders = []).
Proof.
  intros bids asks. subst bids asks. split; [|split; [|split]].
  - intros Hb Hs.
    destruct (max_key_greatest _ Hb) as (best_bid & Hmax & Hgreatest).
    destruct (min_key_least _ Hs) as (best_ask & Hmin & Hleast).
    exists best_bid, best_ask. split; [exact Hgreatest|]. split; [exact Hleast|].
    assert (Hmid : mid_price_of order_depth
                   = Some <$> num_truediv (NInt (best_bid + best_ask)) (NInt 2)).
    { unfold mid_price_of.
      rewrite (nonempty_true _ Hb), (nonempty_true _ Hs), Hmax, Hmin. simpl.
      by destruct (num_truediv (NInt (best_bid + best_ask)) (NInt 2)). }
    split; [exact Hmid|]. intros Hfit.
    destruct (int_truediv_half _ Hfit) as (mid & Hdiv & Hhalf).
    exists mid. split; [|exact Hhalf].
    rewrite Hmid. unfold num_truediv. by rewrite Hdiv.
  - intros Hb Hs.
    destruct (min_key_least _ Hs) as (best_ask & Hmin & Hleast).
    exists best_ask. split; [exact Hleast|].
    unfold mid_price_of.
    by rewrite (nonempty_false _ Hb), (nonempty_true _ Hs), Hmin.
  - intros Hb Hs.
    destruct (max_key_greatest _ Hb) as (best_bid & Hmax & Hgreatest).
    exists best_bid. split; [exact Hgreatest|].
    unfold mid_price_of.
    by rewrite (nonempty_true _ Hb), (nonempty_false _ Hs), Hmax.
  - intros Hb Hs. split; [by apply mid_price_of_empty|].
    intros state Hod. unfold run.
    rewrite Hod, (mid_price_of_empty _ Hb Hs). simpl.
    eexists. split; [reflexivity|]. split; [apply lookup_insert_eq|].
    intros product orders.
    destruct (decide (product = target)) as [->|Hne].
    + rewrite lookup_insert_eq. congruence.
    + rewrite lookup_insert_ne by done. rewrite ignore_others_lookup.
      destruct (decide _); [|done].
      destruct (order_depths state !! product); simpl; congruence.
Qed.

(** C9. When [run] returns, the result map has exactly the snapshot's
    instruments as keys, every instrument other than the target is
    mapped to the empty list, and the conversions value is 1. [run]
    raises only where the target is quoted and the mid price or the
    strategy called on it raises. *)
Theorem run_result_keys (state : TradingState blob) :
  match run loads dumps pow state with
  | Ok (result, conversions, _) =>
      dom result = dom (order_depths state) ∧
      (∀ product, product ≠ target → product ∈ dom (order_depths state) →
                  result !! product = Some []) ∧
      conversions = 1
  | Raise e =>
      ∃ order_depth,
        order_depths state !! target = Some order_depth ∧
        (mid_price_of order_depth = Raise e ∨
         ∃ mid_price,
           mid_price_of order_depth = Ok (Some mid_price) ∧
           compute_rainforest_orders loads dumps pow target order_depth mid_price
             (traderData state) 20 10 = Raise e)
  end.
Proof.
  assert (Hothers : ∀ result' product,
    product ≠ target → product ∈ dom (order_depths state) →
    (result' = ignore_others (order_depths state) ∨
     ∃ orders, result' = <[target := orders]> (ignore_others (order_depths state))) →
    result' !! product = Some []).
  { intros result' product Hne [od Hod]%elem_of_dom Hres.
    assert (ignore_others (order_depths state) !! product = Some []) as Hl.
    { rewrite ignore_others_lookup, decide_True, Hod; done. }
    destruct Hres as [->|[orders ->]]; [done|].
    by rewrite lookup_insert_ne. }
  assert (Hdom : ∀ orders, is_Some (order_depths state !! target) →
    dom (<[target := orders]> (ignore_others (order_depths state)))
      = dom (order_depths state)).
  { intros orders Hin%elem_of_dom.
    rewrite dom_insert_L, ignore_others_dom.
    apply set_eq. intros product.
    rewrite elem_of_union, elem_of_singleton, elem_of_difference, elem_of_singleton.
    destruct (decide (product = target)) as [->|]; naive_solver. }
  unfold run. destruct (order_depths state !! target) as [order_depth|] eqn:Hod.
  - destruct (mid_price_of order_depth) as [[mid_price|]|e] eqn:Hmid; simpl.
    + destruct (compute_rainforest_orders _ _ _ _ _ _ _ _)
        as [[orders new_trader_data]|e] eqn:Hcall; simpl.
      * split; [by apply Hdom|]. split; [|done].
        intros product Hne Hin. apply Hothers; eauto.
      * exists order_depth. split; [done|]. right. by exists mid_price.
    + split; [by apply Hdom|]. split; [|done].
      intros product Hne Hin. apply Hothers; eauto.
    + exists order_depth. split; [done|]. by left.
  - split; [|split; [|done]].
    + rewrite ignore_others_dom. apply set_eq. intros product.
      rewrite elem_of_difference, elem_of_singleton, elem_of_dom.
      split; [by intros [? ?]|]. intros Hin. split; [done|].
      intros ->. rewrite Hod in Hin. by destruct Hin.
    + intros product Hne Hin. apply Hothers; eauto.
Qed.

(** C10. When the target is missing from the snapshot, or is quoted
    with no bid and no ask, [run] returns the very blob it was given. *)
Theorem run_keeps_trader_data (state : TradingState blob) :
  (order_depths state !! target = None ∨
   ∃ order_depth,
     order_depths state !! target = Some order_depth ∧
     buy_orders order_depth = ∅ ∧ sell_orders order_depth = ∅) →
  ∃ result, run loads dumps pow state = Ok (result, 1, traderData state).
Proof.
  intros [Hnone|(order_depth & Hod & Hb & Hs)]; unfold run.
  - rewrite Hnone. by eexists.
  - rewrite Hod, (mid_price_of_empty _ Hb Hs). simpl. by eexists.
Qed.
End Orchestrator.

(** ** Sequencing and the container operations on a dict *)

Lemma bind_Ok {A B} (e : result A) (k : A → result B) (b : B) :
  e ≫= k = Ok b → ∃ a, e = Ok a ∧ k a = Ok b.
Proof. destruct e as [a|x]; [by exists a | discriminate]. Qed.

Lemma bind_ret {A B} (a : A) (k : A → result B) : Ok a ≫= k = k a.
Proof. reflexivity. Qed.

Lemma append_at_dict (m : gmap string pyval) (key : string) (l : list pyval) (x : pyval) :
  m !! key = Some (VList l) →
  py_append_at (VDict m) key x = Ok (VDict (<[key := VList (l ++ [x])]> m)).
Proof. intros H. unfold py_append_at. simpl. by rewrite H. Qed.

Lemma append_at_Ok (history : pyval) (key : string) (x : pyval) (history' : pyval) :
  py_append_at history key x = Ok history' →
  ∃ m l, history = VDict m ∧ m !! key = Some (VList l) ∧
         history' = VDict (<[key := VList (l ++ [x])]> m).
Proof.
  unfold py_append_at. intros (v & Hget & Hset)%bind_Ok.
  destruct history as [| | | | | |m]; try discriminate. simpl in Hget.
  destruct (m !! key) as [v'|] eqn:Hm; [|discriminate].
  injection Hget as ->. destruct v as [| | | | |l|]; try discriminate.
  injection Hset as <-. by exists m, l.
Qed.

Lemma init_if_absent_dict (m : gmap string pyval) (key : string) (v : pyval) :
  init_if_absent (VDict m) key v
    = Ok (VDict (match m !! key with Some _ => m | None => <[key := v]> m end)).
Proof.
  unfold init_if_absent. simpl.
  destruct (m !! key) as [v'|] eqn:Hm.
  - by rewrite bool_decide_eq_true_2.
  - rewrite bool_decide_eq_false_2; [done|]. by intros [? ?].
Qed.

(** Initialising a key leaves every other key alone and gives the key a
    value. *)
Lemma init_if_absent_frame (m : gmap string pyval) (key : string) (v : pyval) :
  ∃ m', init_if_absent (VDict m) key v = Ok (VDict m') ∧
        (∀ k, k ≠ key → m' !! k = m !! k) ∧
        m' !! key = Some (default v (m !! key)).
Proof.
  rewrite init_if_absent_dict. destruct (m !! key) as [v'|] eqn:Hm.
  - exists m. by rewrite Hm.
  - exists (<[key := v]> m). split; [done|]. split.
    + intros k Hk. by rewrite lookup_insert_ne.
    + by rewrite lookup_insert_eq.
Qed.

(** On anything but a dict the initialisation either finds the key (in a
    string or a list) and changes nothing, or raises [TypeError]. *)
Lemma init_if_absent_other (history : pyval) (key : string) (v : pyval) :
  (∀ m, history ≠ VDict m) →
  init_if_absent history key v = Ok history ∨
  init_if_absent history key v = Raise TypeError.
Proof.
  intros Hnd. unfold init_if_absent.
  destruct history as [| | | |s|l|m]; simpl; auto.
  - destruct (String.index 0 key s); auto.
  - destruct (existsb _ l); auto.
  - by destruct (Hnd m).
Qed.

Lemma append_at_other (history : pyval) (key : string) (x : pyval) :
  (∀ m, history ≠ VDict m) → py_append_at history key x = Raise TypeError.
Proof.
  intros Hnd. destruct history as [| | | | | |m]; try done. by destruct (Hnd m).
Qed.

Section Strategies.
Context {blob : Type} (loads : blob → result pyval) (dumps : pyval → blob)
        (pow : float → float → float).

(** *** What the two loaders give *)

Lemma load_rainforest_object (trader_data : blob) (m : gmap string pyval) :
  loads trader_data = Ok (VDict m) →
  ∃ m', load_rainforest_history loads trader_data = VDict m' ∧
        ∀ k, k ≠ "rainforest_prices" → m' !! k = m !! k.
Proof.
  intros Hl. unfold load_rainforest_history. rewrite Hl. simpl.
  destruct (init_if_absent_frame m "rainforest_prices" (VList [])) as (m' & -> & Hm' & _).
  by exists m'.
Qed.

Lemma load_rainforest_failure (trader_data : blob) (e : exn) :
  loads trader_data = Raise e →
  load_rainforest_history loads trader_data = rainforest_record [].
Proof. intros Hl. unfold load_rainforest_history. by rewrite Hl. Qed.

Lemma load_model_object (history : pyval) (m : gmap string pyval) :
  history = VDict m →
  ∃ m', (history ← init_if_absent history "model_history" (VList []);
         history ← init_if_absent history "position" (VInt 0);
         init_if_absent history "model_params" default_model_params) = Ok (VDict m') ∧
        (∀ k, k ≠ "model_history" → k ≠ "position" → k ≠ "model_params" →
              m' !! k = m !! k) ∧
        m' !! "model_history" = Some (default (VList []) (m !! "model_history")) ∧
        m' !! "position" = Some (default (VInt 0) (m !! "position")) ∧
        is_Some (m' !! "model_params").
Proof.
  intros ->.
  destruct (init_if_absent_frame m "model_history" (VList [])) as (m1 & -> & Hf1 & Hk1).
  destruct (init_if_absent_frame m1 "position" (VInt 0)) as (m2 & H2 & Hf2 & Hk2).
  destruct (init_if_absent_frame m2 "model_params" default_model_params)
    as (m3 & H3 & Hf3 & Hk3).
  exists m3. simpl. rewrite H2. simpl. rewrite H3. split; [done|]. split; [|split; [|split]].
  - intros k Ha Hb Hc. by rewrite Hf3, Hf2, Hf1.
  - by rewrite Hf3, Hf2.
  - rewrite Hf3 by done. rewrite Hk2. by rewrite Hf1.
  - by rewrite Hk3.
Qed.

Lemma load_model_failure (trader_data : blob) (e : exn) :
  loads trader_data = Raise e →
  load_model_history loads trader_data = Ok (model_record [] (VInt 0)).
Proof. intros Hl. unfold load_model_history. by rewrite Hl. Qed.

(** *** C8: a history shorter than the lookback *)

Lemma rainforest_short_history (target_product : string) (order_depth : OrderDepth)
    (mid_price : num) (trader_data : blob) (window_size : nat) (base_quantity : Z)
    (m : gmap string pyval) (l : list pyval) :
  load_rainforest_history loads trader_data = VDict m →
  m !! "rainforest_prices" = Some (VList l) →
  (length (l ++ [of_num mid_price]) < window_size)%nat →
  compute_rainforest_orders loads dumps pow target_product order_depth mid_price
    trader_data window_size base_quantity
  = Ok ([], dumps (VDict (<["rainforest_prices" := VList (l ++ [of_num mid_price])]> m))).
Proof.
  intros Hload Hl Hshort.
  unfold compute_rainforest_orders. rewrite Hload, (append_at_dict _ _ _ _ Hl).
  simpl. rewrite lookup_insert_eq. simpl.
  rewrite bool_decide_eq_false_2 by lia. done.
Qed.

Lemma model_based_short_history (target_product : string) (order_depth : OrderDepth)
    (mid_price : num) (trader_data : blob) (lag : nat) (base_quantity : Z)
    (threshold : num) (max_position : Z) (m : gmap string pyval) (l : list pyval) :
  load_model_history loads trader_data = Ok (VDict m) →
  m !! "model_history" = Some (VList l) →
  (length (l ++ [of_num mid_price]) < lag)%nat →
  compute_model_based_orders loads dumps target_product order_depth mid_price
    trader_data lag base_quantity threshold max_position
  = Ok ([], dumps (VDict (<["model_history" := VList (l ++ [of_num mid_price])]> m))).
Proof.
  intros Hload Hl Hshort.
  unfold compute_model_based_orders. rewrite Hload. simpl.
  rewrite (append_at_dict _ _ _ _ Hl).
  simpl. rewrite lookup_insert_eq. simpl.
  rewrite bool_decide_eq_false_2 by lia. done.
Qed.

(** What the loaders make of an object: the object itself, with the
    keys it lacks initialised. *)
Lemma load_rainforest_decoded (trader_data : blob) (m : gmap string pyval) :
  loads trader_data = Ok (VDict m) →
  load_rainforest_history loads trader_data
  = VDict (match m !! "rainforest_prices" with
           | Some _ => m
           | None => <["rainforest_prices" := VList []]> m
           end).
Proof.
  intros Hl. unfold load_rainforest_history.
  by rewrite Hl, bind_ret, init_if_absent_dict.
Qed.

Lemma load_model_decoded (trader_data : blob) (m : gmap string pyval) :
  loads trader_data = Ok (VDict m) →
  ∃ m', load_model_history loads trader_data = Ok (VDict m') ∧
        m' !! "model_history" = Some (default (VList []) (m !! "model_history")) ∧
        m' !! "position" = Some (default (VInt 0) (m !! "position")) ∧
        m' !! "model_params" = Some (default default_model_params (m !! "model_params")) ∧
        ∀ k, k ≠ "model_history" → k ≠ "position" → k ≠ "model_params" →
             m' !! k = m !! k.
Proof.
  intros Hl. unfold load_model_history. rewrite Hl.
  destruct (init_if_absent_frame m "model_history" (VList [])) as (m1 & -> & Hf1 & Hk1).
  destruct (init_if_absent_frame m1 "position" (VInt 0)) as (m2 & H2 & Hf2 & Hk2).
  destruct (init_if_absent_frame m2 "model_params" default_model_params)
    as (m3 & H3 & Hf3 & Hk3).
  exists m3. rewrite bind_ret, H2, bind_ret, H3.
  split; [done|]. split; [|split; [|split]].
  - by rewrite Hf3, Hf2.
  - rewrite Hf3 by done. by rewrite Hk2, Hf1.
  - by rewrite Hk3, Hf2, Hf1.
  - intros k Ha Hb Hc. by rewrite Hf3, Hf2, Hf1.
Qed.

(** The predictor on an object whose history, [l], is still short. *)
Lemma model_based_short_decoded (target_product : string) (order_depth : OrderDepth)
    (mid_price : num) (trader_data : blob) (lag : nat) (base_quantity : Z)
    (threshold : num) (max_position : Z) (m : gmap string pyval) (l : list pyval) :
  loads trader_data = Ok (VDict m) →
  default (VList []) (m !! "model_history") = VList l →
  (length l + 1 < lag)%nat →
  ∃ m',
    compute_model_based_orders loads dumps target_product order_depth mid_price
      trader_data lag base_quantity threshold max_position
    = Ok ([], dumps (VDict m')) ∧
    m' !! "model_history" = Some (VList (l ++ [of_num mid_price])) ∧
    m' !! "position" = Some (default (VInt 0) (m !! "position")) ∧
    m' !! "model_params" = Some (default default_model_params (m !! "model_params")) ∧
    ∀ k, k ≠ "model_history" → k ≠ "position" → k ≠ "model_params" →
         m' !! k = m !! k.
Proof.
  intros Hl Hhist Hshort.
  destruct (load_model_decoded _ _ Hl) as (m0 & Hload & Hh & Hp & Hq & Hframe).
  rewrite Hhist in Hh.
  exists (<["model_history" := VList (l ++ [of_num mid_price])]> m0).
  split; [|split; [|split; [|split]]].
  - apply model_based_short_history; [done|done|]. rewrite length_app. simpl. lia.
  - by rewrite lookup_insert_eq.
  - by rewrite lookup_insert_ne.
  - by rewrite lookup_insert_ne.
  - intros k Ha Hb Hc. rewrite lookup_insert_ne by done. by apply Hframe.
Qed.

(** C8. When the history with the current mid price appended is still
    shorter than the lookback ([window_size], [lag]), the strategy
    returns no order, whatever the order book, and the blob it returns
    encodes the decoded record with the price appended to the history
    it held: every price persisted before is still there, in order. A
    record without the history key, and a blob that does not decode,
    count as an empty history; the predictor also writes the position
    and the model parameters the record lacks. *)
Theorem short_history_no_order (target_product : string) (order_depth : OrderDepth)
    (mid_price : num) (trader_data : blob) :
  (∀ window_size base_quantity,
     (∀ m l,
        loads trader_data = Ok (VDict m) →
        m !! "rainforest_prices" = Some (VList l) →
        (length l + 1 < window_size)%nat →
        compute_rainforest_orders loads dumps pow target_product order_depth mid_price
          trader_data window_size base_quantity
        = Ok ([], dumps (VDict (<["rainforest_prices" :=
                                    VList (l ++ [of_num mid_price])]> m)))) ∧
     ((1 < window_size)%nat →
      (∀ m,
         loads trader_data = Ok (VDict m) → m !! "rainforest_prices" = None →
         compute_rainforest_orders loads dumps pow target_product order_depth mid_price
           trader_data window_size base_quantity
         = Ok ([], dumps (VDict (<["rainforest_prices" := VList [of_num mid_price]]> m)))) ∧
      (∀ e,
         loads trader_data = Raise e →
         compute_rainforest_orders loads dumps pow target_product order_depth mid_price
           trader_data window_size base_quantity
         = Ok ([], dumps (VDict {["rainforest_prices" := VList [of_num mid_price]]}))))) ∧
  (∀ lag base_quantity threshold max_position,
     (∀ m l,
        loads trader_data = Ok (VDict m) →
        m !! "model_history" = Some (VList l) →
        (length l + 1 < lag)%nat →
        ∃ m',
          compute_model_based_orders loads dumps target_product order_depth mid_price
            trader_data lag base_quantity threshold max_position
          = Ok ([], dumps (VDict m')) ∧
          m' !! "model_history" = Some (VList (l ++ [of_num mid_price])) ∧
          m' !! "position" = Some (default (VInt 0) (m !! "position")) ∧
          m' !! "model_params"
            = Some (default default_model_params (m !! "model_params")) ∧
          ∀ k, k ≠ "model_history" → k ≠ "position" → k ≠ "model_params" →
               m' !! k = m !! k) ∧
     ((1 < lag)%nat →
      (∀ m,
         loads trader_data = Ok (VDict m) → m !! "model_history" = None →
         ∃ m',
           compute_model_based_orders loads dumps target_product order_depth mid_price
             trader_data lag base_quantity threshold max_position
           = Ok ([], dumps (VDict m')) ∧
           m' !! "model_history" = Some (VList [of_num mid_price]) ∧
           m' !! "position" = Some (default (VInt 0) (m !! "position")) ∧
           m' !! "model_params"
             = Some (default default_model_params (m !! "model_params")) ∧
           ∀ k, k ≠ "model_history" → k ≠ "position" → k ≠ "model_params" →
                m' !! k = m !! k) ∧
      (∀ e,
         loads trader_data = Raise e →
         compute_model_based_orders loads dumps target_product order_depth mid_price
           trader_data lag base_quantity threshold max_position
         = Ok ([], dumps (VDict (<["model_history" := VList [of_num mid_price]]>
                                 (<["position" := VInt 0]>
                                  {["model_params" := default_model_params]}))))))).
Proof.
  split.
  - intros window_size base_quantity. split; [|intros Hw; split].
    + intros m l Hl Hm Hshort.
      apply rainforest_short_history; [|done|rewrite length_app; simpl; lia].
      by rewrite (load_rainforest_decoded _ _ Hl), Hm.
    + intros m Hl Hm.
      rewrite (rainforest_short_history _ _ _ _ _ _
                 (<["rainforest_prices" := VList []]> m) []);
        [|by rewrite (load_rainforest_decoded _ _ Hl), Hm
         |by rewrite lookup_insert_eq|simpl; lia].
      by rewrite insert_insert_eq.
    + intros e Hl.
      rewrite (rainforest_short_history _ _ _ _ _ _ {["rainforest_prices" := VList []]} []);
        [|by apply (load_rainforest_failure _ e)|done|simpl; lia].
      by rewrite insert_singleton_eq.
  - intros lag base_quantity threshold max_position. split; [|intros Hlag; split].
    + intros m l Hl Hm Hshort.
      apply model_based_short_decoded; [done|by rewrite Hm|done].
    + intros m Hl Hm.
      apply (model_based_short_decoded _ _ _ _ _ _ _ _ m []); [done|by rewrite Hm|simpl; lia].
    + intros e Hl.
      pose proof (load_model_failure _ e Hl) as Hload. unfold model_record in Hload.
      rewrite (model_based_short_history _ _ _ _ _ _ _ _ _ [] Hload);
        [|done|simpl; lia].
      by rewrite insert_insert_eq.
Qed.

(** The first cycle: a blob that does not decode gives a history of the
    one price, and no order while the lookback exceeds 1. *)
Lemma first_cycle_no_order (target_product : string) (order_depth : OrderDepth)
    (mid_price : num) (trader_data : blob) (e : exn) :
  loads trader_data = Raise e →
  (∀ window_size base_quantity, (1 < window_size)%nat →
     compute_rainforest_orders loads dumps pow target_product order_depth mid_price
       trader_data window_size base_quantity
     = Ok ([], dumps (rainforest_record [of_num mid_price]))) ∧
  (∀ lag base_quantity threshold max_position, (1 < lag)%nat →
     compute_model_based_orders loads dumps target_product order_depth mid_price
       trader_data lag base_quantity threshold max_position
     = Ok ([], dumps (model_record [of_num mid_price] (VInt 0)))).
Proof.
  intros Hl. split.
  - intros window_size base_quantity Hw.
    rewrite (rainforest_short_history _ _ _ _ _ _ {["rainforest_prices" := VList []]} []);
      [| by apply (load_rainforest_failure _ e) | done | simpl; lia].
    unfold rainforest_record. by rewrite insert_singleton_eq.
  - intros lag base_quantity threshold max_position Hlag.
    pose proof (load_model_failure _ e Hl) as Hload. unfold model_record in Hload.
    rewrite (model_based_short_history _ _ _ _ _ _ _ _ _ [] Hload);
      [| done | simpl; lia].
    unfold model_record. by rewrite insert_insert_eq.
Qed.
End Strategies.

Lemma short_history_no_order_witness :
  compute_rainforest_orders parsed_loads parsed_dumps sample_pow target
    (book [10001] [10003]) (NInt 10002) (Ok (VDict young_record)) 20 10
  = Ok ([], parsed_dumps
              (VDict (<["rainforest_prices" :=
                          VList ([VInt 9999; VFloat 10000.5; VInt 10001]
                                 ++ [of_num (NInt 10002)])]> young_record))) ∧
  ∃ m',
    compute_model_based_orders parsed_loads parsed_dumps target
      (book [10001] [10003]) (NInt 10002) (Ok (VDict young_record)) 4 10 (NFloat 1) 50
    = Ok ([], parsed_dumps (VDict m')) ∧
    m' !! "model_history"
      = Some (VList ([VInt 9999; VFloat 10000.5] ++ [of_num (NInt 10002)])) ∧
    m' !! "position" = Some (default (VInt 0) (young_record !! "position")) ∧
    m' !! "model_params"
      = Some (default default_model_params (young_record !! "model_params")) ∧
    ∀ k, k ≠ "model_history" → k ≠ "position" → k ≠ "model_params" →
         m' !! k = young_record !! k.
Proof.
  destruct (short_history_no_order parsed_loads parsed_dumps sample_pow target
              (book [10001] [10003]) (NInt 10002) (Ok (VDict young_record)))
    as [Hrainforest Hmodel].
  split.
  - apply (proj1 (Hrainforest 20%nat 10) young_record
             [VInt 9999; VFloat 10000.5; VInt 10001]).
    + reflexivity.
    + vm_compute. reflexivity.
    + simpl. lia.
  - apply (proj1 (Hmodel 4%nat 10 (NFloat 1) 50) young_record
             [VInt 9999; VFloat 10000.5]).
    + reflexivity.
    + vm_compute. reflexivity.
    + simpl. lia.
Defined.

Section Frame.
Context {blob : Type} (loads : blob → result pyval) (dumps : pyval → blob)
        (pow : float → float → float).

Lemma rainforest_returns (target_product : string) (order_depth : OrderDepth)
    (mid_price : num) (trader_data : blob) (window_size : nat) (base_quantity : Z)
    (orders : list Order) (trader_data' : blob) :
  compute_rainforest_orders loads dumps pow target_product order_depth mid_price
    trader_data window_size base_quantity = Ok (orders, trader_data') →
  ∃ history,
    py_append_at (load_rainforest_history loads trader_data) "rainforest_prices"
                 (of_num mid_price) = Ok history ∧
    trader_data' = dumps history.
Proof.
  unfold compute_rainforest_orders.
  intros (history & Happ & H)%bind_Ok. exists history. split; [done|].
  apply bind_Ok in H as (prices & _ & H).
  apply bind_Ok in H as (n & _ & H).
  apply bind_Ok in H as (orders' & _ & H).
  by injection H as _ <-.
Qed.

Lemma update_position_Ok (history : pyval) (op : num → num → result num)
    (trade_size : num) (history' : pyval) :
  update_position history op trade_size = Ok history' →
  ∃ m current updated,
    history = VDict m ∧ m !! "position" = Some current ∧
    (current ← as_num current; op current trade_size) = Ok updated ∧
    history' = VDict (<["position" := of_num updated]> m).
Proof.
  unfold update_position. intros (current & Hget & H)%bind_Ok.
  destruct history as [| | | | | |m]; try discriminate. simpl in Hget.
  destruct (m !! "position") as [v|] eqn:Hm; [|discriminate]. injection Hget as ->.
  apply bind_Ok in H as (c & Hc & H). apply bind_Ok in H as (updated & Hop & H).
  injection H as <-. exists m, current, updated. rewrite Hc. by simpl.
Qed.

(** A trade changes nothing in the record but the position. *)
Lemma model_trade_frame (target_product : string) (order_depth : OrderDepth)
    (m : gmap string pyval) (deviation : num) (base_quantity : Z) (threshold : num)
    (max_position : Z) (orders : list Order) (history' : pyval) :
  model_trade target_product order_depth (VDict m) deviation base_quantity
              threshold max_position = Ok (orders, history') →
  ∃ m', history' = VDict m' ∧ ∀ k, k ≠ "position" → m' !! k = m !! k.
Proof.
  assert (Hupd : ∀ op trade_size h,
    update_position (VDict m) op trade_size = Ok h →
    ∃ m', h = VDict m' ∧ ∀ k, k ≠ "position" → m' !! k = m !! k).
  { intros op trade_size h (m0 & c & u & [= <-] & _ & _ & ->)%update_position_Ok.
    eexists. split; [done|]. intros k Hk. by rewrite lookup_insert_ne. }
  unfold model_trade.
  intros (scaled & _ & H)%bind_Ok.
  apply bind_Ok in H as (order_quantity & _ & H).
  apply bind_Ok in H as (current_position & _ & H).
  destruct (_ && _).
  - apply bind_Ok in H as (c & _ & H). apply bind_Ok in H as (trade_size & _ & H).
    destruct (num_gt trade_size (NInt 0)).
    + apply bind_Ok in H as (best_ask & _ & H). apply bind_Ok in H as (h & Hh & H).
      injection H as _ <-. by eapply Hupd.
    + injection H as _ <-. by exists m.
  - destruct (_ && _).
    + apply bind_Ok in H as (c & _ & H). apply bind_Ok in H as (trade_size & _ & H).
      destruct (num_gt trade_size (NInt 0)).
      * apply bind_Ok in H as (best_bid & _ & H). apply bind_Ok in H as (h & Hh & H).
        injection H as _ <-. by eapply Hupd.
      * injection H as _ <-. by exists m.
    + injection H as _ <-. by exists m.
Qed.

(** What a returning call of the predictor did to the record. *)
Lemma model_based_returns (target_product : string) (order_depth : OrderDepth)
    (mid_price : num) (trader_data : blob) (lag : nat) (base_quantity : Z)
    (threshold : num) (max_position : Z) (orders : list Order) (trader_data' : blob) :
  compute_model_based_orders loads dumps target_product order_depth mid_price
    trader_data lag base_quantity threshold max_position = Ok (orders, trader_data') →
  ∃ m l history',
    load_model_history loads trader_data = Ok (VDict m) ∧
    m !! "model_history" = Some (VList l) ∧
    trader_data' = dumps history' ∧
    let appended := <["model_history" := VList (l ++ [of_num mid_price])]> m in
    (orders = [] ∧ history' = VDict appended ∨
     ∃ deviation,
       model_trade target_product order_depth (VDict appended) deviation
                   base_quantity threshold max_position = Ok (orders, history')).
Proof.
  unfold compute_model_based_orders.
  intros (h0 & Hload & H)%bind_Ok.
  apply bind_Ok in H as (h1 & Happ & H).
  apply append_at_Ok in Happ as (m & l & -> & Hl & ->).
  apply bind_Ok in H as (prices & _ & H).
  apply bind_Ok in H as (n & _ & H).
  apply bind_Ok in H as ([orders' history'] & Hbranch & H).
  injection H as -> <-.
  exists m, l, history'. split; [done|]. split; [done|]. split; [done|].
  destruct (bool_decide _).
  - apply bind_Ok in Hbranch as (recent & _ & H).
    apply bind_Ok in H as (deviation & _ & H).
    destruct (num_gt _ threshold).
    + right. by exists deviation.
    + left. by injection H as <- <-.
  - left. by injection Hbranch as <- <-.
Qed.

(** C3. Read-modify-write on an object blob: the record a strategy
    encodes into the blob it returns agrees with the decoded input on
    every top-level key other than the strategy's own
    ([rainforest_prices]; [model_history], [position], [model_params]). *)
Theorem strategies_preserve_other_keys (target_product : string)
    (order_depth : OrderDepth) (mid_price : num) (trader_data : blob)
    (m : gmap string pyval) :
  loads trader_data = Ok (VDict m) →
  (∀ window_size base_quantity orders trader_data',
     compute_rainforest_orders loads dumps pow target_product order_depth mid_price
       trader_data window_size base_quantity = Ok (orders, trader_data') →
     ∃ m', trader_data' = dumps (VDict m') ∧
           ∀ k, k ≠ "rainforest_prices" → m' !! k = m !! k) ∧
  (∀ lag base_quantity threshold max_position orders trader_data',
     compute_model_based_orders loads dumps target_product order_depth mid_price
       trader_data lag base_quantity threshold max_position
       = Ok (orders, trader_data') →
     ∃ m', trader_data' = dumps (VDict m') ∧
           ∀ k, k ≠ "model_history" → k ≠ "position" → k ≠ "model_params" →
                m' !! k = m !! k).
Proof.
  intros Hobj. split.
  - intros window_size base_quantity orders trader_data' Hcall.
    apply rainforest_returns in Hcall as (history & Happ & ->).
    destruct (load_rainforest_object loads _ _ Hobj) as (m0 & Hload & Hm0).
    rewrite Hload in Happ.
    apply append_at_Ok in Happ as (m1 & l & [= <-] & Hl & ->).
    eexists. split; [done|]. intros k Hk. by rewrite lookup_insert_ne, Hm0.
  - intros lag base_quantity threshold max_position orders trader_data' Hcall.
    apply model_based_returns in Hcall as (m0 & l & history' & Hload & Hl & -> & Hcase).
    unfold load_model_history in Hload. rewrite Hobj in Hload.
    destruct (load_model_object (VDict m) m eq_refl) as (m0' & Hinit & Hm0 & _).
    rewrite Hinit in Hload. injection Hload as ->.
    destruct Hcase as [[_ ->]|[deviation Htrade]].
    + eexists. split; [done|]. intros k Ha Hb Hc.
      by rewrite lookup_insert_ne, Hm0.
    + apply model_trade_frame in Htrade as (m' & -> & Hm').
      exists m'. split; [done|]. intros k Ha Hb Hc.
      by rewrite Hm', lookup_insert_ne, Hm0.
Qed.

(** C1, the input on which the claim fails. Any JSON text that decodes
    to something other than an object makes
    [compute_model_based_orders] raise [TypeError]: its membership
    tests and assignments are outside the [try]. *)
Theorem model_based_raises_on_non_object (target_product : string)
    (order_depth : OrderDepth) (mid_price : num) (trader_data : blob)
    (lag : nat) (base_quantity : Z) (threshold : num) (max_position : Z)
    (decoded : pyval) :
  loads trader_data = Ok decoded →
  (∀ m, decoded ≠ VDict m) →
  compute_model_based_orders loads dumps target_product order_depth mid_price
    trader_data lag base_quantity threshold max_position = Raise TypeError.
Proof.
  intros Hl Hnd. unfold compute_model_based_orders, load_model_history. rewrite Hl.
  destruct (init_if_absent_other decoded "model_history" (VList []) Hnd) as [->| ->];
    [|done]. simpl.
  destruct (init_if_absent_other decoded "position" (VInt 0) Hnd) as [->| ->];
    [|done]. simpl.
  destruct (init_if_absent_other decoded "model_params" default_model_params Hnd)
    as [->| ->]; [|done]. simpl.
  by rewrite append_at_other.
Qed.

(** The sibling strategy on the same input: a JSON number, boolean or
    null is caught by the [try] and replaced by the fresh record. *)
Lemma rainforest_defaults_on_scalar (trader_data : blob) (decoded : pyval) :
  loads trader_data = Ok decoded →
  match decoded with VNone | VBool _ | VInt _ | VFloat _ => True | _ => False end →
  load_rainforest_history loads trader_data = rainforest_record [].
Proof.
  intros Hl Hscalar. unfold load_rainforest_history. rewrite Hl.
  by destruct decoded.
Qed.
End Frame.

Lemma mid_price_policy_witness :
  ∃ mid, mid_price_of (book [9998] [10003]) = Ok (Some (NFloat mid)) ∧
         float_is mid (9998 + 10003) (-1).
Proof.
  assert (Hbids : buy_orders (book [9998] [10003]) ≠ ∅)
    by (apply nonempty_inv; vm_compute; reflexivity).
  assert (Hasks : sell_orders (book [9998] [10003]) ≠ ∅)
    by (apply nonempty_inv; vm_compute; reflexivity).
  destruct (proj1 (mid_price_policy parsed_loads parsed_dumps sample_pow
                     (book [9998] [10003])) Hbids Hasks)
    as (best_bid & best_ask & Hgreatest & Hleast & _ & Hexact).
  destruct (max_key_greatest _ Hbids) as (bid & Hmax & Hbid).
  destruct (min_key_least _ Hasks) as (ask & Hmin & Hask).
  vm_compute in Hmax. vm_compute in Hmin.
  injection Hmax as <-. injection Hmin as <-.
  rewrite (greatest_key_unique _ _ _ Hgreatest Hbid) in Hexact.
  rewrite (least_key_unique _ _ _ Hleast Hask) in Hexact.
  apply Hexact. vm_compute. reflexivity.
Defined.

(** The mid price of a two-sided book on three books: an odd sum, an
    even sum, and negative prices. *)
Example mid_price_two_sided :
  mid_price_of (book [9998; 9990] [10003; 10010]) = Ok (Some (NFloat 10000.5)) ∧
  mid_price_of (book [9998] [10002]) = Ok (Some (NFloat 10000)) ∧
  mid_price_of (book [-7] [-4; 2]) = Ok (Some (NFloat (-5.5))).
Proof. repeat split; vm_compute; reflexivity. Qed.

Lemma run_keeps_trader_data_witness :
  ∃ result, run parsed_loads parsed_dumps sample_pow quiet_state
            = Ok (result, 1, traderData quiet_state).
Proof.
  apply (run_keeps_trader_data parsed_loads parsed_dumps sample_pow quiet_state).
  right. exists (book [] []). split; [|split]; vm_compute; reflexivity.
Defined.

Lemma strategies_preserve_other_keys_witness :
  (∀ window_size base_quantity orders trader_data',
     compute_rainforest_orders parsed_loads parsed_dumps sample_pow
         target (book [9999] [10001])
       (NFloat 10000) (Ok (VDict extended_record)) window_size base_quantity
     = Ok (orders, trader_data') →
     ∃ m', trader_data' = parsed_dumps (VDict m') ∧
           ∀ k, k ≠ "rainforest_prices" → m' !! k = extended_record !! k) ∧
  (∀ lag base_quantity threshold max_position orders trader_data',
     compute_model_based_orders parsed_loads parsed_dumps target (book [9999] [10001])
       (NFloat 10000) (Ok (VDict extended_record)) lag base_quantity threshold
       max_position = Ok (orders, trader_data') →
     ∃ m', trader_data' = parsed_dumps (VDict m') ∧
           ∀ k, k ≠ "model_history" → k ≠ "position" → k ≠ "model_params" →
                m' !! k = extended_record !! k).
Proof.
  apply (strategies_preserve_other_keys parsed_loads parsed_dumps sample_pow target
           (book [9999] [10001]) (NFloat 10000) (Ok (VDict extended_record))
           extended_record).
  reflexivity.
Defined.

(** Both strategies do return on that record, and the foreign key is in
    what they return. *)
Example extended_record_kept :
  (∃ m', compute_rainforest_orders parsed_loads parsed_dumps sample_pow
      target (book [9999] [10001])
           (NFloat 10000) (Ok (VDict extended_record)) 20 10 = Ok ([], Ok (VDict m')) ∧
         m' !! "harness_note" = Some (VStr "kept")) ∧
  (∃ m', compute_model_based_orders parsed_loads parsed_dumps target (book [9999] [10001])
           (NFloat 10000) (Ok (VDict extended_record)) 4 10 (NFloat 1) 50
         = Ok ([], Ok (VDict m')) ∧
         m' !! "harness_note" = Some (VStr "kept")).
Proof.
  split; eexists; (split; [vm_compute; reflexivity | vm_compute; reflexivity]).
Qed.

Lemma model_based_raises_on_non_object_witness :
  compute_model_based_orders parsed_loads parsed_dumps target (book [9999] [10001])
    (NFloat 10000) (Ok (VInt 5)) 4 10 (NFloat 1) 50 = Raise TypeError.
Proof.
  apply (model_based_raises_on_non_object parsed_loads parsed_dumps target
           (book [9999] [10001]) (NFloat 10000) (Ok (VInt 5)) 4 10 (NFloat 1) 50
           (VInt 5)).
  - reflexivity.
  - intros m. discriminate.
Defined.

(** The mean-reversion strategy on the same blob falls back to the fresh
    record and returns. *)
Example rainforest_returns_on_number :
  compute_rainforest_orders parsed_loads parsed_dumps sample_pow target (book [9999] [10001])
    (NFloat 10000) (Ok (VInt 5)) 20 10
  = Ok ([], Ok (rainforest_record [VFloat 10000])).
Proof. vm_compute. reflexivity. Qed.

(** It raises too when the key holds something that is not a list. *)
Example rainforest_raises_on_non_list :
  compute_rainforest_orders parsed_loads parsed_dumps sample_pow target (book [9999] [10001])
    (NFloat 10000) (Ok (VDict {["rainforest_prices" := VInt 5]})) 20 10
  = Raise AttributeError.
Proof. vm_compute. reflexivity. Qed.

Section MeanReversion.
Context {blob : Type} (loads : blob → result pyval) (dumps : pyval → blob)
        (pow : float → float → float).


End MeanReversion.


(** The statistics of the sample windows, as the strategy computes
    them. *)
Example sample_statistics :
  rolling_mean_of three_sigma_window 20 = Ok (NFloat 100) ∧
  rolling_std_of sample_pow three_sigma_window (NFloat 100) 20 = Ok (NFloat 1) ∧
  rolling_mean_of boundary_window 20 = Ok (NFloat 100) ∧
  rolling_std_of sample_pow boundary_window (NFloat 100) 20 = Ok (NFloat 2) ∧
  window_z_score sample_pow (NInt 97) boundary_window 20 = Ok (NFloat (-1.5)).
Proof. repeat split; vm_compute; reflexivity. Qed.

(** ** Facts about floats *)

Lemma Prim2SF_one : Prim2SF 1%float = S754_finite false 4503599627370496 (-52).
Proof. vm_compute. reflexivity. Qed.

(** A finite float minus itself is +0.0. *)
Lemma float_sub_diag (f f' : float) :
  finite_or_overflow f = Ok f' → PrimFloat.sub f' f' = 0%float.
Proof.
  unfold finite_or_overflow. intros H.
  assert (Hz : Prim2SF (PrimFloat.sub f f) = S754_zero false).
  { rewrite sub_spec. destruct (Prim2SF f) as [s| | |s m e]; try discriminate.
    - by destruct s.
    - unfold SF64sub, SFsub. rewrite Z.min_id. unfold shl_align.
      rewrite !Z.sub_diag. done. }
  assert (f' = f) as -> by (destruct (Prim2SF f); (discriminate || by injection H)).
  apply Prim2SF_inj. rewrite Hz. vm_compute. reflexivity.
Qed.

(** Equal to 1.0 by value means being the int 1 or the float 1.0. *)
Lemma num_compare_one (d : num) :
  num_compare d (NFloat 1) = Some Eq → d = NInt 1 ∨ d = NFloat 1.
Proof.
  destruct d as [z|f]; unfold num_compare.
  - unfold compare_int_float. rewrite Prim2SF_one.
    change (0 <=? -52) with false. cbv iota.
    change (2 ^ (- (-52))) with 4503599627370496.
    intros [= H]. apply Z.compare_eq_iff in H. left. f_equal. lia.
  - unfold compare_float. rewrite FloatAxioms.compare_spec, Prim2SF_one.
    destruct (Prim2SF f) as [s| s | |s m e] eqn:Hf;
      unfold flatten_cmp_opt, SFcompare; try discriminate.
    + destruct s; discriminate.
    + destruct s; [discriminate|].
      destruct (Z.compare_spec e (-52)) as [->| |]; try discriminate.
      destruct (PosDef.Pos.compare_cont Eq m 4503599627370496) eqn:Hm; try discriminate.
      apply Pos.compare_eq in Hm.
      intros _. right. f_equal. apply Prim2SF_inj. by rewrite Hf, Prim2SF_one, Hm.
Qed.

(** Above 1.0 means positive: the absolute value is the number itself as
    far as the comparison with 1.0 goes. *)
Lemma num_gt_one_abs (d : num) :
  num_gt d (NFloat 1) = true → num_gt (num_abs d) (NFloat 1) = true.
Proof.
  unfold num_gt. destruct d as [z|f]; unfold num_abs, num_compare.
  - unfold compare_int_float. rewrite Prim2SF_one.
    change (0 <=? -52) with false. cbv iota.
    change (2 ^ (- (-52))) with 4503599627370496.
    destruct (Z.compare_spec (z * 4503599627370496) 4503599627370496);
      try discriminate. intros _.
    rewrite Z.abs_eq by lia.
    destruct (Z.compare_spec (z * 4503599627370496) 4503599627370496); (done || lia).
  - unfold compare_float. rewrite !FloatAxioms.compare_spec, abs_spec, Prim2SF_one.
    destruct (Prim2SF f) as [s| s | |s m e];
      unfold flatten_cmp_opt, SFcompare, SFabs; try discriminate.
    + destruct s; [discriminate|done].
    + destruct s; [discriminate|done].
Qed.

(** ** The predictor's position *)

Lemma update_position_int (m : gmap string pyval) (z t : Z) :
  m !! "position" = Some (VInt z) →
  update_position (VDict m) num_add (NInt t)
    = Ok (VDict (<["position" := VInt (z + t)]> m)) ∧
  update_position (VDict m) num_sub (NInt t)
    = Ok (VDict (<["position" := VInt (z - t)]> m)).
Proof. intros Hpos. unfold update_position. simpl. rewrite Hpos. by simpl. Qed.

(** A trade from an integer position leaves the position where it was or
    moves it to [max_position] (a BUY, from below it) or to
    [- max_position] (a SELL, from above it). *)
Lemma model_trade_position (target_product : string) (order_depth : OrderDepth)
    (m : gmap string pyval) (deviation : num) (base_quantity : Z) (threshold : num)
    (max_position z : Z) (orders : list Order) (history' : pyval) :
  m !! "position" = Some (VInt z) →
  model_trade target_product order_depth (VDict m) deviation base_quantity
              threshold max_position = Ok (orders, history') →
  ∃ z', history' = VDict (<["position" := VInt z']> m) ∧
        (z' = z ∧ orders = [] ∨
         z' = max_position ∧ z < max_position ∨
         z' = - max_position ∧ - max_position < z).
Proof.
  intros Hpos. unfold model_trade.
  intros (scaled & _ & H)%bind_Ok.
  apply bind_Ok in H as (order_quantity & _ & H).
  apply bind_Ok in H as (current_position & Hget & H).
  simpl in Hget. rewrite Hpos in Hget. injection Hget as <-.
  assert (Hsame : VDict m = VDict (<["position" := VInt z]> m))
    by (by rewrite insert_id).
  destruct (update_position_int m z (max_position - z) Hpos) as [Hbuy _].
  destruct (update_position_int m z (z - - max_position) Hpos) as [_ Hsell].
  destruct (_ && _).
  - simpl in H. unfold num_gt in H. simpl in H.
    destruct (Z.compare_spec (max_position - z) 0) as [Hc|Hc|Hc].
    + injection H as <- <-. exists z. auto.
    + injection H as <- <-. exists z. auto.
    + apply bind_Ok in H as (best_ask & _ & H). rewrite Hbuy in H. simpl in H.
      injection H as _ <-. exists max_position. split; [|right; left; lia].
      do 3 f_equal. lia.
  - destruct (_ && _).
    + simpl in H. unfold num_gt in H. simpl in H.
      destruct (Z.compare_spec (z - - max_position) 0) as [Hc|Hc|Hc].
      * injection H as <- <-. exists z. auto.
      * injection H as <- <-. exists z. auto.
      * apply bind_Ok in H as (best_bid & _ & H). rewrite Hsell in H. simpl in H.
        injection H as _ <-. exists (- max_position). split; [|right; right; lia].
        do 3 f_equal. lia.
    + injection H as <- <-. exists z. auto.
Qed.

Section Position.
Context {blob : Type} (loads : blob → result pyval) (dumps : pyval → blob)
        (pow : float → float → float).
Hypothesis loads_dumps : ∀ history, loads (dumps history) = Ok history.

Lemma position_of_dumps (m : gmap string pyval) (v : pyval) :
  m !! "position" = Some v → position_of loads (dumps (VDict m)) = Ok v.
Proof.
  intros Hpos. unfold position_of, load_model_history. rewrite loads_dumps.
  destruct (load_model_object (VDict m) m eq_refl) as (m' & -> & _ & _ & Hp & _).
  simpl. by rewrite Hp, Hpos.
Qed.

Lemma position_of_fresh (trader_data : blob) :
  starts_fresh loads trader_data → position_of loads trader_data = Ok (VInt 0).
Proof.
  unfold starts_fresh, position_of, load_model_history.
  destruct (loads trader_data) as [decoded|e]; [|done].
  destruct decoded as [| | | | | |m]; try done. intros Hnone.
  destruct (load_model_object (VDict m) m eq_refl) as (m' & -> & _ & _ & Hp & _).
  simpl. by rewrite Hp, Hnone.
Qed.

Lemma cycle_keeps_position_within (max_position : Z) (target_product : string)
    (order_depth : OrderDepth) (mid_price : num) (trader_data : blob) (lag : nat)
    (base_quantity : Z) (threshold : num) (orders : list Order) (trader_data' : blob) :
  0 ≤ max_position →
  position_within loads max_position trader_data →
  compute_model_based_orders loads dumps target_product order_depth mid_price
    trader_data lag base_quantity threshold max_position = Ok (orders, trader_data') →
  position_within loads max_position trader_data'.
Proof.
  intros Hmax (z & Hz & Hbound) Hcall.
  apply model_based_returns in Hcall as (m & l & history' & Hload & Hl & -> & Hcase).
  unfold position_of in Hz. rewrite Hload in Hz. simpl in Hz.
  destruct (m !! "position") as [v|] eqn:Hpos; [|discriminate]. injection Hz as ->.
  assert (Happ : <["model_history" := VList (l ++ [of_num mid_price])]> m !! "position"
                 = Some (VInt z)) by (by rewrite lookup_insert_ne).
  destruct Hcase as [[_ ->]|[deviation Htrade]].
  - exists z. split; [by apply position_of_dumps|done].
  - apply (model_trade_position _ _ _ _ _ _ _ z) in Htrade as (z' & -> & Hz'); [|done].
    exists z'. split; [apply position_of_dumps, lookup_insert_eq|].
    destruct Hz' as [[-> _]|[[-> _]|[-> _]]]; lia.
Qed.

(** C7. Iterating the predictor from a default-initialised state keeps
    the persisted position within [-max_position, max_position], and
    every call preserves the bound. *)
Theorem position_bounded (max_position : Z) :
  0 ≤ max_position →
  (∀ trader_data,
     reachable loads dumps max_position trader_data →
     position_within loads max_position trader_data) ∧
  (∀ target_product order_depth mid_price trader_data lag base_quantity threshold
     orders trader_data',
     position_within loads max_position trader_data →
     compute_model_based_orders loads dumps target_product order_depth mid_price
       trader_data lag base_quantity threshold max_position
       = Ok (orders, trader_data') →
     position_within loads max_position trader_data').
Proof.
  intros Hmax. split.
  - intros trader_data Hreach.
    induction Hreach as [trader_data Hfresh|trader_data tp od mid lag b thr orders
                         trader_data' _ IH Hcall].
    + exists 0. split; [by apply position_of_fresh|lia].
    + by eapply cycle_keeps_position_within.
  - intros tp od mid td lag b thr orders td' Hwithin Hcall.
    by eapply cycle_keeps_position_within.
Qed.
End Position.

Lemma position_bounded_witness :
  (∀ trader_data,
     reachable parsed_loads parsed_dumps 50 trader_data →
     position_within parsed_loads 50 trader_data) ∧
  (∀ target_product order_depth mid_price trader_data lag base_quantity threshold
     orders trader_data',
     position_within parsed_loads 50 trader_data →
     compute_model_based_orders parsed_loads parsed_dumps target_product order_depth
       mid_price trader_data lag base_quantity threshold 50
       = Ok (orders, trader_data') →
     position_within parsed_loads 50 trader_data').
Proof.
  apply (position_bounded parsed_loads parsed_dumps (λ history, eq_refl) 50). lia.
Defined.

Section Predictor.
Context {blob : Type} (loads : blob → result pyval) (dumps : pyval → blob)
        (pow : float → float → float).

(** The call up to the decision, when the window is full. *)
Lemma model_based_full_window (target_product : string) (order_depth : OrderDepth)
    (mid_price : num) (trader_data : blob) (lag : nat) (base_quantity : Z)
    (threshold : num) (max_position : Z) (m : gmap string pyval) (l : list pyval)
    (deviation : num) :
  load_model_history loads trader_data = Ok (VDict m) →
  m !! "model_history" = Some (VList l) →
  (lag ≤ length (l ++ [of_num mid_price]))%nat →
  let appended := <["model_history" := VList (l ++ [of_num mid_price])]> m in
  model_deviation (VDict appended) (slice_last lag (l ++ [of_num mid_price])) mid_price
    = Ok deviation →
  compute_model_based_orders loads dumps target_product order_depth mid_price
    trader_data lag base_quantity threshold max_position
  = '(orders, history) ←
      (if num_gt (num_abs deviation) threshold
       then model_trade target_product order_depth (VDict appended) deviation
                        base_quantity threshold max_position
       else Ok ([], VDict appended));
    Ok (orders, dumps history).
Proof.
  intros Hload Hl Hfull appended Hdev.
  unfold compute_model_based_orders. rewrite Hload. simpl.
  rewrite (append_at_dict _ _ _ _ Hl). simpl. rewrite lookup_insert_eq. simpl.
  rewrite bool_decide_eq_true_2 by exact Hfull. simpl.
  fold appended. by rewrite Hdev.
Qed.

(** C4 as amended. A deviation equal to the threshold 1.0 gives no order
    and leaves the record's position alone. A deviation above 1.0, with
    position 0, [max_position] 50 and a non-empty ask side, gives exactly
    one BUY of 50 at the least ask and sets the position to 50, whatever
    integer [int(base_quantity * abs(deviation))] is, provided it is one:
    the product must not be infinite. *)
Theorem threshold_boundary (target_product : string) (order_depth : OrderDepth)
    (mid_price : num) (trader_data : blob) (lag : nat) (base_quantity : Z)
    (m : gmap string pyval) (l : list pyval) (deviation : num) :
  load_model_history loads trader_data = Ok (VDict m) →
  m !! "model_history" = Some (VList l) →
  (lag ≤ length (l ++ [of_num mid_price]))%nat →
  let appended := <["model_history" := VList (l ++ [of_num mid_price])]> m in
  model_deviation (VDict appended) (slice_last lag (l ++ [of_num mid_price])) mid_price
    = Ok deviation →
  (num_compare deviation (NFloat 1) = Some Eq →
   compute_model_based_orders loads dumps target_product order_depth mid_price
     trader_data lag base_quantity (NFloat 1) 50
   = Ok ([], dumps (VDict appended))) ∧
  (num_gt deviation (NFloat 1) = true →
   (∃ order_quantity,
      num_mul (NInt base_quantity) (num_abs deviation) ≫= num_int = Ok order_quantity) →
   m !! "position" = Some (VInt 0) →
   sell_orders order_depth ≠ ∅ →
   ∃ best_ask,
     least_key (sell_orders order_depth) best_ask ∧
     compute_model_based_orders loads dumps target_product order_depth mid_price
       trader_data lag base_quantity (NFloat 1) 50
     = Ok ([ {| symbol := target_product; price := best_ask; quantity := NInt 50 |} ],
           dumps (VDict (<["position" := VInt 50]> appended)))).
Proof.
  intros Hload Hl Hfull appended Hdev. split.
  - intros Heq.
    rewrite (model_based_full_window _ _ _ _ _ _ _ _ m l deviation Hload Hl Hfull Hdev).
    fold appended.
    destruct (num_compare_one _ Heq) as [-> | ->];
      by replace (num_gt _ (NFloat 1)) with false by (vm_compute; reflexivity).
  - intros Hgt (order_quantity & Hdead) Hpos Hasks.
    destruct (min_key_least _ Hasks) as (best_ask & Hmin & Hleast).
    exists best_ask. split; [exact Hleast|].
    rewrite (model_based_full_window _ _ _ _ _ _ _ _ m l deviation Hload Hl Hfull Hdev).
    fold appended. rewrite (num_gt_one_abs _ Hgt).
    assert (Happ : appended !! "position" = Some (VInt 0))
      by (unfold appended; by rewrite lookup_insert_ne).
    unfold model_trade.
    apply bind_Ok in Hdead as (scaled & Hmul & Hint).
    rewrite Hmul. simpl. rewrite Hint. simpl.
    rewrite Happ. simpl. rewrite Hgt, (nonempty_true _ Hasks). simpl.
    rewrite Hmin. simpl.
    change (50 - 0) with 50.
    destruct (update_position_int appended 0 50 Happ) as [-> _]. done.
Qed.
End Predictor.

Lemma threshold_boundary_witness :
  (compute_model_based_orders parsed_loads parsed_dumps target (book [7] [9])
     (NInt 0) (Ok (VDict unit_deviation_record)) 4 10 (NFloat 1) 50
   = Ok ([], parsed_dumps
               (VDict (<["model_history" := VList [VInt 0; VInt 0; VInt 0; VInt 0]]>
                       unit_deviation_record)))) ∧
  (∃ best_ask,
     least_key (sell_orders (book [7] [9])) best_ask ∧
     compute_model_based_orders parsed_loads parsed_dumps target (book [7] [9])
       (NInt 8) (Ok (VDict rising_record)) 4 10 (NFloat 1) 50
     = Ok ([ {| symbol := target; price := best_ask; quantity := NInt 50 |} ],
           parsed_dumps
             (VDict (<["position" := VInt 50]>
                     (<["model_history" := VList [VInt 10; VInt 10; VInt 10; VInt 8]]>
                      rising_record))))).
Proof.
  split.
  - refine (proj1 (threshold_boundary parsed_loads parsed_dumps target (book [7] [9])
              (NInt 0) (Ok (VDict unit_deviation_record)) 4 10 unit_deviation_record
              [VInt 0; VInt 0; VInt 0] (NFloat 1) _ _ _ _) _).
    + vm_compute. reflexivity.
    + vm_compute. reflexivity.
    + vm_compute. lia.
    + vm_compute. reflexivity.
    + vm_compute. reflexivity.
  - refine (proj2 (threshold_boundary parsed_loads parsed_dumps target (book [7] [9])
              (NInt 8) (Ok (VDict rising_record)) 4 10 rising_record
              [VInt 10; VInt 10; VInt 10] (NFloat 2.4288255083570682) _ _ _ _) _ _ _ _).
    + vm_compute. reflexivity.
    + vm_compute. reflexivity.
    + vm_compute. lia.
    + vm_compute. reflexivity.
    + vm_compute. reflexivity.
    + exists 24. vm_compute. reflexivity.
    + vm_compute. reflexivity.
    + apply nonempty_inv. vm_compute. reflexivity.
Defined.

(** The claim of C4 fails where the unused order quantity cannot be
    computed. The deviation is above the threshold, the position is 0 and an ask is quoted, yet
    [int(base_quantity * abs(deviation))] raises [OverflowError] on the
    infinite product and no order is returned. *)
Lemma threshold_counterexample :
  ∃ deviation,
    model_deviation
      (VDict (<["model_history" := VList (repeat (VFloat 1.7e308) 3 ++ [VFloat 1.5])]>
              huge_record))
      (slice_last 4 (repeat (VFloat 1.7e308) 3 ++ [VFloat 1.5])) (NFloat 1.5)
      = Ok deviation ∧
    num_gt deviation (NFloat 1) = true ∧
    huge_record !! "position" = Some (VInt 0) ∧
    nonempty (sell_orders (book [1] [2])) = true ∧
    compute_model_based_orders parsed_loads parsed_dumps target (book [1] [2])
      (NFloat 1.5) (Ok (VDict huge_record)) 4 10 (NFloat 1) 50 = Raise OverflowError.
Proof.
  eexists. split; [vm_compute; reflexivity|].
  repeat split; vm_compute; reflexivity.
Qed.

(** ** A flat price *)

(** The claim of C2 fails for the predictor: with four cycles at 10000.0
    in the window and position 0, a fifth cycle at 10000.0 predicts about
    9998.34, sells 50 at the best bid and persists position -50. *)
Lemma flat_price_counterexample :
  compute_model_based_orders parsed_loads parsed_dumps target (book [9999] [10001])
    (NFloat 10000) (Ok (flat_record 0 4)) 4 10 (NFloat 1) 50
  = Ok ([ {| symbol := target; price := 9999; quantity := NInt (-50) |} ],
        Ok (flat_record (-50) 5)).
Proof. vm_compute. reflexivity. Qed.

Lemma slice_last_flat {A} (x : A) (older : list A) (n k : nat) :
  (0 < n)%nat → slice_last n (older ++ repeat x (n + k)) = repeat x n.
Proof.
  intros Hn. unfold slice_last.
  destruct (Nat.eqb_spec n 0) as [->|_]; [lia|].
  rewrite (Nat.add_comm n k), repeat_app, app_assoc.
  apply drop_app_length'.
  rewrite !length_app, !repeat_length. lia.
Qed.

Lemma flat_history_snoc {A} (x : A) (older : list A) (n : nat) :
  (older ++ repeat x n) ++ [x] = older ++ repeat x (S n).
Proof. by rewrite <- app_assoc, <- repeat_cons. Qed.

(** The sum of [n] copies of the int [p]. *)
Lemma py_sum_flat (p : Z) (n : nat) :
  py_sum (repeat (VInt p) n) = Ok (NInt (Z.of_nat n * p)).
Proof.
  unfold py_sum, py_sum_gen.
  assert (H : ∀ acc, foldl (λ acc x, total ← acc; term ← as_num x; num_add total term)
                           (Ok (NInt acc)) (repeat (VInt p) n)
                     = Ok (NInt (acc + Z.of_nat n * p))).
  { induction n as [|n IH]; intros acc.
    - simpl. do 2 f_equal. lia.
    - cbn [repeat foldl]. simpl mbind. rewrite IH. do 2 f_equal. lia. }
  rewrite H. do 2 f_equal.
Qed.

(** A sum of terms that are all +0.0 is +0.0. *)
Lemma py_sum_gen_zero {A} (f : A → result num) (x : A) (n : nat) :
  f x = Ok (NFloat 0) → (0 < n)%nat →
  py_sum_gen f (repeat x n) = Ok (NFloat 0).
Proof.
  intros Hf Hn. unfold py_sum_gen.
  assert (H : ∀ k, foldl (λ acc x, total ← acc; term ← f x; num_add total term)
                         (Ok (NFloat 0)) (repeat x k) = Ok (NFloat 0)).
  { induction k as [|k IH]; [done|].
    cbn [repeat foldl]. simpl mbind. rewrite Hf. simpl mbind.
    replace (num_add (NFloat 0) (NFloat 0)) with (Ok (NFloat 0) : result num)
      by (vm_compute; reflexivity).
    exact IH. }
  destruct n as [|n]; [lia|].
  cbn [repeat foldl]. simpl mbind. rewrite Hf. simpl mbind.
  replace (num_add (NInt 0) (NFloat 0)) with (Ok (NFloat 0) : result num)
    by (vm_compute; reflexivity).
  apply H.
Qed.

Lemma as_num_of_num (p : num) : as_num (of_num p) = Ok p.
Proof. by destruct p. Qed.

(** An int that fits a float averages exactly over any window: the sum
    of [n] copies is the int [n * p], its quotient by [n] is [float(p)],
    and [p - float(p)] is 0.0. *)
Lemma int_averages_exactly (p : Z) (f : float) (window_size : nat) :
  (0 < window_size)%nat → int_to_float p = Ok f →
  averages_exactly (NInt p) window_size.
Proof.
  intros Hn Hp. exists f. split.
  - unfold rolling_mean_of. change (of_num (NInt p)) with (VInt p).
    rewrite py_sum_flat, bind_ret.
    unfold num_truediv, int_truediv.
    destruct (Z.eqb_spec (Z.of_nat window_size) 0) as [|_]; [lia|].
    rewrite (Z.mul_comm _ p), Z_mod_mult.
    change (0 =? 0) with true. cbv iota.
    rewrite Z.div_mul by lia. by rewrite Hp.
  - unfold num_sub, arith, num_float. rewrite Hp, !bind_ret.
    by rewrite (float_sub_diag _ _ Hp).
Qed.

(** A window size below 2^53 is a float other than zero, and +0.0
    divided by it is +0.0. *)
Lemma zero_over_window (window_size : nat) :
  (0 < window_size)%nat → Z.of_nat window_size < 2 ^ 53 →
  num_truediv (NFloat 0) (NInt (Z.of_nat window_size)) = Ok (NFloat 0).
Proof.
  intros Hpos Hfit.
  destruct (int_to_float_exact (Z.of_nat window_size)) as (g & Hg & His); [lia|].
  unfold num_truediv, num_float. rewrite Hg, !bind_ret.
  unfold float_is in His.
  destruct (Prim2SF g) as [| | |sx mf ef] eqn:Hsf; [lia|done|done|].
  assert (sx = false) as ->.
  { destruct sx; [|done]. cbv zeta in His.
    pose proof (Z.pow_pos_nonneg 2 (ef - Z.min ef 0) ltac:(lia) ltac:(lia)).
    pose proof (Z.pow_pos_nonneg 2 (0 - Z.min ef 0) ltac:(lia) ltac:(lia)).
    nia. }
  rewrite FloatAxioms.eqb_spec, Hsf.
  change (Prim2SF 0) with (S754_zero false). cbn [SFeqb SFcompare].
  do 2 f_equal. apply Prim2SF_inj. rewrite div_spec, Hsf. reflexivity.
Qed.

(** Inside the thresholds the statistics lead to no order, whatever the
    book. *)
Lemma rainforest_signal_quiet (pow : float → float → float) (target_product : string)
    (order_depth : OrderDepth) (mid_price : num) (recent_prices : list pyval)
    (window_size : nat) (base_quantity : Z) (z_score : num) (scale_factor : Z) :
  window_z_score pow mid_price recent_prices window_size = Ok z_score →
  scale_factor_of z_score = Ok scale_factor →
  num_lt z_score (NFloat (-1.5)) = false →
  num_gt z_score (NFloat 1.5) = false →
  rainforest_signal pow target_product order_depth mid_price recent_prices window_size
                    base_quantity = Ok [].
Proof.
  unfold window_z_score. intros (rolling_mean & Hmean & H)%bind_Ok Hscale Hlt Hgt.
  apply bind_Ok in H as (rolling_std & Hstd & Hz).
  unfold rainforest_signal.
  by rewrite Hmean, bind_ret, Hstd, bind_ret, Hz, bind_ret, Hscale, bind_ret, Hlt, Hgt.
Qed.

(** A price that averages exactly has deviation 0.0 from the mean of its
    window: every square is 0.0 without a call of [pow], the standard
    deviation is 0.0 and the z-score is the int 0. *)
Lemma exact_average_quiet (pow : float → float → float) (p : num) (window_size : nat) :
  (0 < window_size)%nat → Z.of_nat window_size < 2 ^ 53 →
  averages_exactly p window_size →
  flat_window_quiet pow p window_size.
Proof.
  intros Hpos Hfit (f & Hmean & Hsub).
  assert (Hterm : (p0 ← as_num (of_num p); d ← num_sub p0 (NFloat f); num_square pow d)
                  = Ok (NFloat 0)).
  { rewrite as_num_of_num, bind_ret, Hsub, bind_ret. reflexivity. }
  assert (Hstd : rolling_std_of pow (repeat (of_num p) window_size) (NFloat f) window_size
                 = Ok (NFloat 0)).
  { unfold rolling_std_of.
    rewrite (py_sum_gen_zero _ (of_num p) window_size Hterm) by lia.
    rewrite bind_ret, (zero_over_window _ Hpos Hfit), bind_ret. reflexivity. }
  exists (NInt 0), 1. split; [|split; [|split]]; [|vm_compute; reflexivity..].
  unfold window_z_score. rewrite Hmean, bind_ret, Hstd, bind_ret.
  unfold z_score_of.
  by replace (num_ne (NFloat 0) (NInt 0)) with false by (vm_compute; reflexivity).
Qed.

(** A window of no price has no mean. *)
Lemma flat_window_quiet_positive (pow : float → float → float) (p : num)
    (window_size : nat) :
  flat_window_quiet pow p window_size → (0 < window_size)%nat.
Proof.
  intros (z_score & _ & Hz & _). destruct window_size; [|lia]. discriminate Hz.
Qed.

(** The prediction reads the record's model parameters only. *)
Lemma model_deviation_frame (m : gmap string pyval) (prices : pyval)
    (recent_prices : list pyval) (mid_price : num) :
  model_deviation (VDict (<["model_history" := prices]> m)) recent_prices mid_price
  = model_deviation (VDict m) recent_prices mid_price.
Proof. unfold model_deviation, py_getitem. by rewrite lookup_insert_ne. Qed.

Section FlatPrice.
Context {blob : Type} (loads : blob → result pyval) (dumps : pyval → blob)
        (pow : float → float → float).
Hypothesis loads_dumps : ∀ history, loads (dumps history) = Ok history.

Lemma rainforest_cycle_flat (target_product : string) (order_depth : OrderDepth)
    (p : num) (window_size : nat) (base_quantity : Z) (trader_data : blob)
    (m : gmap string pyval) (older : list pyval) (k : nat) :
  flat_window_quiet pow p window_size →
  loads trader_data = Ok (VDict m) →
  m !! "rainforest_prices"
    = Some (VList (older ++ repeat (of_num p) (window_size + k))) →
  compute_rainforest_orders loads dumps pow target_product order_depth p
    trader_data window_size base_quantity
  = Ok ([], dumps (VDict (<["rainforest_prices" :=
                              VList (older ++ repeat (of_num p) (window_size + S k))]> m))).
Proof.
  intros Hquiet Hl Hm.
  pose proof (flat_window_quiet_positive _ _ _ Hquiet) as Hpos.
  destruct Hquiet as (z_score & scale_factor & Hz & Hscale & Hlt & Hgt).
  assert (Hload : load_rainforest_history loads trader_data = VDict m).
  { unfold load_rainforest_history. by rewrite Hl, bind_ret, init_if_absent_dict, Hm. }
  unfold compute_rainforest_orders.
  rewrite Hload, (append_at_dict _ _ _ _ Hm), bind_ret.
  rewrite flat_history_snoc, <- Nat.add_succ_r.
  unfold py_getitem. rewrite lookup_insert_eq, bind_ret.
  unfold py_len. rewrite bind_ret.
  rewrite bool_decide_eq_true_2 by (rewrite length_app, repeat_length; lia).
  unfold py_slice_last. rewrite bind_ret.
  rewrite slice_last_flat by lia.
  by rewrite (rainforest_signal_quiet _ _ _ _ _ _ _ _ _ Hz Hscale Hlt Hgt), bind_ret.
Qed.

Lemma model_cycle_flat (target_product : string) (order_depth : OrderDepth)
    (p : num) (lag : nat) (base_quantity : Z) (threshold : num) (max_position : Z)
    (trader_data : blob) (m : gmap string pyval) (older : list pyval) (k : nat)
    (deviation : num) :
  (0 < lag)%nat →
  loads trader_data = Ok (VDict m) →
  m !! "model_history" = Some (VList (older ++ repeat (of_num p) (lag + k))) →
  is_Some (m !! "position") → is_Some (m !! "model_params") →
  model_deviation (VDict m) (repeat (of_num p) lag) p = Ok deviation →
  num_gt (num_abs deviation) threshold = false →
  compute_model_based_orders loads dumps target_product order_depth p trader_data
    lag base_quantity threshold max_position
  = Ok ([], dumps (VDict (<["model_history" :=
                              VList (older ++ repeat (of_num p) (lag + S k))]> m))).
Proof.
  intros Hlag Hl Hm [pos Hpos] [params Hparams] Hdev Hquiet.
  assert (Hload : load_model_history loads trader_data = Ok (VDict m)).
  { unfold load_model_history. rewrite Hl.
    by rewrite init_if_absent_dict, Hm, bind_ret, init_if_absent_dict, Hpos, bind_ret,
               init_if_absent_dict, Hparams. }
  rewrite (model_based_full_window loads dumps _ _ _ _ _ _ _ _ m
             (older ++ repeat (of_num p) (lag + k)) deviation Hload Hm).
  - rewrite Hquiet, bind_ret. by rewrite flat_history_snoc, <- Nat.add_succ_r.
  - rewrite length_app, length_app, repeat_length. simpl. lia.
  - rewrite model_deviation_frame, flat_history_snoc, <- Nat.add_succ_r.
    by rewrite slice_last_flat.
Qed.

(** C2 as amended. With the window already full of a price [p], further
    cycles at [p] return no order and only lengthen the history, however
    many they are and whatever the books, the window size, the lag and
    the other parameters:
    - for the mean-reversion strategy whenever the z-score it computes
      on the window of copies of [p] is a number within the thresholds
      (it is about -1.0 for 0.1; it is not a number for 1e308, see
      [flat_price_overflow]);
    - this is so, whatever [pow] is and for every window size below
      2^53, for every price that averages exactly, the z-score then
      being 0, and every int that fits a float does;
    - for the predictor whenever the deviation it computes at [p] does
      not exceed the threshold in magnitude; the position it persists is
      then untouched. *)
Theorem flat_price_no_signal (target_product : string) (books : list OrderDepth) :
  (∀ (p : num) window_size base_quantity trader_data m older,
     flat_window_quiet pow p window_size →
     loads trader_data = Ok (VDict m) →
     m !! "rainforest_prices" = Some (VList (older ++ repeat (of_num p) window_size)) →
     ∃ trader_data',
       repeat_rainforest loads dumps pow target_product books p trader_data
                         window_size base_quantity = Ok ([], trader_data') ∧
       loads trader_data'
       = Ok (VDict (<["rainforest_prices" :=
                        VList (older ++ repeat (of_num p) (window_size + length books))]>
                    m))) ∧
  (∀ (p : num) (window_size : nat),
     (0 < window_size)%nat → Z.of_nat window_size < 2 ^ 53 →
     (averages_exactly p window_size ∨ ∃ z f, p = NInt z ∧ int_to_float z = Ok f) →
     flat_window_quiet pow p window_size) ∧
  (∀ (p : num) lag base_quantity threshold max_position trader_data m older deviation,
     (0 < lag)%nat →
     loads trader_data = Ok (VDict m) →
     m !! "model_history" = Some (VList (older ++ repeat (of_num p) lag)) →
     is_Some (m !! "position") → is_Some (m !! "model_params") →
     model_deviation (VDict m) (repeat (of_num p) lag) p = Ok deviation →
     num_gt (num_abs deviation) threshold = false →
     ∃ trader_data',
       repeat_model_based loads dumps target_product books p trader_data
                          lag base_quantity threshold max_position
       = Ok ([], trader_data') ∧
       loads trader_data'
       = Ok (VDict (<["model_history" :=
                        VList (older ++ repeat (of_num p) (lag + length books))]> m))).
Proof.
  split; [|split].
  - intros p window_size base_quantity trader_data m older Hp Hl Hm.
    assert (H : ∀ k trader_data m,
      loads trader_data = Ok (VDict m) →
      m !! "rainforest_prices"
        = Some (VList (older ++ repeat (of_num p) (window_size + k))) →
      ∃ trader_data',
        repeat_rainforest loads dumps pow target_product books p trader_data
                          window_size base_quantity = Ok ([], trader_data') ∧
        loads trader_data'
        = Ok (VDict (<["rainforest_prices" :=
                         VList (older ++ repeat (of_num p)
                                                (window_size + (k + length books)))]> m))).
    { clear trader_data m Hl Hm.
      induction books as [|order_depth books IH]; intros k trader_data m Hl Hm.
      - exists trader_data. split; [done|].
        rewrite Hl. simpl. rewrite Nat.add_0_r. by rewrite insert_id.
      - cbn [repeat_rainforest].
        rewrite (rainforest_cycle_flat _ _ _ _ _ _ m older k Hp Hl Hm), bind_ret.
        destruct (IH (S k) _ _ (loads_dumps _) (lookup_insert_eq m _ _))
          as (trader_data' & -> & Hl').
        exists trader_data'. split; [done|].
        rewrite Hl', insert_insert_eq. simpl length.
        by rewrite Nat.add_succ_r. }
    rewrite <- (Nat.add_0_r window_size) in Hm.
    exact (H 0%nat trader_data m Hl Hm).
  - intros p window_size Hpos Hfit [Hexact|(z & f & -> & Hf)].
    + by apply exact_average_quiet.
    + apply exact_average_quiet; [done|done|]. by apply (int_averages_exactly z f).
  - intros p lag base_quantity threshold max_position trader_data m older deviation
           Hlag Hl Hm Hpos Hparams Hdev Hquiet.
    assert (H : ∀ k trader_data m,
      loads trader_data = Ok (VDict m) →
      m !! "model_history" = Some (VList (older ++ repeat (of_num p) (lag + k))) →
      is_Some (m !! "position") → is_Some (m !! "model_params") →
      model_deviation (VDict m) (repeat (of_num p) lag) p = Ok deviation →
      ∃ trader_data',
        repeat_model_based loads dumps target_product books p trader_data
                           lag base_quantity threshold max_position
        = Ok ([], trader_data') ∧
        loads trader_data'
        = Ok (VDict (<["model_history" :=
                         VList (older ++ repeat (of_num p) (lag + (k + length books)))]> m))).
    { clear trader_data m Hl Hm Hpos Hparams Hdev.
      induction books as [|order_depth books IH];
        intros k trader_data m Hl Hm Hpos Hparams Hdev.
      - exists trader_data. split; [done|].
        rewrite Hl. simpl. rewrite Nat.add_0_r. by rewrite insert_id.
      - cbn [repeat_model_based].
        rewrite (model_cycle_flat _ _ _ _ _ _ _ _ m older k deviation
                   Hlag Hl Hm Hpos Hparams Hdev Hquiet), bind_ret.
        destruct (IH (S k) _ _ (loads_dumps _) (lookup_insert_eq m _ _))
          as (trader_data' & -> & Hl').
        + by rewrite lookup_insert_ne.
        + by rewrite lookup_insert_ne.
        + by rewrite model_deviation_frame.
        + exists trader_data'. split; [done|].
          rewrite Hl', insert_insert_eq. simpl length.
          by rewrite Nat.add_succ_r. }
    rewrite <- (Nat.add_0_r lag) in Hm.
    exact (H 0%nat trader_data m Hl Hm Hpos Hparams Hdev).
Qed.
End FlatPrice.

Lemma flat_price_no_signal_witness :
  (∃ trader_data',
     repeat_rainforest parsed_loads parsed_dumps sample_pow target sample_books
       (NFloat 0.1) (Ok (rainforest_record (repeat (VFloat 0.1) 20))) 20 10
     = Ok ([], trader_data') ∧
     parsed_loads trader_data'
     = Ok (VDict (<["rainforest_prices" := VList ([] ++ repeat (VFloat 0.1) (20 + 3))]>
                  {["rainforest_prices" := VList (repeat (VFloat 0.1) 20)]}))) ∧
  flat_window_quiet sample_pow (NInt 10000) 20 ∧
  (∃ trader_data',
     repeat_model_based parsed_loads parsed_dumps target sample_books (NInt 1000)
       (Ok (VDict calm_record)) 4 10 (NFloat 1) 50 = Ok ([], trader_data') ∧
     parsed_loads trader_data'
     = Ok (VDict (<["model_history" := VList ([] ++ repeat (VInt 1000) (4 + 3))]>
                  calm_record))).
Proof.
  destruct (flat_price_no_signal parsed_loads parsed_dumps sample_pow
              (λ history, eq_refl) target sample_books) as (Hrainforest & Hexact & Hmodel).
  split; [|split].
  - apply (Hrainforest (NFloat 0.1) 20%nat 10
             (Ok (rainforest_record (repeat (VFloat 0.1) 20)))
             {["rainforest_prices" := VList (repeat (VFloat 0.1) 20)]} []).
    + exists (NFloat (-1)), 2. repeat split; vm_compute; reflexivity.
    + reflexivity.
    + vm_compute. reflexivity.
  - apply (Hexact (NInt 10000) 20%nat); [lia|vm_compute; reflexivity|].
    right. exists 10000, 10000%float. split; vm_compute; reflexivity.
  - apply (Hmodel (NInt 1000) 4%nat 10 (NFloat 1) 50 (Ok (VDict calm_record))
             calm_record [] (NFloat 0.19340304835702682)).
    + lia.
    + reflexivity.
    + vm_compute. reflexivity.
    + exists (VInt 0). vm_compute. reflexivity.
    + exists default_model_params. vm_compute. reflexivity.
    + vm_compute. reflexivity.
    + vm_compute. reflexivity.
Defined.

(** Half-integer mid prices of a two-sided book average exactly too;
    0.1 does not, and its window is quiet all the same. *)
Example half_integer_averages_exactly : averages_exactly (NFloat 9999.5) 20.
Proof. exists 9999.5%float. split; vm_compute; reflexivity. Qed.

Example tenth_not_exact : ¬ averages_exactly (NFloat 0.1) 20.
Proof.
  intros (f & Hmean & Hsub). vm_compute in Hmean. injection Hmean as <-.
  discriminate Hsub.
Qed.

(** The mean-reversion half of C2 does fail where the statistics are not
    numbers: twenty copies of 1e308 sum to infinity, the z-score is nan
    and [int(abs(z_score) * 2)] raises [ValueError], whatever [pow] is. *)
Example flat_price_overflow (pow : float → float → float) :
  compute_rainforest_orders parsed_loads parsed_dumps pow target (book [9999] [10001])
    (NFloat 1e308) (Ok (rainforest_record (repeat (VFloat 1e308) 20))) 20 10
  = Raise ValueError.
Proof. vm_compute. reflexivity. Qed.

(** ** The variance is not negative *)

(** The floats that are not below zero: nan, the zeros, +inf and the
    positive numbers. *)
Lemma not_negative_spec (f : float) :
  PrimFloat.ltb f 0 = false ↔
  match Prim2SF f with
  | S754_infinity s | S754_finite s _ _ => s = false
  | _ => True
  end.
Proof.
  rewrite ltb_spec. change (Prim2SF 0) with (S754_zero false).
  destruct (Prim2SF f) as [s|s| |s m e]; cbn [SFltb SFcompare];
    try destruct s; split; (done || discriminate).
Qed.

Lemma binary_round_aux_sign (mx ex : Z) (lx : location) :
  match binary_round_aux prec emax false mx ex lx with
  | S754_infinity s | S754_finite s _ _ => s = false
  | _ => True
  end.
Proof.
  unfold binary_round_aux.
  destruct (shr_fexp _ _ mx ex lx) as [mrs' e'].
  destruct (shr_fexp _ _ _ e' loc_Exact) as [mrs'' e''].
  destruct (shr_m mrs''); [done| |done]. by destruct (_ <=? _).
Qed.

Lemma add_not_negative (f g : float) :
  PrimFloat.ltb f 0 = false → PrimFloat.ltb g 0 = false →
  PrimFloat.ltb (f + g) 0 = false.
Proof.
  rewrite !not_negative_spec, add_spec. unfold SF64add.
  destruct (Prim2SF f) as [sf|sf| |sf mf ef], (Prim2SF g) as [sg|sg| |sg mg eg];
    cbn [SFadd]; try done.
  - by destruct sf, sg.
  - by intros -> ->.
  - intros -> ->. cbn [cond_Zopp]. rewrite <- Pos2Z.inj_add. cbn [binary_normalize].
    unfold binary_round. destruct (shl_align _ _ _) as [mz ez].
    apply binary_round_aux_sign.
Qed.

Lemma div_not_negative (f g : float) (mg : positive) (eg : Z) :
  PrimFloat.ltb f 0 = false → Prim2SF g = S754_finite false mg eg →
  PrimFloat.ltb (f / g) 0 = false.
Proof.
  rewrite !not_negative_spec, div_spec. intros Hf ->. unfold SF64div.
  destruct (Prim2SF f) as [sf|sf| |sf mf ef]; cbn [SFdiv]; try done.
  - by rewrite xorb_false_r.
  - subst sf. destruct (SFdiv_core_binary _ _ _ _ _ _) as [[mz ez] lz].
    apply binary_round_aux_sign.
Qed.

(** After the special cases [pow] is called on a positive base. *)
Lemma abs_positive (f : float) :
  PrimFloat.is_nan f = false → PrimFloat.eqb f 0 = false →
  PrimFloat.ltb 0 (PrimFloat.abs f) = true.
Proof.
  unfold PrimFloat.is_nan. rewrite ltb_spec, abs_spec, !FloatAxioms.eqb_spec.
  change (Prim2SF 0) with (S754_zero false).
  by destruct (Prim2SF f) as [s|s| |s m e]; cbn [SFltb SFeqb SFcompare SFabs negb].
Qed.

Section Variance.
Variable pow : float → float → float.
Hypothesis pow_not_negative :
  ∀ x y, PrimFloat.ltb 0 x = true → PrimFloat.ltb (pow x y) 0 = false.

Lemma square_not_negative (d : float) (square : num) :
  num_square pow (NFloat d) = Ok square →
  ∃ v, square = NFloat v ∧ PrimFloat.ltb v 0 = false.
Proof.
  unfold num_square.
  destruct (PrimFloat.is_nan d) eqn:Hnan.
  { intros [= <-]. exists d. split; [done|]. apply not_negative_spec.
    unfold PrimFloat.is_nan in Hnan. rewrite FloatAxioms.eqb_spec in Hnan.
    destruct (Prim2SF d) as [s|s| |s m e]; try done.
    - by destruct s.
    - cbn [SFeqb SFcompare] in Hnan.
      destruct s; rewrite Z.compare_refl, Pos.compare_cont_refl in Hnan; done. }
  destruct (PrimFloat.is_infinity d); [intros [= <-]; by exists infinity|].
  destruct (PrimFloat.eqb d 0) eqn:Hzero; [intros [= <-]; by exists 0%float|].
  destruct (PrimFloat.eqb (PrimFloat.abs d) 1); [intros [= <-]; by exists 1%float|].
  unfold libm_pow. destruct (PrimFloat.is_infinity _); [done|].
  intros [= <-]. eexists. split; [done|].
  by apply pow_not_negative, abs_positive.
Qed.

(** The sum of the squares and its quotient by the window size are not
    below zero, so that [** 0.5] never meets a negative base and the
    standard deviation is never complex. *)
Lemma variance_not_negative (recent_prices : list pyval) (rolling_mean : float)
    (window_size : nat) (total variance : num) :
  Z.of_nat window_size < 2 ^ 53 →
  py_sum_gen (λ p, p ← as_num p; d ← num_sub p (NFloat rolling_mean); num_square pow d)
             recent_prices = Ok total →
  num_truediv total (NInt (Z.of_nat window_size)) = Ok variance →
  ∃ v, variance = NFloat v ∧ PrimFloat.ltb v 0 = false.
Proof.
  intros Hfit Hsum Hdiv.
  assert (Htotal : total = NInt 0 ∨ ∃ t, total = NFloat t ∧ PrimFloat.ltb t 0 = false).
  { clear Hdiv. revert total Hsum. unfold py_sum_gen.
    induction recent_prices as [|p prices IH] using rev_ind; intros total.
    - intros [= <-]. by left.
    - rewrite foldl_app. cbn [foldl].
      intros (total' & Hsum' & H)%bind_Ok.
      apply bind_Ok in H as (term & Hterm & Hadd).
      apply bind_Ok in Hterm as (x & _ & Hterm).
      apply bind_Ok in Hterm as (d & Hd & Hsquare).
      assert (∃ df, d = NFloat df) as [df ->].
      { unfold num_sub, arith in Hd. destruct x as [z|f].
        - apply bind_Ok in Hd as (f & _ & [= <-]). by eexists.
        - injection Hd as <-. by eexists. }
      apply square_not_negative in Hsquare as (v & -> & Hv).
      right. destruct (IH _ Hsum') as [->|(t & -> & Ht)].
      + injection Hadd as <-. eexists. split; [done|]. by apply add_not_negative.
      + injection Hadd as <-. eexists. split; [done|]. by apply add_not_negative. }
  destruct Htotal as [->|(t & -> & Ht)].
  - unfold num_truediv, int_truediv in Hdiv.
    destruct (Z.eqb_spec (Z.of_nat window_size) 0) as [|Hnz]; [done|].
    rewrite Z.mod_0_l, Z.div_0_l in Hdiv by lia.
    change (0 =? 0) with true in Hdiv. cbv iota in Hdiv.
    injection Hdiv as <-. by exists 0%float.
  - unfold num_truediv, num_float in Hdiv. rewrite bind_ret in Hdiv.
    apply bind_Ok in Hdiv as (g & Hg & Hdiv).
    destruct (PrimFloat.eqb g 0) eqn:Hnz; [done|]. injection Hdiv as <-.
    eexists. split; [done|].
    destruct (int_to_float_exact (Z.of_nat window_size)) as (g' & Hg' & His); [lia|].
    rewrite Hg in Hg'. injection Hg' as <-.
    unfold float_is in His. rewrite FloatAxioms.eqb_spec in Hnz.
    destruct (Prim2SF g) as [s| | |s mg eg] eqn:Hsf; try done.
    assert (s = false) as ->.
    { destruct s; [|done]. cbv zeta in His.
      pose proof (Z.pow_pos_nonneg 2 (eg - Z.min eg 0) ltac:(lia) ltac:(lia)).
      pose proof (Z.pow_pos_nonneg 2 (0 - Z.min eg 0) ltac:(lia) ltac:(lia)).
      nia. }
    by apply (div_not_negative _ _ mg eg).
Qed.
End Variance.

(** The bound of C7 is reached: four cycles at 10000.0 from a blob that
    does not decode leave the predictor short 50. *)
Example reachable_short_position :
  ∃ trader_data,
    reachable parsed_loads parsed_dumps 50 trader_data ∧
    position_of parsed_loads trader_data = Ok (VInt (-50)).
Proof.
  exists (Ok (flat_record (-50) 4)). split; [|vm_compute; reflexivity].
  apply (reach_cycle _ _ 50 (Ok (flat_record 0 3)) target (book [9999] [10001])
           (NFloat 10000) 4%nat 10 (NFloat 1)
           [ {| symbol := target; price := 9999; quantity := NInt (-50) |} ]);
    [|vm_compute; reflexivity].
  apply (reach_cycle _ _ 50 (Ok (flat_record 0 2)) target (book [9999] [10001])
           (NFloat 10000) 4%nat 10 (NFloat 1) []); [|vm_compute; reflexivity].
  apply (reach_cycle _ _ 50 (Ok (flat_record 0 1)) target (book [9999] [10001])
           (NFloat 10000) 4%nat 10 (NFloat 1) []); [|vm_compute; reflexivity].
  apply (reach_cycle _ _ 50 (Raise JSONDecodeError) target (book [9999] [10001])
           (NFloat 10000) 4%nat 10 (NFloat 1) []); [|vm_compute; reflexivity].
  apply reach_fresh. exact I.
Qed.

(** * Further properties of the strategies *)

(** ** What the mean-reversion strategy can return *)

Lemma scale_factor_positive (z_score : num) (scale_factor : Z) :
  scale_factor_of z_score = Ok scale_factor → 1 ≤ scale_factor.
Proof.
  unfold scale_factor_of. intros (doubled & _ & H)%bind_Ok.
  apply bind_Ok in H as (n & _ & [= <-]). lia.
Qed.

Lemma rainforest_signal_shape (pow : float → float → float) (target_product : string)
    (order_depth : OrderDepth) (mid_price : num) (recent_prices : list pyval) (window_size : nat)
    (base_quantity : Z) (orders : list Order) :
  rainforest_signal pow target_product order_depth mid_price recent_prices window_size
                    base_quantity = Ok orders →
  orders = [] ∨
  (∃ best_ask k,
     least_key (sell_orders order_depth) best_ask ∧ 1 ≤ k ∧
     orders = [ {| symbol := target_product; price := best_ask;
                   quantity := NInt (base_quantity * k) |} ]) ∨
  (∃ best_bid k,
     greatest_key (buy_orders order_depth) best_bid ∧ 1 ≤ k ∧
     orders = [ {| symbol := target_product; price := best_bid;
                   quantity := NInt (- (base_quantity * k)) |} ]).
Proof.
  unfold rainforest_signal.
  intros (rolling_mean & _ & H)%bind_Ok.
  apply bind_Ok in H as (rolling_std & _ & H).
  apply bind_Ok in H as (z_score & _ & H).
  apply bind_Ok in H as (scale_factor & Hscale%scale_factor_positive & H).
  destruct (num_lt z_score _ && nonempty (sell_orders order_depth)) eqn:Hbuy.
  - apply andb_true_iff in Hbuy as [_ Hasks%nonempty_inv].
    destruct (min_key_least _ Hasks) as (best_ask & Hmin & Hleast).
    rewrite Hmin, bind_ret in H. injection H as <-.
    right; left. by exists best_ask, scale_factor.
  - destruct (num_gt z_score _ && nonempty (buy_orders order_depth)) eqn:Hsell.
    + apply andb_true_iff in Hsell as [_ Hbids%nonempty_inv].
      destruct (max_key_greatest _ Hbids) as (best_bid & Hmax & Hgreatest).
      rewrite Hmax, bind_ret in H. injection H as <-.
      right; right. by exists best_bid, scale_factor.
    + injection H as <-. by left.
Qed.

Section MeanReversionReturns.
Context {blob : Type} (loads : blob → result pyval) (dumps : pyval → blob)
        (pow : float → float → float).

(** A returning call, taken apart: the loaded record, its history, the
    blob, and where the orders come from. *)
Lemma rainforest_returns_parts (target_product : string) (order_depth : OrderDepth)
    (mid_price : num) (trader_data : blob) (window_size : nat) (base_quantity : Z)
    (orders : list Order) (trader_data' : blob) :
  compute_rainforest_orders loads dumps pow target_product order_depth mid_price
    trader_data window_size base_quantity = Ok (orders, trader_data') →
  ∃ m l,
    load_rainforest_history loads trader_data = VDict m ∧
    m !! "rainforest_prices" = Some (VList l) ∧
    trader_data'
      = dumps (VDict (<["rainforest_prices" := VList (l ++ [of_num mid_price])]> m)) ∧
    (orders = [] ∨
     (window_size ≤ length (l ++ [of_num mid_price]))%nat ∧
     rainforest_signal pow target_product order_depth mid_price
       (slice_last window_size (l ++ [of_num mid_price])) window_size base_quantity
       = Ok orders).
Proof.
  unfold compute_rainforest_orders.
  intros (history & Happ & H)%bind_Ok.
  apply append_at_Ok in Happ as (m & l & Hload & Hl & ->).
  exists m, l. split; [done|]. split; [done|].
  unfold py_getitem in H. rewrite lookup_insert_eq, bind_ret in H.
  unfold py_len in H. rewrite bind_ret in H.
  apply bind_Ok in H as (orders' & Hbranch & [= -> <-]). split; [done|].
  destruct (bool_decide _) eqn:Hfull.
  - right. apply bool_decide_eq_true in Hfull. split; [done|].
    unfold py_slice_last in Hbranch. by rewrite bind_ret in Hbranch.
  - left. by injection Hbranch.
Qed.

(** X1. Whatever the blob, the book and the parameters, a returning
    call of the mean-reversion strategy gives no order, or exactly one
    BUY at the least ask of [base_quantity * k], or exactly one SELL at
    the greatest bid of [-(base_quantity * k)], with [k >= 1]; an order
    is only placed once the history has [window_size] prices. *)
Theorem rainforest_orders_shape (target_product : string) (order_depth : OrderDepth)
    (mid_price : num) (trader_data : blob) (window_size : nat) (base_quantity : Z)
    (orders : list Order) (trader_data' : blob) :
  compute_rainforest_orders loads dumps pow target_product order_depth mid_price
    trader_data window_size base_quantity = Ok (orders, trader_data') →
  orders = [] ∨
  (∃ best_ask k,
     least_key (sell_orders order_depth) best_ask ∧ 1 ≤ k ∧
     orders = [ {| symbol := target_product; price := best_ask;
                   quantity := NInt (base_quantity * k) |} ]) ∨
  (∃ best_bid k,
     greatest_key (buy_orders order_depth) best_bid ∧ 1 ≤ k ∧
     orders = [ {| symbol := target_product; price := best_bid;
                   quantity := NInt (- (base_quantity * k)) |} ]).
Proof.
  intros (m & l & _ & _ & _ & [->|[_ Hsignal]])%rainforest_returns_parts; [by left|].
  by eapply rainforest_signal_shape.
Qed.

(** X2. The blob a returning call gives back encodes the decoded
    record with the mid price appended to the history it held and
    nothing else changed: it does not depend on the order book, on
    [window_size] or on [base_quantity], and earlier prices are never
    dropped or rewritten (the history is not trimmed to the window). A
    record without the history key, and a blob that does not decode to
    an object, give the history of the one price; a call never returns
    on a record whose history key holds anything but a list. *)
Theorem rainforest_blob_appended (target_product : string) (order_depth : OrderDepth)
    (mid_price : num) (trader_data : blob) (window_size : nat) (base_quantity : Z)
    (orders : list Order) (trader_data' : blob) :
  compute_rainforest_orders loads dumps pow target_product order_depth mid_price
    trader_data window_size base_quantity = Ok (orders, trader_data') →
  match loads trader_data with
  | Ok (VDict m) =>
      match m !! "rainforest_prices" with
      | Some (VList l) =>
          trader_data'
          = dumps (VDict (<["rainforest_prices" := VList (l ++ [of_num mid_price])]> m))
      | Some _ => False
      | None =>
          trader_data'
          = dumps (VDict (<["rainforest_prices" := VList [of_num mid_price]]> m))
      end
  | _ => trader_data' = dumps (VDict {["rainforest_prices" := VList [of_num mid_price]]})
  end.
Proof.
  intros (history & Happ & ->)%rainforest_returns.
  assert (Hfresh : load_rainforest_history loads trader_data = rainforest_record [] →
                   history = VDict {["rainforest_prices" := VList [of_num mid_price]]}).
  { intros Hload. rewrite Hload in Happ.
    apply append_at_Ok in Happ as (m & l & [= <-] & Hl & ->).
    rewrite lookup_singleton_eq in Hl. injection Hl as <-.
    by rewrite insert_singleton_eq. }
  destruct (loads trader_data) as [decoded|e] eqn:Hl.
  - assert (Hcase : (∃ m, decoded = VDict m) ∨ ∀ m, decoded ≠ VDict m)
      by (destruct decoded; (by right) || (left; by eexists)).
    destruct Hcase as [[m ->]|Hnd'].
    + rewrite (load_rainforest_decoded _ _ _ Hl) in Happ.
      destruct (m !! "rainforest_prices") as [v|] eqn:Hm.
      * apply append_at_Ok in Happ as (m' & l & [= <-] & Hl' & ->).
        rewrite Hm in Hl'. by injection Hl' as ->.
      * apply append_at_Ok in Happ as (m' & l & [= <-] & Hl' & ->).
        rewrite lookup_insert_eq in Hl'. injection Hl' as <-.
        by rewrite insert_insert_eq.
    + assert (history = VDict {["rainforest_prices" := VList [of_num mid_price]]}) as ->.
      { unfold load_rainforest_history in Happ, Hfresh. rewrite Hl, bind_ret in Happ, Hfresh.
        destruct (init_if_absent_other decoded "rainforest_prices" (VList []) Hnd')
          as [Hinit|Hinit]; rewrite Hinit in Happ, Hfresh.
        - by rewrite append_at_other in Happ.
        - by apply Hfresh. }
      by destruct decoded as [| | | | | |m]; [..|destruct (Hnd' m)].
  - apply f_equal, Hfresh. unfold load_rainforest_history. by rewrite Hl.
Qed.
End MeanReversionReturns.

Lemma rainforest_orders_shape_witness :
  ([ {| symbol := target; price := 98; quantity := NInt 60 |} ] : list Order) = [] ∨
  (∃ best_ask k,
     least_key (sell_orders (book [96] [98; 99])) best_ask ∧ 1 ≤ k ∧
     [ {| symbol := target; price := 98; quantity := NInt 60 |} ]
     = [ {| symbol := target; price := best_ask; quantity := NInt (10 * k) |} ]) ∨
  (∃ best_bid k,
     greatest_key (buy_orders (book [96] [98; 99])) best_bid ∧ 1 ≤ k ∧
     [ {| symbol := target; price := 98; quantity := NInt 60 |} ]
     = [ {| symbol := target; price := best_bid; quantity := NInt (- (10 * k)) |} ]).
Proof.
  apply (rainforest_orders_shape parsed_loads parsed_dumps sample_pow
      target (book [96] [98; 99])
           (NInt 97) three_sigma_blob 20 10
           [ {| symbol := target; price := 98; quantity := NInt 60 |} ]
           (Ok (rainforest_record three_sigma_window))).
  vm_compute. reflexivity.
Defined.

Lemma rainforest_blob_appended_witness :
  Ok (VDict (<["rainforest_prices" :=
                 VList [VInt 9999; VFloat 10000.5; VInt 10001; VInt 10002]]> young_record))
  = parsed_dumps
      (VDict (<["rainforest_prices" :=
                  VList ([VInt 9999; VFloat 10000.5; VInt 10001] ++ [of_num (NInt 10002)])]>
              young_record)).
Proof.
  apply (rainforest_blob_appended parsed_loads parsed_dumps sample_pow target
           (book [10001] [10003]) (NInt 10002) (Ok (VDict young_record)) 20 10 []
           (Ok (VDict (<["rainforest_prices" :=
                           VList [VInt 9999; VFloat 10000.5; VInt 10001; VInt 10002]]>
                       young_record)))).
  vm_compute. reflexivity.
Defined.

(** ** Histories that are not lists *)

Lemma append_at_non_list (m : gmap string pyval) (key : string) (v x : pyval) :
  m !! key = Some v → (∀ l, v ≠ VList l) →
  py_append_at (VDict m) key x = Raise AttributeError.
Proof.
  intros Hm Hv. unfold py_append_at, py_getitem. rewrite Hm, bind_ret.
  destruct v as [| | | | |l|]; try done. by destruct (Hv l).
Qed.

(** The record the predictor works on, key by key: what the blob holds,
    or the default. *)
Lemma load_model_lookup {blob : Type} (loads : blob → result pyval)
    (trader_data : blob) (m0 : gmap string pyval) :
  loads trader_data = Ok (VDict m0) →
  ∃ m, load_model_history loads trader_data = Ok (VDict m) ∧
       m !! "model_history" = Some (default (VList []) (m0 !! "model_history")) ∧
       m !! "position" = Some (default (VInt 0) (m0 !! "position")) ∧
       m !! "model_params" = Some (default default_model_params (m0 !! "model_params")).
Proof.
  intros Hl. unfold load_model_history. rewrite Hl.
  destruct (init_if_absent_frame m0 "model_history" (VList [])) as (m1 & -> & Hf1 & Hk1).
  destruct (init_if_absent_frame m1 "position" (VInt 0)) as (m2 & H2 & Hf2 & Hk2).
  destruct (init_if_absent_frame m2 "model_params" default_model_params)
    as (m3 & H3 & Hf3 & Hk3).
  exists m3. rewrite bind_ret, H2, bind_ret, H3.
  split; [done|]. split; [|split].
  - by rewrite Hf3, Hf2.
  - rewrite Hf3 by done. by rewrite Hk2, Hf1.
  - by rewrite Hk3, Hf2, Hf1.
Qed.

Section NonListHistory.
Context {blob : Type} (loads : blob → result pyval) (dumps : pyval → blob)
        (pow : float → float → float).

(** X3. On an object blob whose history key holds anything but a list
    (a number, a string, null, an object), the strategy raises
    [AttributeError] at the [append], whatever the book, the price and
    the parameters: the key is only initialised when it is absent. *)
Theorem non_list_history_raises (target_product : string) (order_depth : OrderDepth)
    (mid_price : num) (trader_data : blob) (m : gmap string pyval) :
  loads trader_data = Ok (VDict m) →
  (∀ v window_size base_quantity,
     m !! "rainforest_prices" = Some v → (∀ l, v ≠ VList l) →
     compute_rainforest_orders loads dumps pow target_product order_depth mid_price
       trader_data window_size base_quantity = Raise AttributeError) ∧
  (∀ v lag base_quantity threshold max_position,
     m !! "model_history" = Some v → (∀ l, v ≠ VList l) →
     compute_model_based_orders loads dumps target_product order_depth mid_price
       trader_data lag base_quantity threshold max_position = Raise AttributeError).
Proof.
  intros Hl. split.
  - intros v window_size base_quantity Hm Hv.
    unfold compute_rainforest_orders, load_rainforest_history.
    rewrite Hl, bind_ret, init_if_absent_dict, Hm.
    by rewrite (append_at_non_list _ _ v _ Hm Hv).
  - intros v lag base_quantity threshold max_position Hm Hv.
    destruct (load_model_lookup loads _ _ Hl) as (m' & Hload & Hh & _).
    rewrite Hm in Hh. unfold compute_model_based_orders.
    rewrite Hload, bind_ret.
    by rewrite (append_at_non_list _ _ v _ Hh Hv).
Qed.
End NonListHistory.

Lemma non_list_history_raises_witness :
  compute_rainforest_orders parsed_loads parsed_dumps sample_pow target (book [96] [98])
    (NInt 97) (Ok (VDict broken_record)) 20 10 = Raise AttributeError ∧
  compute_model_based_orders parsed_loads parsed_dumps target (book [96] [98])
    (NInt 97) (Ok (VDict broken_record)) 4 10 (NFloat 1) 50 = Raise AttributeError.
Proof.
  destruct (non_list_history_raises parsed_loads parsed_dumps sample_pow
      target (book [96] [98])
              (NInt 97) (Ok (VDict broken_record)) broken_record eq_refl)
    as [Hrainforest Hmodel].
  split.
  - apply (Hrainforest (VInt 5)); [reflexivity|discriminate].
  - apply (Hmodel (VStr "x")); [reflexivity|discriminate].
Defined.

(** ** What the predictor can return *)

Lemma num_sub_int (x y : Z) : num_sub (NInt x) (NInt y) = Ok (NInt (x - y)).
Proof. reflexivity. Qed.

(** A trade from an integer position, with the order it places: the
    signed quantity of the order is the change of the position. *)
Lemma model_trade_account (target_product : string) (order_depth : OrderDepth)
    (m : gmap string pyval) (deviation : num) (base_quantity : Z) (threshold : num)
    (max_position z : Z) (orders : list Order) (history' : pyval) :
  m !! "position" = Some (VInt z) →
  model_trade target_product order_depth (VDict m) deviation base_quantity
              threshold max_position = Ok (orders, history') →
  ∃ z', history' = VDict (<["position" := VInt z']> m) ∧
        (orders = [] ∧ z' = z ∨
         (∃ best_ask,
            least_key (sell_orders order_depth) best_ask ∧
            z < max_position ∧ z' = max_position ∧
            orders = [ {| symbol := target_product; price := best_ask;
                          quantity := NInt (z' - z) |} ]) ∨
         (∃ best_bid,
            greatest_key (buy_orders order_depth) best_bid ∧
            - max_position < z ∧ z' = - max_position ∧
            orders = [ {| symbol := target_product; price := best_bid;
                          quantity := NInt (z' - z) |} ])).
Proof.
  intros Hpos. unfold model_trade.
  intros (scaled & _ & H)%bind_Ok.
  apply bind_Ok in H as (order_quantity & _ & H).
  apply bind_Ok in H as (current_position & Hget & H).
  unfold py_getitem in Hget. rewrite Hpos in Hget. injection Hget as <-.
  assert (Hsame : VDict m = VDict (<["position" := VInt z]> m))
    by (by rewrite insert_id).
  destruct (update_position_int m z (max_position - z) Hpos) as [Hbuy _].
  destruct (update_position_int m z (z - - max_position) Hpos) as [_ Hsell].
  destruct (num_gt deviation threshold && nonempty (sell_orders order_depth)) eqn:Hup.
  - apply andb_true_iff in Hup as [_ Hasks%nonempty_inv].
    destruct (min_key_least _ Hasks) as (best_ask & Hmin & Hleast).
    unfold as_num in H. rewrite bind_ret, num_sub_int, bind_ret in H.
    unfold num_gt, num_compare in H.
    destruct (Z.compare_spec (max_position - z) 0) as [Hc|Hc|Hc].
    + injection H as <- <-. exists z. auto.
    + injection H as <- <-. exists z. auto.
    + rewrite Hmin, bind_ret, Hbuy, bind_ret in H. injection H as <- <-.
      exists max_position. split; [do 3 f_equal; lia|].
      right; left. exists best_ask. do 3 (split; [done || lia|]). done.
  - destruct (num_lt deviation (num_neg threshold) && nonempty (buy_orders order_depth))
      eqn:Hdown.
    + apply andb_true_iff in Hdown as [_ Hbids%nonempty_inv].
      destruct (max_key_greatest _ Hbids) as (best_bid & Hmax & Hgreatest).
      unfold as_num in H. rewrite bind_ret, num_sub_int, bind_ret in H.
      unfold num_gt, num_compare in H.
      destruct (Z.compare_spec (z - - max_position) 0) as [Hc|Hc|Hc].
      * injection H as <- <-. exists z. auto.
      * injection H as <- <-. exists z. auto.
      * rewrite Hmax, bind_ret, Hsell, bind_ret in H. injection H as <- <-.
        exists (- max_position). split; [do 3 f_equal; lia|].
        right; right. exists best_bid. do 3 (split; [done || lia|]).
        unfold num_neg. do 3 f_equal. lia.
    + injection H as <- <-. exists z. auto.
Qed.

Section PredictorReturns.
Context {blob : Type} (loads : blob → result pyval) (dumps : pyval → blob)
        (pow : float → float → float).

(** X4. Position accounting: when the predictor reads an integer
    position [z] and returns, the record it encodes holds an integer
    position [z'], and either no order is returned and [z' = z], or
    exactly one order is, whose signed quantity is [z' - z]: a BUY at
    the least ask taking the position from below [max_position] to it,
    or a SELL at the greatest bid taking it from above [-max_position]
    to it. *)
Theorem model_based_position_accounting (target_product : string)
    (order_depth : OrderDepth) (mid_price : num) (trader_data : blob) (lag : nat)
    (base_quantity : Z) (threshold : num) (max_position z : Z)
    (orders : list Order) (trader_data' : blob) :
  position_of loads trader_data = Ok (VInt z) →
  compute_model_based_orders loads dumps target_product order_depth mid_price
    trader_data lag base_quantity threshold max_position = Ok (orders, trader_data') →
  ∃ m' z',
    trader_data' = dumps (VDict m') ∧ m' !! "position" = Some (VInt z') ∧
    (orders = [] ∧ z' = z ∨
     (∃ best_ask,
        least_key (sell_orders order_depth) best_ask ∧
        z < max_position ∧ z' = max_position ∧
        orders = [ {| symbol := target_product; price := best_ask;
                      quantity := NInt (z' - z) |} ]) ∨
     (∃ best_bid,
        greatest_key (buy_orders order_depth) best_bid ∧
        - max_position < z ∧ z' = - max_position ∧
        orders = [ {| symbol := target_product; price := best_bid;
                      quantity := NInt (z' - z) |} ])).
Proof.
  intros Hz Hcall.
  apply model_based_returns in Hcall as (m & l & history' & Hload & Hl & -> & Hcase).
  unfold position_of in Hz. rewrite Hload, bind_ret in Hz. unfold py_getitem in Hz.
  destruct (m !! "position") as [v|] eqn:Hpos; [|discriminate]. injection Hz as ->.
  assert (Happ : <["model_history" := VList (l ++ [of_num mid_price])]> m !! "position"
                 = Some (VInt z)) by (by rewrite lookup_insert_ne).
  destruct Hcase as [[-> ->]|[deviation Htrade]].
  - eexists _, z. split; [done|]. split; [done|]. by left.
  - apply (model_trade_account _ _ _ _ _ _ _ z) in Htrade as (z' & -> & Hcases);
      [|done].
    eexists _, z'. split; [done|]. split; [apply lookup_insert_eq|done].
Qed.

(** X5. The record a returning call of the predictor encodes is the
    loaded record with the mid price appended to its history; apart from
    the history and the position every key, the model parameters among
    them, is as loaded. *)
Theorem model_based_record (target_product : string) (order_depth : OrderDepth)
    (mid_price : num) (trader_data : blob) (lag : nat) (base_quantity : Z)
    (threshold : num) (max_position : Z) (orders : list Order) (trader_data' : blob) :
  compute_model_based_orders loads dumps target_product order_depth mid_price
    trader_data lag base_quantity threshold max_position = Ok (orders, trader_data') →
  ∃ m l m',
    load_model_history loads trader_data = Ok (VDict m) ∧
    m !! "model_history" = Some (VList l) ∧
    trader_data' = dumps (VDict m') ∧
    m' !! "model_history" = Some (VList (l ++ [of_num mid_price])) ∧
    ∀ k, k ≠ "model_history" → k ≠ "position" → m' !! k = m !! k.
Proof.
  intros Hcall.
  apply model_based_returns in Hcall as (m & l & history' & Hload & Hl & -> & Hcase).
  exists m, l.
  destruct Hcase as [[_ ->]|[deviation Htrade]].
  - eexists. split; [done|]. split; [done|]. split; [done|].
    split; [apply lookup_insert_eq|]. intros k Hk _. by rewrite lookup_insert_ne.
  - apply model_trade_frame in Htrade as (m' & -> & Hm').
    exists m'. split; [done|]. split; [done|]. split; [done|]. split.
    + rewrite Hm' by done. apply lookup_insert_eq.
    + intros k Hk Hp. rewrite Hm' by done. by rewrite lookup_insert_ne.
Qed.

Lemma load_model_non_object (trader_data : blob) (decoded : pyval)
    (m : gmap string pyval) :
  loads trader_data = Ok decoded → (∀ m0, decoded ≠ VDict m0) →
  load_model_history loads trader_data ≠ Ok (VDict m).
Proof.
  intros Hl Hnd. unfold load_model_history. rewrite Hl.
  destruct (init_if_absent_other decoded "model_history" (VList []) Hnd) as [->| ->];
    [|done]. rewrite bind_ret.
  destruct (init_if_absent_other decoded "position" (VInt 0) Hnd) as [->| ->];
    [|done]. rewrite bind_ret.
  destruct (init_if_absent_other decoded "model_params" default_model_params Hnd)
    as [->| ->]; [|done].
  intros [= ->]. by destruct (Hnd m).
Qed.

(** X6. Model parameters persisted in the blob are the ones a returning
    call writes back; the built-in constants are written only when the
    blob has none (or does not decode). *)
Theorem model_params_persist (target_product : string) (order_depth : OrderDepth)
    (mid_price : num) (trader_data : blob) (lag : nat) (base_quantity : Z)
    (threshold : num) (max_position : Z) (orders : list Order) (trader_data' : blob) :
  compute_model_based_orders loads dumps target_product order_depth mid_price
    trader_data lag base_quantity threshold max_position = Ok (orders, trader_data') →
  ∃ m',
    trader_data' = dumps (VDict m') ∧
    m' !! "model_params"
    = Some (match loads trader_data with
            | Ok (VDict m0) => default default_model_params (m0 !! "model_params")
            | _ => default_model_params
            end).
Proof.
  intros Hcall.
  apply model_based_returns in Hcall as (m & l & history' & Hload & _ & -> & Hcase).
  assert (∃ m', history' = VDict m' ∧ m' !! "model_params" = m !! "model_params")
    as (m' & -> & Hkept).
  { destruct Hcase as [[_ ->]|[deviation Htrade]].
    - eexists. split; [done|]. by rewrite lookup_insert_ne.
    - apply model_trade_frame in Htrade as (m' & -> & Hm').
      exists m'. split; [done|]. rewrite Hm' by done. by rewrite lookup_insert_ne. }
  exists m'. split; [done|]. rewrite Hkept.
  destruct (loads trader_data) as [decoded|e] eqn:Hl.
  - destruct decoded as [| | | | | |m0];
      try (by destruct (load_model_non_object trader_data _ m Hl)).
    destruct (load_model_lookup loads _ _ Hl) as (m1 & Hload1 & _ & _ & Hparams).
    rewrite Hload1 in Hload. by injection Hload as <-.
  - rewrite (load_model_failure loads _ e Hl) in Hload. by injection Hload as <-.
Qed.
End PredictorReturns.

Lemma model_based_position_accounting_witness :
  ∃ m' z',
    Ok (flat_record (-50) 5) = parsed_dumps (VDict m') ∧
    m' !! "position" = Some (VInt z') ∧
    (([ {| symbol := target; price := 9999; quantity := NInt (-50) |} ] : list Order) = []
       ∧ z' = 0 ∨
     (∃ best_ask,
        least_key (sell_orders (book [9999] [10001])) best_ask ∧
        0 < 50 ∧ z' = 50 ∧
        [ {| symbol := target; price := 9999; quantity := NInt (-50) |} ]
        = [ {| symbol := target; price := best_ask; quantity := NInt (z' - 0) |} ]) ∨
     (∃ best_bid,
        greatest_key (buy_orders (book [9999] [10001])) best_bid ∧
        - 50 < 0 ∧ z' = - 50 ∧
        [ {| symbol := target; price := 9999; quantity := NInt (-50) |} ]
        = [ {| symbol := target; price := best_bid; quantity := NInt (z' - 0) |} ])).
Proof.
  apply (model_based_position_accounting parsed_loads parsed_dumps target
           (book [9999] [10001]) (NFloat 10000) (Ok (flat_record 0 4)) 4 10 (NFloat 1)
           50 0 [ {| symbol := target; price := 9999; quantity := NInt (-50) |} ]
           (Ok (flat_record (-50) 5))).
  - vm_compute. reflexivity.
  - vm_compute. reflexivity.
Defined.

Lemma model_based_record_witness :
  ∃ m l m',
    load_model_history parsed_loads (Ok (flat_record 0 4)) = Ok (VDict m) ∧
    m !! "model_history" = Some (VList l) ∧
    Ok (flat_record (-50) 5) = parsed_dumps (VDict m') ∧
    m' !! "model_history" = Some (VList (l ++ [of_num (NFloat 10000)])) ∧
    ∀ k, k ≠ "model_history" → k ≠ "position" → m' !! k = m !! k.
Proof.
  apply (model_based_record parsed_loads parsed_dumps target
           (book [9999] [10001]) (NFloat 10000) (Ok (flat_record 0 4)) 4 10 (NFloat 1)
           50 [ {| symbol := target; price := 9999; quantity := NInt (-50) |} ]).
  vm_compute. reflexivity.
Defined.

Lemma model_params_persist_witness :
  ∃ m',
    Ok (VDict (<["model_history" := VList [VInt 0; VInt 0; VInt 0; VInt 0]]>
               unit_deviation_record)) = parsed_dumps (VDict m') ∧
    m' !! "model_params"
    = Some (match parsed_loads (Ok (VDict unit_deviation_record)) with
            | Ok (VDict m0) => default default_model_params (m0 !! "model_params")
            | _ => default_model_params
            end).
Proof.
  apply (model_params_persist parsed_loads parsed_dumps target (book [7] [9])
           (NInt 0) (Ok (VDict unit_deviation_record)) 4 10 (NFloat 1) 50 []).
  vm_compute. reflexivity.
Defined.

(** ** The down signal and broken model parameters *)

Lemma Prim2SF_minus_one :
  Prim2SF (-1)%float = S754_finite true 4503599627370496 (-52).
Proof. vm_compute. reflexivity. Qed.

(** Below -1.0 means negative: the absolute value is above 1.0 and the
    number itself is not. *)
Lemma num_lt_minus_one_abs (d : num) :
  num_lt d (NFloat (-1)) = true →
  num_gt (num_abs d) (NFloat 1) = true ∧ num_gt d (NFloat 1) = false.
Proof.
  unfold num_lt, num_gt. destruct d as [z|f]; unfold num_abs, num_compare.
  - unfold compare_int_float. rewrite Prim2SF_minus_one, Prim2SF_one.
    change (0 <=? -52) with false. cbv iota.
    change (2 ^ (- (-52))) with 4503599627370496.
    destruct (Z.compare_spec (z * 4503599627370496) (Z.neg 4503599627370496));
      try discriminate. intros _.
    rewrite Z.abs_neq by lia.
    destruct (Z.compare_spec (- z * 4503599627370496) 4503599627370496); try lia.
    destruct (Z.compare_spec (z * 4503599627370496) 4503599627370496); (done || lia).
  - unfold compare_float.
    rewrite !FloatAxioms.compare_spec, abs_spec, Prim2SF_minus_one, Prim2SF_one.
    destruct (Prim2SF f) as [s| s | |s m e];
      unfold flatten_cmp_opt, SFcompare, SFabs; try discriminate.
    + destruct s; [done|discriminate].
    + destruct s; [|discriminate].
      destruct (Z.compare_spec e (-52)); try discriminate; try done.
      destruct (PosDef.Pos.compare_cont Eq m 4503599627370496); simpl;
        (done || discriminate).
Qed.

Section DownSignal.
Context {blob : Type} (loads : blob → result pyval) (dumps : pyval → blob)
        (pow : float → float → float).

(** X7. The down signal mirrors the up signal (threshold 1.0,
    [max_position] 50): a deviation below -1.0 with position 0 and a
    non-empty bid side gives exactly one SELL of 50 (quantity -50) at the
    greatest bid and sets the position to -50, whatever integer
    [int(base_quantity * abs(deviation))] is, provided it is one. *)
Theorem down_signal_sells (target_product : string) (order_depth : OrderDepth)
    (mid_price : num) (trader_data : blob) (lag : nat) (base_quantity : Z)
    (m : gmap string pyval) (l : list pyval) (deviation : num) :
  load_model_history loads trader_data = Ok (VDict m) →
  m !! "model_history" = Some (VList l) →
  (lag ≤ length (l ++ [of_num mid_price]))%nat →
  let appended := <["model_history" := VList (l ++ [of_num mid_price])]> m in
  model_deviation (VDict appended) (slice_last lag (l ++ [of_num mid_price])) mid_price
    = Ok deviation →
  num_lt deviation (NFloat (-1)) = true →
  (∃ order_quantity,
     num_mul (NInt base_quantity) (num_abs deviation) ≫= num_int = Ok order_quantity) →
  m !! "position" = Some (VInt 0) →
  buy_orders order_depth ≠ ∅ →
  ∃ best_bid,
    greatest_key (buy_orders order_depth) best_bid ∧
    compute_model_based_orders loads dumps target_product order_depth mid_price
      trader_data lag base_quantity (NFloat 1) 50
    = Ok ([ {| symbol := target_product; price := best_bid; quantity := NInt (-50) |} ],
          dumps (VDict (<["position" := VInt (-50)]> appended))).
Proof.
  intros Hload Hl Hfull appended Hdev Hlt (order_quantity & Hdead) Hpos Hbids.
  destruct (num_lt_minus_one_abs _ Hlt) as [Habs Hup].
  destruct (max_key_greatest _ Hbids) as (best_bid & Hmax & Hgreatest).
  exists best_bid. split; [exact Hgreatest|].
  rewrite (model_based_full_window loads dumps _ _ _ _ _ _ _ _ m l deviation
             Hload Hl Hfull Hdev).
  fold appended. rewrite Habs.
  assert (Happ : appended !! "position" = Some (VInt 0))
    by (unfold appended; by rewrite lookup_insert_ne).
  unfold model_trade.
  apply bind_Ok in Hdead as (scaled & Hmul & Hint).
  rewrite Hmul, bind_ret, Hint, bind_ret.
  unfold py_getitem at 1. rewrite Happ, bind_ret, Hup.
  change (false && nonempty (sell_orders order_depth)) with false. cbv iota.
  change (num_neg (NFloat 1)) with (NFloat (-1)).
  rewrite Hlt, (nonempty_true _ Hbids).
  change (true && true) with true. cbv iota.
  unfold as_num. rewrite bind_ret, num_sub_int, bind_ret.
  change (0 - - (50)) with 50.
  change (num_gt (NInt 50) (NInt 0)) with true. cbv iota.
  rewrite Hmax, bind_ret.
  destruct (update_position_int appended 0 50 Happ) as [_ ->].
  by rewrite !bind_ret.
Qed.

(** X8. A persisted record whose model parameters lack the intercept or
    the coefficients makes every call with a full window raise
    [KeyError]: parameters found in the blob are used as they are, and
    the built-in constants do not fill the gaps. *)
Theorem incomplete_params_raise (target_product : string) (order_depth : OrderDepth)
    (mid_price : num) (trader_data : blob) (lag : nat) (base_quantity : Z)
    (threshold : num) (max_position : Z) (m : gmap string pyval) (l : list pyval)
    (params : gmap string pyval) :
  loads trader_data = Ok (VDict m) →
  m !! "model_history" = Some (VList l) →
  (lag ≤ length (l ++ [of_num mid_price]))%nat →
  m !! "model_params" = Some (VDict params) →
  params !! "intercept" = None ∨ params !! "coefficients" = None →
  compute_model_based_orders loads dumps target_product order_depth mid_price
    trader_data lag base_quantity threshold max_position = Raise KeyError.
Proof.
  intros Hl Hm Hfull Hparams Hmissing.
  destruct (load_model_lookup loads _ _ Hl) as (m' & Hload & Hh & _ & Hp).
  rewrite Hm in Hh. rewrite Hparams in Hp. simpl in Hh, Hp.
  unfold compute_model_based_orders.
  rewrite Hload, bind_ret, (append_at_dict _ _ _ _ Hh), bind_ret.
  unfold py_getitem at 1. rewrite lookup_insert_eq, bind_ret.
  unfold py_len. rewrite bind_ret.
  rewrite bool_decide_eq_true_2 by exact Hfull.
  unfold py_slice_last. rewrite bind_ret.
  unfold model_deviation, py_getitem.
  rewrite lookup_insert_ne by done. rewrite Hp, bind_ret.
  destruct (params !! "intercept") as [intercept|] eqn:Hi; [|done].
  rewrite bind_ret.
  destruct Hmissing as [|Hc]; [done|]. by rewrite Hc.
Qed.
End DownSignal.

Lemma down_signal_sells_witness :
  ∃ best_bid,
    greatest_key (buy_orders (book [9999] [10001])) best_bid ∧
    compute_model_based_orders parsed_loads parsed_dumps target (book [9999] [10001])
      (NFloat 10000) (Ok (flat_record 0 3)) 4 10 (NFloat 1) 50
    = Ok ([ {| symbol := target; price := best_bid; quantity := NInt (-50) |} ],
          parsed_dumps
            (VDict (<["position" := VInt (-50)]>
                    (<["model_history" :=
                         VList (repeat (VFloat 10000) 3 ++ [of_num (NFloat 10000)])]>
                     (<["model_history" := VList (repeat (VFloat 10000) 3)]>
                      (<["position" := VInt 0]>
                       {["model_params" := default_model_params]})))))).
Proof.
  refine (down_signal_sells parsed_loads parsed_dumps target (book [9999] [10001])
            (NFloat 10000) (Ok (flat_record 0 3)) 4 10
            (<["model_history" := VList (repeat (VFloat 10000) 3)]>
             (<["position" := VInt 0]> {["model_params" := default_model_params]}))
            (repeat (VFloat 10000) 3) (NFloat (-1.6572669516426686)) _ _ _ _ _ _ _ _).
  - vm_compute. reflexivity.
  - vm_compute. reflexivity.
  - vm_compute. lia.
  - vm_compute. reflexivity.
  - vm_compute. reflexivity.
  - exists 16. vm_compute. reflexivity.
  - vm_compute. reflexivity.
  - apply nonempty_inv. vm_compute. reflexivity.
Defined.

Lemma incomplete_params_raise_witness :
  compute_model_based_orders parsed_loads parsed_dumps target (book [7] [9])
    (NInt 8) (Ok (VDict headless_record)) 4 10 (NFloat 1) 50 = Raise KeyError.
Proof.
  apply (incomplete_params_raise parsed_loads parsed_dumps target (book [7] [9])
           (NInt 8) (Ok (VDict headless_record)) 4 10 (NFloat 1) 50 headless_record
           [VInt 10; VInt 10; VInt 10] {[ "coefficients" := VList [] ]}).
  - reflexivity.
  - vm_compute. reflexivity.
  - vm_compute. lia.
  - vm_compute. reflexivity.
  - left. vm_compute. reflexivity.
Defined.

(** ** The overbought side and the entry boundary of the mean reversion *)

Lemma Prim2SF_three_halves :
  Prim2SF 1.5%float = S754_finite false 6755399441055744 (-52) ∧
  Prim2SF (-1.5)%float = S754_finite true 6755399441055744 (-52).
Proof. split; vm_compute; reflexivity. Qed.

(** Equal to 1.5 (to -1.5) by value means being that float: no int is. *)
Lemma num_compare_three_halves (z : num) :
  (num_compare z (NFloat 1.5) = Some Eq → z = NFloat 1.5) ∧
  (num_compare z (NFloat (-1.5)) = Some Eq → z = NFloat (-1.5)).
Proof.
  destruct Prim2SF_three_halves as [Hpos Hneg].
  destruct z as [x|f]; unfold num_compare.
  - unfold compare_int_float. rewrite Hpos, Hneg.
    change (0 <=? -52) with false. cbv iota.
    change (2 ^ (- (-52))) with 4503599627370496.
    split; intros [= H]; apply Z.compare_eq_iff in H; lia.
  - unfold compare_float. rewrite !FloatAxioms.compare_spec, Hpos, Hneg.
    destruct (Prim2SF f) as [s| s | |s m e] eqn:Hf;
      unfold flatten_cmp_opt, SFcompare; (split; try discriminate).
    + destruct s; discriminate.
    + destruct s; discriminate.
    + destruct s; [discriminate|].
      destruct (Z.compare_spec e (-52)) as [->| |]; try discriminate.
      destruct (PosDef.Pos.compare_cont Eq m 6755399441055744) eqn:Hm; try discriminate.
      apply Pos.compare_eq in Hm.
      intros _. f_equal. apply Prim2SF_inj. by rewrite Hf, Hpos, Hm.
    + destruct s; [|discriminate].
      destruct (Z.compare_spec e (-52)) as [->| |]; try discriminate.
      destruct (PosDef.Pos.compare_cont Eq m 6755399441055744) eqn:Hm; try discriminate.
      apply Pos.compare_eq in Hm.
      intros _. f_equal. apply Prim2SF_inj. by rewrite Hf, Hneg, Hm.
Qed.

Section MeanReversionSides.
Context {blob : Type} (loads : blob → result pyval) (dumps : pyval → blob)
        (pow : float → float → float).

(** The call up to the statistics, when the window is full. *)
Lemma rainforest_full_window (target_product : string) (order_depth : OrderDepth)
    (mid_price : num) (trader_data : blob) (window_size : nat) (base_quantity : Z)
    (m : gmap string pyval) (l : list pyval) :
  load_rainforest_history loads trader_data = VDict m →
  m !! "rainforest_prices" = Some (VList l) →
  (window_size ≤ length (l ++ [of_num mid_price]))%nat →
  compute_rainforest_orders loads dumps pow target_product order_depth mid_price
    trader_data window_size base_quantity
  = orders ← rainforest_signal pow target_product order_depth mid_price
               (slice_last window_size (l ++ [of_num mid_price])) window_size
               base_quantity;
    Ok (orders,
        dumps (VDict (<["rainforest_prices" := VList (l ++ [of_num mid_price])]> m))).
Proof.
  intros Hload Hl Hfull.
  unfold compute_rainforest_orders.
  rewrite Hload, (append_at_dict _ _ _ _ Hl), bind_ret.
  unfold py_getitem. rewrite lookup_insert_eq, bind_ret.
  unfold py_len. rewrite bind_ret.
  rewrite bool_decide_eq_true_2 by exact Hfull.
  unfold py_slice_last. by rewrite bind_ret.
Qed.

(** X9. The overbought side mirrors the oversold one: when the mean
    the strategy computes for the window is 100 and the population
    standard deviation it computes, with the C library's [pow], is 1,
    and the mid price is 103, the z-score is 3, the scale factor is 6,
    and with a non-empty bid side exactly one SELL of 6 × base_quantity
    (quantity -(6 × base_quantity)) at the greatest bid is returned,
    whether or not asks are quoted. *)
Theorem three_sigma_sell (target_product : string) (order_depth : OrderDepth)
    (mid_price : num) (trader_data : blob) (window_size : nat) (base_quantity : Z)
    (m : gmap string pyval) (l : list pyval) :
  loads trader_data = Ok (VDict m) →
  m !! "rainforest_prices" = Some (VList l) →
  (window_size ≤ length (l ++ [of_num mid_price]))%nat →
  rolling_mean_of (slice_last window_size (l ++ [of_num mid_price])) window_size
    = Ok (NFloat 100) →
  rolling_std_of pow (slice_last window_size (l ++ [of_num mid_price])) (NFloat 100)
    window_size = Ok (NFloat 1) →
  mid_price = NInt 103 ∨ mid_price = NFloat 103 →
  buy_orders order_depth ≠ ∅ →
  z_score_of mid_price (NFloat 100) (NFloat 1) = Ok (NFloat 3) ∧
  scale_factor_of (NFloat 3) = Ok 6 ∧
  ∃ best_bid,
    greatest_key (buy_orders order_depth) best_bid ∧
    compute_rainforest_orders loads dumps pow target_product order_depth mid_price
      trader_data window_size base_quantity
    = Ok ([ {| symbol := target_product; price := best_bid;
               quantity := NInt (- (6 * base_quantity)) |} ],
          dumps (VDict (<["rainforest_prices" := VList (l ++ [of_num mid_price])]> m))).
Proof.
  intros Hdecoded Hl Hfull Hmean Hstd Hmid Hbids.
  assert (Hload : load_rainforest_history loads trader_data = VDict m)
    by (by rewrite (load_rainforest_decoded loads _ _ Hdecoded), Hl).
  assert (Hz : z_score_of mid_price (NFloat 100) (NFloat 1) = Ok (NFloat 3)).
  { destruct Hmid as [-> | ->]; vm_compute; reflexivity. }
  assert (Hscale : scale_factor_of (NFloat 3) = Ok 6) by (vm_compute; reflexivity).
  split; [exact Hz|]. split; [exact Hscale|].
  destruct (max_key_greatest _ Hbids) as (best_bid & Hmax & Hgreatest).
  exists best_bid. split; [exact Hgreatest|].
  rewrite (rainforest_full_window _ _ _ _ _ _ m l Hload Hl Hfull).
  unfold rainforest_signal.
  rewrite Hmean, bind_ret, Hstd, bind_ret, Hz, bind_ret, Hscale, bind_ret.
  replace (num_lt (NFloat 3) (NFloat (-1.5))) with false by (vm_compute; reflexivity).
  replace (num_gt (NFloat 3) (NFloat 1.5)) with true by (vm_compute; reflexivity).
  change (false && nonempty (sell_orders order_depth)) with false. cbv iota.
  rewrite (nonempty_true _ Hbids). change (true && true) with true. cbv iota.
  rewrite Hmax, !bind_ret. by rewrite (Z.mul_comm base_quantity 6).
Qed.

(** X10. The entry thresholds are strict: when the z-score the strategy
    computes for the full window, with the C library's [pow], equals 1.5
    or -1.5, no order is returned, whatever the book, and the history is
    still extended. *)
Theorem boundary_z_score_no_order (target_product : string) (order_depth : OrderDepth)
    (mid_price : num) (trader_data : blob) (window_size : nat) (base_quantity : Z)
    (m : gmap string pyval) (l : list pyval) (rolling_mean rolling_std z_score : num) :
  loads trader_data = Ok (VDict m) →
  m !! "rainforest_prices" = Some (VList l) →
  (window_size ≤ length (l ++ [of_num mid_price]))%nat →
  rolling_mean_of (slice_last window_size (l ++ [of_num mid_price])) window_size
    = Ok rolling_mean →
  rolling_std_of pow (slice_last window_size (l ++ [of_num mid_price])) rolling_mean
    window_size = Ok rolling_std →
  z_score_of mid_price rolling_mean rolling_std = Ok z_score →
  num_compare z_score (NFloat 1.5) = Some Eq ∨
  num_compare z_score (NFloat (-1.5)) = Some Eq →
  compute_rainforest_orders loads dumps pow target_product order_depth mid_price
    trader_data window_size base_quantity
  = Ok ([], dumps (VDict (<["rainforest_prices" := VList (l ++ [of_num mid_price])]> m))).
Proof.
  intros Hdecoded Hl Hfull Hmean Hstd Hz Hboundary.
  assert (Hload : load_rainforest_history loads trader_data = VDict m)
    by (by rewrite (load_rainforest_decoded loads _ _ Hdecoded), Hl).
  rewrite (rainforest_full_window _ _ _ _ _ _ m l Hload Hl Hfull).
  unfold rainforest_signal.
  rewrite Hmean, bind_ret, Hstd, bind_ret, Hz, bind_ret.
  destruct (num_compare_three_halves z_score) as [Hpos Hneg].
  destruct Hboundary as [->%Hpos | ->%Hneg].
  - replace (scale_factor_of (NFloat 1.5)) with (Ok 3 : result Z)
      by (vm_compute; reflexivity).
    rewrite bind_ret.
    replace (num_lt (NFloat 1.5) (NFloat (-1.5))) with false by (vm_compute; reflexivity).
    by replace (num_gt (NFloat 1.5) (NFloat 1.5)) with false by (vm_compute; reflexivity).
  - replace (scale_factor_of (NFloat (-1.5))) with (Ok 3 : result Z)
      by (vm_compute; reflexivity).
    rewrite bind_ret.
    replace (num_lt (NFloat (-1.5)) (NFloat (-1.5))) with false
      by (vm_compute; reflexivity).
    by replace (num_gt (NFloat (-1.5)) (NFloat 1.5)) with false
      by (vm_compute; reflexivity).
Qed.
End MeanReversionSides.

Lemma three_sigma_sell_witness :
  ∃ best_bid,
    greatest_key (buy_orders (book [101; 102] [104])) best_bid ∧
    compute_rainforest_orders parsed_loads parsed_dumps sample_pow
        target (book [101; 102] [104])
      (NInt 103) overbought_blob 20 10
    = Ok ([ {| symbol := target; price := best_bid; quantity := NInt (- (6 * 10)) |} ],
          parsed_dumps
            (VDict (<["rainforest_prices" :=
                        VList (take 19 overbought_window ++ [of_num (NInt 103)])]>
                    {["rainforest_prices" := VList (take 19 overbought_window)]}))).
Proof.
  refine (proj2 (proj2 (three_sigma_sell parsed_loads parsed_dumps sample_pow target
            (book [101; 102] [104]) (NInt 103) overbought_blob 20 10
            {["rainforest_prices" := VList (take 19 overbought_window)]}
            (take 19 overbought_window) _ _ _ _ _ _ _))).
  - vm_compute. reflexivity.
  - vm_compute. reflexivity.
  - vm_compute. lia.
  - vm_compute. reflexivity.
  - vm_compute. reflexivity.
  - left. reflexivity.
  - apply nonempty_inv. vm_compute. reflexivity.
Defined.

Lemma boundary_z_score_no_order_witness :
  compute_rainforest_orders parsed_loads parsed_dumps sample_pow target (book [96] [98])
    (NInt 97) boundary_blob 20 10
  = Ok ([], parsed_dumps
              (VDict (<["rainforest_prices" :=
                          VList (take 19 boundary_window ++ [of_num (NInt 97)])]>
                      {["rainforest_prices" := VList (take 19 boundary_window)]}))).
Proof.
  refine (boundary_z_score_no_order parsed_loads parsed_dumps sample_pow
      target (book [96] [98])
            (NInt 97) boundary_blob 20 10
            {["rainforest_prices" := VList (take 19 boundary_window)]}
            (take 19 boundary_window) (NFloat 100) (NFloat 2) (NFloat (-1.5))
            _ _ _ _ _ _ _).
  - vm_compute. reflexivity.
  - vm_compute. reflexivity.
  - vm_compute. lia.
  - vm_compute. reflexivity.
  - vm_compute. reflexivity.
  - vm_compute. reflexivity.
  - right. vm_compute. reflexivity.
Defined.

(** ** Quantities in the book *)

Lemma least_key_dom (d1 d2 : gmap Z Z) (k : Z) :
  dom d1 = dom d2 → least_key d1 k → least_key d2 k.
Proof.
  intros Hdom [Hk Hle]. split.
  - apply elem_of_dom. rewrite <- Hdom. by apply elem_of_dom.
  - intros k' Hk'. apply Hle. apply elem_of_dom. rewrite Hdom. by apply elem_of_dom.
Qed.

Lemma greatest_key_dom (d1 d2 : gmap Z Z) (k : Z) :
  dom d1 = dom d2 → greatest_key d1 k → greatest_key d2 k.
Proof.
  intros Hdom [Hk Hle]. split.
  - apply elem_of_dom. rewrite <- Hdom. by apply elem_of_dom.
  - intros k' Hk'. apply Hle. apply elem_of_dom. rewrite Hdom. by apply elem_of_dom.
Qed.

Lemma empty_dom (d1 d2 : gmap Z Z) : dom d1 = dom d2 → d1 = ∅ → d2 = ∅.
Proof. intros Hdom ->. apply dom_empty_iff_L. by rewrite <- Hdom, dom_empty_L. Qed.

Lemma min_key_empty : min_key ∅ = Raise ValueError.
Proof. unfold min_key. by rewrite map_to_list_empty. Qed.

Lemma max_key_empty : max_key ∅ = Raise ValueError.
Proof. unfold max_key. by rewrite map_to_list_empty. Qed.

(** Emptiness and the best prices depend on the price levels only. *)
Lemma book_side_dom (d1 d2 : gmap Z Z) :
  dom d1 = dom d2 →
  nonempty d1 = nonempty d2 ∧ min_key d1 = min_key d2 ∧ max_key d1 = max_key d2.
Proof.
  intros Hdom. destruct (decide (d1 = ∅)) as [H1|H1].
  - pose proof (empty_dom _ _ Hdom H1) as H2. by rewrite H1, H2.
  - assert (H2 : d2 ≠ ∅) by (intros H2; by apply H1, (empty_dom d2 d1)).
    rewrite !nonempty_true by done. split; [done|]. split.
    + destruct (min_key_least _ H1) as (k1 & -> & L1).
      destruct (min_key_least _ H2) as (k2 & -> & L2).
      f_equal. eapply least_key_unique; [|exact L2]. by eapply least_key_dom.
    + destruct (max_key_greatest _ H1) as (k1 & -> & L1).
      destruct (max_key_greatest _ H2) as (k2 & -> & L2).
      f_equal. eapply greatest_key_unique; [|exact L2]. by eapply greatest_key_dom.
Qed.

Lemma bind_ext {A B} (e : result A) (k1 k2 : A → result B) :
  (∀ a, k1 a = k2 a) → e ≫= k1 = e ≫= k2.
Proof. intros H. destruct e as [a|x]; [apply H|done]. Qed.

Lemma mid_price_same_levels (book1 book2 : OrderDepth) :
  same_levels book1 book2 → mid_price_of book1 = mid_price_of book2.
Proof.
  intros [Hb Hs].
  destruct (book_side_dom _ _ Hb) as (Hnb & _ & Hmaxb).
  destruct (book_side_dom _ _ Hs) as (Hns & Hmins & _).
  unfold mid_price_of. by rewrite Hnb, Hns, Hmins, Hmaxb.
Qed.

Section Quantities.
Context {blob : Type} (loads : blob → result pyval) (dumps : pyval → blob)
        (pow : float → float → float).

Lemma rainforest_same_levels (target_product : string) (book1 book2 : OrderDepth)
    (mid_price : num) (trader_data : blob) (window_size : nat) (base_quantity : Z) :
  same_levels book1 book2 →
  compute_rainforest_orders loads dumps pow target_product book1 mid_price trader_data
    window_size base_quantity
  = compute_rainforest_orders loads dumps pow target_product book2 mid_price trader_data
      window_size base_quantity.
Proof.
  intros [Hb Hs].
  destruct (book_side_dom _ _ Hb) as (Hnb & _ & Hmaxb).
  destruct (book_side_dom _ _ Hs) as (Hns & Hmins & _).
  unfold compute_rainforest_orders.
  apply bind_ext. intros history. apply bind_ext. intros prices.
  apply bind_ext. intros n. f_equal.
  destruct (bool_decide _); [|done].
  apply bind_ext. intros recent_prices.
  unfold rainforest_signal. by rewrite Hnb, Hns, Hmins, Hmaxb.
Qed.

(** X11. The quantities quoted in the book are never consulted: two
    books with the same bid and ask price levels give the same mid
    price and make both strategies return the same orders and blob (or
    raise the same exception), and two snapshots quoting the same
    instruments at the same levels make [run] return the same result. *)
Theorem quantities_ignored (trader_data : blob) :
  (∀ book1 book2 target_product mid_price,
     same_levels book1 book2 →
     mid_price_of book1 = mid_price_of book2 ∧
     (∀ window_size base_quantity,
        compute_rainforest_orders loads dumps pow target_product book1 mid_price
          trader_data window_size base_quantity
        = compute_rainforest_orders loads dumps pow target_product book2 mid_price
            trader_data window_size base_quantity) ∧
     (∀ lag base_quantity threshold max_position,
        compute_model_based_orders loads dumps target_product book1 mid_price
          trader_data lag base_quantity threshold max_position
        = compute_model_based_orders loads dumps target_product book2 mid_price
            trader_data lag base_quantity threshold max_position)) ∧
  (∀ depths1 depths2,
     same_snapshot depths1 depths2 →
     run loads dumps pow {| traderData := trader_data; order_depths := depths1 |}
     = run loads dumps pow {| traderData := trader_data; order_depths := depths2 |}).
Proof.
  split.
  - intros book1 book2 target_product mid_price Hsame.
    split; [by apply mid_price_same_levels|].
    split; [intros; by apply rainforest_same_levels|].
    intros lag base_quantity threshold max_position.
    destruct Hsame as [Hb Hs].
    destruct (book_side_dom _ _ Hb) as (Hnb & _ & Hmaxb).
    destruct (book_side_dom _ _ Hs) as (Hns & Hmins & _).
    unfold compute_model_based_orders.
    apply bind_ext. intros history. apply bind_ext. intros history'.
    apply bind_ext. intros prices. apply bind_ext. intros n. f_equal.
    destruct (bool_decide _); [|done].
    apply bind_ext. intros recent_prices. apply bind_ext. intros deviation.
    destruct (num_gt _ threshold); [|done].
    unfold model_trade. by rewrite Hnb, Hns, Hmins, Hmaxb.
  - intros depths1 depths2 Hsame.
    assert (Hothers : ignore_others depths1 = ignore_others depths2).
    { apply map_eq. intros product. rewrite !ignore_others_lookup.
      destruct (decide _); [|done]. by destruct (Hsame product). }
    unfold run. simpl. rewrite Hothers.
    destruct (Hsame target) as [book1 book2 Hlevels|]; [|done].
    rewrite (mid_price_same_levels _ _ Hlevels).
    apply bind_ext. intros [mid_price|]; [|done].
    by rewrite (rainforest_same_levels target _ _ _ _ _ _ Hlevels).
Qed.
End Quantities.

Lemma quantities_ignored_witness :
  mid_price_of (book [96] [98; 99]) = mid_price_of heavier_book ∧
  compute_rainforest_orders parsed_loads parsed_dumps sample_pow target (book [96] [98; 99])
    (NInt 97) three_sigma_blob 20 10
  = compute_rainforest_orders parsed_loads parsed_dumps sample_pow target heavier_book
      (NInt 97) three_sigma_blob 20 10.
Proof.
  destruct (quantities_ignored parsed_loads parsed_dumps sample_pow three_sigma_blob)
    as [Hbooks _].
  destruct (Hbooks (book [96] [98; 99]) heavier_book target (NInt 97))
    as (Hmid & Hrainforest & _).
  - split; vm_compute; reflexivity.
  - split; [exact Hmid | apply Hrainforest].
Defined.

(** ** Whole cycles of the orchestrator *)

Lemma ignore_others_no_orders (depths : gmap string OrderDepth) :
  no_orders (ignore_others depths).
Proof.
  intros product orders. rewrite ignore_others_lookup.
  destruct (decide _); [|done].
  destruct (depths !! product); simpl; congruence.
Qed.

Lemma no_orders_insert (result : gmap string (list Order)) (product : string) :
  no_orders result → no_orders (<[product := []]> result).
Proof.
  intros Hres product' orders.
  destruct (decide (product' = product)) as [->|Hne].
  - rewrite lookup_insert_eq. congruence.
  - rewrite lookup_insert_ne by done. apply Hres.
Qed.

(** The mid price raises nothing but the overflow of the division. *)
Lemma mid_price_raises_overflow (order_depth : OrderDepth) (e : exn) :
  mid_price_of order_depth = Raise e → e = OverflowError.
Proof.
  assert (Hconv : ∀ f e', finite_or_overflow f = Raise e' → e' = OverflowError).
  { intros f e'. unfold finite_or_overflow. destruct (Prim2SF f); congruence. }
  unfold mid_price_of.
  destruct (nonempty (buy_orders order_depth)) eqn:Hb;
    destruct (nonempty (sell_orders order_depth)) eqn:Hs; simpl.
  - destruct (max_key_greatest _ (nonempty_inv _ Hb)) as (best_bid & -> & _).
    destruct (min_key_least _ (nonempty_inv _ Hs)) as (best_ask & -> & _).
    rewrite !bind_ret. unfold num_truediv, int_truediv.
    change (2 =? 0) with false. cbv iota.
    destruct (_ =? 0).
    + unfold int_to_float. destruct (finite_or_overflow _) eqn:Hf; [done|].
      apply Hconv in Hf as ->. by intros [= <-].
    + destruct (finite_or_overflow _) eqn:Hf; [done|].
      apply Hconv in Hf as ->. by intros [= <-].
  - by destruct (max_key_greatest _ (nonempty_inv _ Hb)) as (best_bid & -> & _).
  - by destruct (min_key_least _ (nonempty_inv _ Hs)) as (best_ask & -> & _).
  - done.
Qed.

Section WholeCycles.
Context {blob : Type} (loads : blob → result pyval) (dumps : pyval → blob)
        (pow : float → float → float).

(** X12. A returning [run] places at most one order in the whole result
    map: every list but the target's is empty, and the target's is empty
    or holds exactly one order, a BUY of [10 * k] at the least ask of the
    target's book or a SELL of [10 * k] at its greatest bid, [k >= 1]. *)
Theorem run_places_one_order (state : TradingState blob)
    (result : gmap string (list Order)) (conversions : Z) (trader_data' : blob) :
  run loads dumps pow state = Ok (result, conversions, trader_data') →
  ∀ product orders,
    result !! product = Some orders →
    orders = [] ∨
    product = target ∧
    ∃ order_depth,
      order_depths state !! target = Some order_depth ∧
      ((∃ best_ask k,
          least_key (sell_orders order_depth) best_ask ∧ 1 ≤ k ∧
          orders = [ {| symbol := target; price := best_ask;
                        quantity := NInt (10 * k) |} ]) ∨
       (∃ best_bid k,
          greatest_key (buy_orders order_depth) best_bid ∧ 1 ≤ k ∧
          orders = [ {| symbol := target; price := best_bid;
                        quantity := NInt (- (10 * k)) |} ])).
Proof.
  unfold run. intros Hrun product orders Hlookup.
  destruct (order_depths state !! target) as [order_depth|] eqn:Hod.
  - apply bind_Ok in Hrun as (mid_price & Hmid & Hrun).
    destruct mid_price as [mid_price|].
    + apply bind_Ok in Hrun as ([target_orders new_trader_data] & Hcall & [= <- _ _]).
      destruct (decide (product = target)) as [->|Hne].
      * rewrite lookup_insert_eq in Hlookup. injection Hlookup as ->.
        apply rainforest_returns_parts in Hcall
          as (m & l & _ & _ & _ & [->|[_ Hsignal]]); [by left|].
        apply rainforest_signal_shape in Hsignal as [->|Hshape]; [by left|].
        right. split; [done|]. by exists order_depth.
      * rewrite lookup_insert_ne in Hlookup by done.
        left. by eapply ignore_others_no_orders.
    + injection Hrun as <- _ _. left.
      by eapply (no_orders_insert _ target (ignore_others_no_orders _)).
  - injection Hrun as <- _ _. left. by eapply ignore_others_no_orders.
Qed.

Hypothesis loads_dumps : ∀ history, loads (dumps history) = Ok history.

Lemma load_rainforest_dumps (m : gmap string pyval) (v : pyval) :
  m !! "rainforest_prices" = Some v →
  load_rainforest_history loads (dumps (VDict m)) = VDict m.
Proof.
  intros Hm. unfold load_rainforest_history.
  by rewrite loads_dumps, bind_ret, init_if_absent_dict, Hm.
Qed.

(** One cycle while the history is short: no order, and the history grows
    by at most one price. *)
Lemma run_warming (depths : gmap string OrderDepth) (trader_data : blob) (n : nat) :
  warming loads trader_data n → (n < 19)%nat →
  match run loads dumps pow {| traderData := trader_data; order_depths := depths |} with
  | Ok (result, _, trader_data') =>
      no_orders result ∧ warming loads trader_data' (S n)
  | Raise e => e = OverflowError
  end.
Proof.
  intros (m & l & Hload & Hl & Hlen) Hn.
  assert (Hsame : warming loads trader_data (S n)).
  { exists m, l. split; [done|]. split; [done|]. lia. }
  unfold run. simpl.
  destruct (depths !! target) as [order_depth|]; [|split; [|done]].
  - destruct (mid_price_of order_depth) as [[mid_price|]|e] eqn:Hmid.
    + rewrite bind_ret.
      rewrite (rainforest_short_history loads dumps pow _ _ _ _ _ _ m l Hload Hl)
        by (rewrite length_app; simpl; lia).
      rewrite bind_ret. split.
      * apply no_orders_insert, ignore_others_no_orders.
      * eexists _, _. split; [by eapply load_rainforest_dumps, lookup_insert_eq|].
        split; [apply lookup_insert_eq|]. rewrite length_app. simpl. lia.
    + rewrite bind_ret. split; [|done].
      apply no_orders_insert, ignore_others_no_orders.
    + by apply mid_price_raises_overflow in Hmid.
  - apply ignore_others_no_orders.
Qed.

Lemma run_cycles_warming (snapshots : list (gmap string OrderDepth))
    (trader_data : blob) (n : nat) :
  warming loads trader_data n → (n + length snapshots ≤ 19)%nat →
  match run_cycles loads dumps pow snapshots trader_data with
  | Ok (results, _) =>
      length results = length snapshots ∧ Forall no_orders results
  | Raise e => e = OverflowError
  end.
Proof.
  revert trader_data n.
  induction snapshots as [|depths snapshots IH]; intros trader_data n Hwarm Hlen.
  - by split.
  - cbn [run_cycles]. simpl in Hlen.
    pose proof (run_warming depths trader_data n Hwarm ltac:(lia)) as Hrun.
    destruct (run loads dumps pow _) as [[[result conversions] trader_data']|e];
      [|done].
    destruct Hrun as [Hnone Hwarm']. rewrite bind_ret.
    specialize (IH trader_data' (S n) Hwarm' ltac:(lia)).
    destruct (run_cycles loads dumps pow snapshots trader_data')
      as [[results trader_data'']|e]; [|done].
    destruct IH as [Hlength Hall]. rewrite bind_ret. split.
    + simpl. by rewrite Hlength.
    + by constructor.
Qed.

(** X13. Warm-up: starting from a blob that does not decode, the first
    nineteen cycles of [run] place no order at all, whatever the
    snapshots; a cycle can only fail by the overflow of the mid-price
    division. *)
Theorem warm_up_places_no_order (snapshots : list (gmap string OrderDepth))
    (trader_data : blob) (e : exn) :
  loads trader_data = Raise e →
  (length snapshots ≤ 19)%nat →
  match run_cycles loads dumps pow snapshots trader_data with
  | Ok (results, _) =>
      length results = length snapshots ∧ Forall no_orders results
  | Raise e => e = OverflowError
  end.
Proof.
  intros Hl Hlen. apply (run_cycles_warming snapshots trader_data 0); [|lia].
  exists {["rainforest_prices" := VList []]}, [].
  split; [by apply (load_rainforest_failure loads _ e)|]. split; [done|]. simpl. lia.
Qed.
End WholeCycles.

Lemma run_places_one_order_witness :
  [ {| symbol := target; price := 98; quantity := NInt 60 |} ] = [] ∨
  target = target ∧
  ∃ order_depth,
    order_depths {| traderData := three_sigma_blob;
                    order_depths := {[ target := book [96] [98] ]} |} !! target
      = Some order_depth ∧
    ((∃ best_ask k,
        least_key (sell_orders order_depth) best_ask ∧ 1 ≤ k ∧
        [ {| symbol := target; price := 98; quantity := NInt 60 |} ]
        = [ {| symbol := target; price := best_ask; quantity := NInt (10 * k) |} ]) ∨
     (∃ best_bid k,
        greatest_key (buy_orders order_depth) best_bid ∧ 1 ≤ k ∧
        [ {| symbol := target; price := 98; quantity := NInt 60 |} ]
        = [ {| symbol := target; price := best_bid;
               quantity := NInt (- (10 * k)) |} ])).
Proof.
  apply (run_places_one_order parsed_loads parsed_dumps sample_pow
           {| traderData := three_sigma_blob;
              order_depths := {[ target := book [96] [98] ]} |}
           (<[target := [ {| symbol := target; price := 98; quantity := NInt 60 |} ]]> ∅)
           1 (Ok (rainforest_record (take 19 three_sigma_window ++ [VFloat 97])))).
  - vm_compute. reflexivity.
  - apply lookup_insert_eq.
Defined.

Lemma warm_up_places_no_order_witness :
  match run_cycles parsed_loads parsed_dumps sample_pow warm_up_snapshots
                   (Raise JSONDecodeError) with
  | Ok (results, _) =>
      length results = length warm_up_snapshots ∧ Forall no_orders results
  | Raise e => e = OverflowError
  end.
Proof.
  apply (warm_up_places_no_order parsed_loads parsed_dumps sample_pow (λ history, eq_refl)
           warm_up_snapshots (Raise JSONDecodeError) JSONDecodeError).
  - reflexivity.
  - vm_compute. lia.
Defined.

(** The nineteen sample cycles do return: eighteen of them quote the
    target and extend the history. *)
Example warm_up_returns :
  match run_cycles parsed_loads parsed_dumps sample_pow warm_up_snapshots
                   (Raise JSONDecodeError) with
  | Ok (results, trader_data') => Some (length results, trader_data')
  | Raise _ => None
  end = Some (19%nat, Ok (rainforest_record (repeat (VFloat 10000) 18))).
Proof. vm_compute. reflexivity. Qed.

(** * The conversion cycles *)

Lemma label_position_known (label : string) (labels : list string) :
  label ∈ labels → ∃ i, label_position label labels = Ok i ∧ (i < length labels)%nat.
Proof.
  induction labels as [|l labels IH]; [by intros ?%elem_of_nil|].
  intros Hin. simpl. destruct (String.eqb_spec label l) as [->|Hne].
  - exists 0%nat. split; [done|]. simpl. lia.
  - apply elem_of_cons in Hin as [->|Hin]; [done|].
    destruct (IH Hin) as (i & -> & Hi). exists (S i). split; [done|]. simpl. lia.
Qed.

Lemma label_position_unknown (label : string) (labels : list string) :
  label ∉ labels → label_position label labels = Raise KeyError.
Proof.
  induction labels as [|l labels IH]; [done|].
  intros Hnot. apply not_elem_of_cons in Hnot as [Hne Hnot]. simpl.
  destruct (String.eqb_spec label l) as [->|_]; [done|]. by rewrite IH.
Qed.

(** The table has an entry for every pair of commodities and raises
    [KeyError] for any other label. *)
Lemma loc_known (from_commodity to_commodity : string) :
  from_commodity ∈ commodities → to_commodity ∈ commodities →
  ∃ rate, loc from_commodity to_commodity = Ok rate.
Proof.
  intros Hfrom Hto. unfold loc.
  destruct (label_position_known _ _ Hfrom) as (i & -> & Hi).
  destruct (label_position_known _ _ Hto) as (j & -> & Hj).
  rewrite !bind_ret. simpl in Hi, Hj.
  destruct i as [|[|[|[|i]]]]; [| | | |lia];
    (destruct j as [|[|[|[|j]]]]; [| | | |lia]); by eexists.
Qed.

Lemma loc_unknown (from_commodity to_commodity : string) :
  from_commodity ∉ commodities ∨ to_commodity ∉ commodities →
  loc from_commodity to_commodity = Raise KeyError.
Proof.
  intros Hnot. unfold loc.
  destruct (decide (from_commodity ∈ commodities)) as [Hfrom|Hfrom].
  - destruct (label_position_known _ _ Hfrom) as (i & -> & _). rewrite bind_ret.
    destruct Hnot as [|Hto]; [done|]. by rewrite (label_position_unknown _ _ Hto).
  - by rewrite (label_position_unknown _ _ Hfrom).
Qed.

(** A profit so far is the int 1 or a float; multiplying it by a rate
    never raises. *)
Lemma profit_step (profit : num) (rate : float) :
  profit = NInt 1 ∨ (∃ f, profit = NFloat f) →
  ∃ f, num_mul profit (NFloat rate) = Ok (NFloat f).
Proof.
  intros [->|[f ->]].
  - exists (PrimFloat.mul 1 rate). vm_compute. reflexivity.
  - by eexists.
Qed.

Lemma cycle_profit_from_known (profit : num) (cycle : list string) :
  profit = NInt 1 ∨ (∃ f, profit = NFloat f) →
  Forall (.∈ commodities) cycle →
  ∃ result, cycle_profit_from profit cycle = Ok result ∧
            ((2 ≤ length cycle)%nat → ∃ f, result = NFloat f).
Proof.
  revert profit. induction cycle as [|a cycle IH]; intros profit Hprofit Hall.
  - exists profit. split; [done|]. simpl. lia.
  - destruct cycle as [|b cycle].
    + exists profit. split; [done|]. simpl. lia.
    + apply Forall_cons in Hall as [Ha Hall].
      pose proof Hall as [Hb _]%Forall_cons.
      destruct (loc_known a b Ha Hb) as (rate & Hrate).
      destruct (profit_step profit rate Hprofit) as (f & Hf).
      destruct (IH (NFloat f) ltac:(right; by exists f) Hall) as (result & Hres & Hfloat).
      exists result. split.
      * cbn [cycle_profit_from]. by rewrite Hrate, bind_ret, Hf, bind_ret.
      * intros _. destruct cycle as [|c cycle].
        -- cbn [cycle_profit_from] in Hres. injection Hres as <-. by exists f.
        -- apply Hfloat. simpl. lia.
Qed.

Lemma cycle_profit_from_unknown (profit : num) (cycle : list string) :
  profit = NInt 1 ∨ (∃ f, profit = NFloat f) →
  (2 ≤ length cycle)%nat →
  ¬ Forall (.∈ commodities) cycle →
  cycle_profit_from profit cycle = Raise KeyError.
Proof.
  revert profit. induction cycle as [|a cycle IH]; intros profit Hprofit Hlen Hnot.
  - simpl in Hlen. lia.
  - destruct cycle as [|b cycle]; [simpl in Hlen; lia|].
    cbn [cycle_profit_from].
    destruct (decide (a ∈ commodities)) as [Ha|Ha];
      [|by rewrite loc_unknown by (by left)].
    destruct (decide (b ∈ commodities)) as [Hb|Hb];
      [|by rewrite loc_unknown by (by right)].
    destruct (loc_known a b Ha Hb) as (rate & ->). rewrite bind_ret.
    destruct (profit_step profit rate Hprofit) as (f & ->). rewrite bind_ret.
    apply IH.
    + right. by exists f.
    + destruct cycle as [|c cycle]; [|simpl; lia].
      destruct Hnot. apply Forall_cons. split; [done|]. by apply Forall_singleton.
    + intros Hall. apply Hnot. by constructor.
Qed.

(** X14. [calculate_cycle_profit] on any list of labels: with fewer than
    two labels it returns the int 1 without looking anything up, even
    for unknown labels; with two or more it returns a float when every
    label is one of the four commodities and raises [KeyError]
    otherwise. *)
Theorem cycle_profit_outcomes (cycle : list string) :
  ((length cycle < 2)%nat → calculate_cycle_profit cycle = Ok (NInt 1)) ∧
  ((2 ≤ length cycle)%nat →
   (Forall (.∈ commodities) cycle →
    ∃ f, calculate_cycle_profit cycle = Ok (NFloat f)) ∧
   (¬ Forall (.∈ commodities) cycle →
    calculate_cycle_profit cycle = Raise KeyError)).
Proof.
  unfold calculate_cycle_profit. split.
  - intros Hshort. destruct cycle as [|a [|b cycle]]; [done|done|simpl in Hshort; lia].
  - intros Hlen. split.
    + intros Hall.
      destruct (cycle_profit_from_known (NInt 1) cycle ltac:(by left) Hall)
        as (result & -> & Hfloat).
      destruct (Hfloat Hlen) as (f & ->). by exists f.
    + intros Hnot. apply cycle_profit_from_unknown; [by left|done|done].
Qed.

Local Ltac by_evaluation :=
  match goal with |- ?P => apply (bool_decide_unpack P); vm_compute; exact I end.

Lemma cycle_profit_outcomes_witness :
  calculate_cycle_profit ["Gold"] = Ok (NInt 1) ∧
  (∃ f, calculate_cycle_profit ["SeaShells"; "Snowballs"; "SeaShells"] = Ok (NFloat f)) ∧
  calculate_cycle_profit ["SeaShells"; "Gold"; "SeaShells"] = Raise KeyError.
Proof.
  split; [|split].
  - apply (cycle_profit_outcomes ["Gold"]). simpl. lia.
  - apply (cycle_profit_outcomes ["SeaShells"; "Snowballs"; "SeaShells"]).
    + simpl. lia.
    + by_evaluation.
  - apply (cycle_profit_outcomes ["SeaShells"; "Gold"; "SeaShells"]).
    + simpl. lia.
    + by_evaluation.
Defined.

(** ** The search over the cycles *)

Lemma selections_spec {A} (pool : list A) (y : A) (rest : list A) :
  (y, rest) ∈ selections pool ↔ ∃ l1 l2, pool = l1 ++ y :: l2 ∧ rest = l1 ++ l2.
Proof.
  revert rest. induction pool as [|x pool IH]; intros rest; simpl.
  - split; [by intros ?%elem_of_nil|]. intros (l1 & l2 & H & _). by destruct l1.
  - rewrite elem_of_cons, list_elem_of_fmap. split.
    + intros [[= -> ->]|([y' rest'] & [= -> ->] & Hin)].
      * by exists [], pool.
      * apply IH in Hin as (l1 & l2 & -> & ->). by exists (x :: l1), l2.
    + intros (l1 & l2 & Hpool & ->). destruct l1 as [|x' l1]; simpl in *.
      * injection Hpool as -> ->. by left.
      * injection Hpool as -> ->. right. exists (y, l1 ++ l2). split; [done|].
        apply IH. by exists l1, l2.
Qed.

(** On a pool without repetition the arrangements of [r] elements are
    the lists of length [r] without repetition drawn from the pool. *)
Lemma permutations_spec {A} (r : nat) (pool x : list A) :
  NoDup pool →
  x ∈ permutations r pool ↔ length x = r ∧ NoDup x ∧ x ⊆ pool.
Proof.
  revert pool x. induction r as [|r IH]; intros pool x Hpool.
  - simpl. rewrite list_elem_of_singleton. split.
    + intros ->. split; [done|]. split; [constructor|]. by intros ? ?%elem_of_nil.
    + intros [Hlen _]. by destruct x.
  - cbn [permutations]. rewrite list_elem_of_bind. split.
    + intros ([y rest] & Hx & (l1 & l2 & -> & ->)%selections_spec).
      apply list_elem_of_fmap in Hx as (x' & -> & Hx').
      apply NoDup_app in Hpool as (H1 & H12 & H2%NoDup_cons).
      destruct H2 as [Hy2 H2].
      assert (Hrest : NoDup (l1 ++ l2)).
      { apply NoDup_app. split; [done|]. split; [|done].
        intros z Hz1 Hz2. apply (H12 z Hz1). by right. }
      apply (IH _ _ Hrest) in Hx' as (Hlen & Hnd & Hsub).
      split; [simpl; by rewrite Hlen|]. split.
      * apply NoDup_cons. split; [|done]. intros Hy%Hsub.
        apply elem_of_app in Hy as [Hy|Hy]; [|done]. apply (H12 y Hy). by left.
      * intros z [->|Hz%Hsub]%elem_of_cons.
        -- apply elem_of_app. right. by left.
        -- apply elem_of_app in Hz as [Hz|Hz]; apply elem_of_app;
             [by left|right; by right].
    + intros (Hlen & Hnd & Hsub). destruct x as [|y x']; [done|].
      apply NoDup_cons in Hnd as [Hy Hnd].
      assert (Hin : y ∈ pool) by (apply Hsub; by left).
      apply list_elem_of_split in Hin as (l1 & l2 & ->).
      exists (y, l1 ++ l2). split; [|apply selections_spec; by exists l1, l2].
      apply list_elem_of_fmap. exists x'. split; [done|].
      apply NoDup_app in Hpool as (H1 & H12 & H2%NoDup_cons).
      destruct H2 as [Hy2 H2].
      apply IH.
      * apply NoDup_app. split; [done|]. split; [|done].
        intros z Hz1 Hz2. apply (H12 z Hz1). by right.
      * split; [by injection Hlen|]. split; [done|].
        intros z Hz. assert (Hzp : z ∈ l1 ++ y :: l2) by (apply Hsub; by right).
        apply elem_of_app in Hzp as [Hzp|[->|Hzp]%elem_of_cons]; [| |];
          [apply elem_of_app; by left | done | apply elem_of_app; by right].
Qed.

(** The cycles built are the simple round trips from SeaShells through
    one to three of the other commodities. *)
Lemma full_cycles_spec (cycle : list string) :
  cycle ∈ full_cycles ↔
  ∃ stops, cycle = ["SeaShells"] ++ stops ++ ["SeaShells"] ∧ stops ≠ [] ∧
           NoDup stops ∧ stops ⊆ ["Snowballs"; "Pizza's"; "Silicon Nuggets"].
Proof.
  assert (Hpool : NoDup (removelast commodities)).
  { apply NoDup_cons. split; [by_evaluation|].
    apply NoDup_cons. split; [by_evaluation|].
    apply NoDup_singleton. }
  unfold full_cycles. rewrite list_elem_of_bind. split.
  - intros (r & Hc & Hr). apply list_elem_of_bind in Hc as (stops & Hc & Hstops).
    apply list_elem_of_singleton in Hc as ->.
    apply (permutations_spec _ _ _ Hpool) in Hstops as (Hlen & Hnd & Hsub).
    exists stops. split; [done|]. split; [|done].
    intros ->. apply elem_of_seq in Hr. simpl in Hlen. lia.
  - intros (stops & -> & Hne & Hnd & Hsub).
    assert (Hlen : (length stops ≤ 3)%nat).
    { change 3%nat with (length (removelast commodities)).
      by apply submseteq_length, NoDup_submseteq. }
    exists (length stops). split.
    + apply list_elem_of_bind. exists stops. split; [by apply list_elem_of_singleton|].
      by apply (permutations_spec _ _ _ Hpool).
    + apply elem_of_seq. destruct stops; [done|]. simpl in *. lia.
Qed.

Lemma full_cycles_known (cycle : list string) :
  cycle ∈ full_cycles → Forall (.∈ commodities) cycle.
Proof.
  intros (stops & -> & _ & _ & Hsub)%full_cycles_spec.
  assert (Hshells : "SeaShells" ∈ commodities) by by_evaluation.
  apply Forall_cons. split; [done|]. apply Forall_app. split.
  - apply Forall_forall. intros stop Hstop%Hsub.
    apply elem_of_cons in Hstop as [->|Hstop]; [by_evaluation|].
    apply elem_of_cons in Hstop as [->|Hstop]; [by_evaluation|].
    apply list_elem_of_singleton in Hstop as ->. by_evaluation.
  - by apply Forall_singleton.
Qed.

(** The loop keeps, in order, the cycles whose profit exceeds 1. *)
Lemma search_loop (cycles : list (list string)) (found : list (list string * num)) :
  (∀ cycle, cycle ∈ cycles → ∃ profit, calculate_cycle_profit cycle = Ok profit) →
  ∃ found',
    foldl (λ found full_cycle,
             found ← found;
             profit ← calculate_cycle_profit full_cycle;
             if num_gt profit (NInt 1) then Ok (found ++ [(full_cycle, profit)])
             else Ok found)
          (Ok found) cycles = Ok found' ∧
    ∀ cycle profit,
      (cycle, profit) ∈ found' ↔
      (cycle, profit) ∈ found ∨
      cycle ∈ cycles ∧ calculate_cycle_profit cycle = Ok profit ∧
      num_gt profit (NInt 1) = true.
Proof.
  revert found. induction cycles as [|c cycles IH]; intros found Hall.
  - exists found. split; [done|]. intros cycle profit. split; [by left|].
    intros [|[?%elem_of_nil _]]; done.
  - destruct (Hall c ltac:(left)) as (p & Hp). cbn [foldl].
    rewrite bind_ret, Hp, bind_ret.
    destruct (num_gt p (NInt 1)) eqn:Hgt.
    + destruct (IH (found ++ [(c, p)])) as (found' & -> & Hfound').
      { intros cycle Hin. apply Hall. by right. }
      exists found'. split; [done|]. intros cycle profit. rewrite Hfound'.
      rewrite elem_of_app, list_elem_of_singleton, elem_of_cons. split.
      * intros [[|[= -> ->]]|(? & ? & ?)]; [by left| |right; split; [by right|done]].
        right. split; [by left|done].
      * intros [|([->|] & Hcp & Hgt')]; [by left; left| |by right].
        left; right. rewrite Hp in Hcp. by injection Hcp as ->.
    + destruct (IH found) as (found' & -> & Hfound').
      { intros cycle Hin. apply Hall. by right. }
      exists found'. split; [done|]. intros cycle profit. rewrite Hfound'.
      rewrite elem_of_cons. split.
      * intros [|(? & ? & ?)]; [by left|right; split; [by right|done]].
      * intros [|([->|] & Hcp & Hgt')]; [by left| |by right].
        rewrite Hp in Hcp. injection Hcp as ->. congruence.
Qed.

(** X15. The search is sound and exhaustive: it never raises, and a
    cycle with its profit is recorded exactly when the cycle is a round
    trip from SeaShells back to SeaShells through one to three of the
    other commodities, each at most once, and its profit as computed by
    [calculate_cycle_profit] exceeds 1. Lengths 4 and 5 add nothing. *)
Theorem profitable_cycles_spec :
  ∃ found,
    profitable_cycles = Ok found ∧
    ∀ cycle profit,
      (cycle, profit) ∈ found ↔
      ∃ stops,
        cycle = ["SeaShells"] ++ stops ++ ["SeaShells"] ∧ stops ≠ [] ∧
        NoDup stops ∧ stops ⊆ ["Snowballs"; "Pizza's"; "Silicon Nuggets"] ∧
        calculate_cycle_profit cycle = Ok profit ∧
        num_gt profit (NInt 1) = true.
Proof.
  destruct (search_loop full_cycles []) as (found & Hfound & Hspec).
  { intros cycle Hknown%full_cycles_known.
    destruct (cycle_profit_from_known (NInt 1) cycle ltac:(by left) Hknown)
      as (profit & Hprofit & _).
    by exists profit. }
  exists found. split; [exact Hfound|].
  intros cycle profit. rewrite Hspec, full_cycles_spec. split.
  - intros [?%elem_of_nil|((stops & Hc & Hne & Hnd & Hsub) & Hp & Hgt)]; [done|].
    by exists stops.
  - intros (stops & Hc & Hne & Hnd & Hsub & Hp & Hgt).
    right. split; [by exists stops|done].
Qed.

(** What the script prints: three cycles, the best one through Pizza's,
    Snowballs and Silicon Nuggets. *)
Example profitable_cycles_found :
  profitable_cycles
  = Ok [ (["SeaShells"; "Snowballs"; "Silicon Nuggets"; "SeaShells"],
          NFloat 1.038232);
         (["SeaShells"; "Snowballs"; "Silicon Nuggets"; "Pizza's"; "SeaShells"],
          NFloat 1.0368384000000002);
         (["SeaShells"; "Pizza's"; "Snowballs"; "Silicon Nuggets"; "SeaShells"],
          NFloat 1.0738728) ].
Proof. vm_compute. reflexivity. Qed.
